(** * ScatterPilot: conversational invoice pipeline

    A shallow embedding of the conversation handler
    (functions/bedrock/conversation.py), the Bedrock client's extractor and
    validator (layers/common/common/bedrock_client.py), the data models
    (layers/common/common/models.py), the rate limiter
    (layers/common/common/security.py), the store helper
    (layers/common/common/dynamodb_helper.py) and the invoice handlers
    (functions/invoices/create.py, get.py, the page size of list.py),
    followed by the properties the specification states about them and by
    further properties of the code.

    Conventions of the embedding.
    - A Python [str] is a [string]; [len] is [String.length].
    - A [Decimal] is an exact rational (or a non-finite value); the rounding
      of the decimal context to 28 significant digits is not modelled.
    - A [date] is its proleptic Gregorian ordinal, a [datetime] keeps the
      fields the code reads (year, month, seconds since the epoch).
    - A Python [dict] decoded from JSON is an association list read from the
      left (keys are unique after decoding).
    - Library functions whose text is not part of the repository
      ([json.loads], the [Decimal] constructor on strings,
      [date.fromisoformat]), the regular-expression screen of
      [sanitize_input] are variables of the sections that hold the code; the
      language model, the clock and the fresh identifiers are fields of the
      environment of a turn. Concrete instances, used to run the code on
      examples, follow the embedding. *)

From Stdlib Require Import ZArith QArith String Ascii List Lia Lqa.
From stdpp Require Import base option gmap strings list.

Local Open Scope string_scope.
Local Open Scope Z_scope.

(** ** Python strings *)

Module PyStr.

(** [str.isspace] on the code points below 256: tab, line feed, vertical
    tab, form feed, carriage return, the four separators 0x1c-0x1f, space,
    next line (U+0085) and no-break space (U+00A0). These are the
    characters [str.strip] removes. *)
Definition isspace (a : ascii) : bool :=
  let n := nat_of_ascii a in
  ((9 <=? n) && (n <=? 13) || (28 <=? n) && (n <=? 32)
   || (n =? 133) || (n =? 160))%nat.

Fixpoint lstrip (s : string) : string :=
  match s with
  | EmptyString => EmptyString
  | String a r => if isspace a then lstrip r else s
  end.

(** [rstrip] by structural recursion: a character is kept when it is not
    white space or when something remains to its right. *)
Fixpoint rstrip (s : string) : string :=
  match s with
  | EmptyString => EmptyString
  | String a r =>
      match rstrip r with
      | EmptyString => if isspace a then EmptyString else String a EmptyString
      | r' => String a r'
      end
  end.

Definition strip (s : string) : string := rstrip (lstrip s).

(** [len(s)] *)
Definition len (s : string) : Z := Z.of_nat (String.length s).

Definition startswith (s p : string) : bool := String.prefix p s.

(** [s[n:]] *)
Fixpoint drop (n : nat) (s : string) : string :=
  match n, s with
  | O, _ => s
  | S _, EmptyString => EmptyString
  | S k, String _ r => drop k r
  end.

(** [s[:n]] for [0 <= n] *)
Fixpoint take (n : nat) (s : string) : string :=
  match n, s with
  | O, _ => EmptyString
  | S _, EmptyString => EmptyString
  | S k, String a r => String a (take k r)
  end.

Definition endswith (s p : string) : bool :=
  (String.length p <=? String.length s)%nat
  && String.eqb (drop (String.length s - String.length p) s) p.

(** [s[:-n]] for [0 < n]: empty when [s] is shorter than [n]. *)
Definition drop_last (n : nat) (s : string) : string :=
  take (String.length s - n) s.

(** the one-character strings of [s], what iterating over a [str] yields *)
Fixpoint chars (s : string) : list string :=
  match s with
  | EmptyString => []
  | String a r => String a EmptyString :: chars r
  end.

End PyStr.

(** ** Decimals and JSON values *)

(** A [decimal.Decimal]: a finite value, or NaN / an infinity. *)
Inductive Decimal : Type :=
  | Finite (q : Q)
  | NonFinite.

Set Warnings "-register-all".

(** The value [json.loads] returns, and what the store returns for an
    attribute that held one. Python tells three kinds of numbers apart:
    - an [int], which [json.loads] returns for a numeral without fraction
      or exponent;
    - a [float], which it returns for any other numeral; it is kept as the
      [Decimal] that [Decimal(str(x))] denotes: [str] of a [float] is the
      shortest numeral that reads back to it (for a literal such as 0.10
      that is the literal's value), [nan] and [inf] give the non-finite
      decimals;
    - a [Decimal], which is what boto3 returns for every number it reads
      from the store. *)
Inductive json : Type :=
  | JNull
  | JBool (b : bool)
  | JInt (n : Z)
  | JFloat (d : Decimal)
  | JDecimal (d : Decimal)
  | JStr (s : string)
  | JArr (xs : list json)
  | JObj (kvs : list (string * json)).

(** [dict.get(k)] *)
Fixpoint dict_get (k : string) (kvs : list (string * json)) : option json :=
  match kvs with
  | [] => None
  | (k', v) :: r => if String.eqb k k' then Some v else dict_get k r
  end.

(** [k in d] *)
Definition dict_has (k : string) (kvs : list (string * json)) : bool :=
  match dict_get k kvs with Some _ => true | None => false end.

(** ** Exceptions inside the validator *)

(** The three classes the validator's [except] clauses tell apart:
    [KeyError], [ValueError] (pydantic's [ValidationError] is one) and any
    other [Exception] ([TypeError], [AttributeError],
    [decimal.InvalidOperation], [OverflowError]). *)
Inductive PyExn : Type :=
  | KeyError (k : string)
  | ValueError
  | OtherError.

Inductive Try (A : Type) : Type :=
  | Done (a : A)
  | Raised (e : PyExn).
Arguments Done {A} a.
Arguments Raised {A} e.

Definition try_bind {A B : Type} (m : Try A) (k : A -> Try B) : Try B :=
  match m with
  | Done a => k a
  | Raised e => Raised e
  end.

Declare Scope try_scope.
Delimit Scope try_scope with try.
Notation "'let?' x ':=' m 'in' k" := (try_bind m (fun x => k))
  (at level 10, x pattern, m at level 100, k at level 200) : try_scope.
Local Open Scope try_scope.

Fixpoint try_map {A B : Type} (f : A -> Try B) (l : list A) : Try (list B) :=
  match l with
  | [] => Done []
  | x :: r =>
      let? y := f x in
      let? ys := try_map f r in
      Done (y :: ys)
  end.

(** [v[k]] for a string key [k]: only a [dict] can be subscripted by a
    string; a missing key is a [KeyError], any other receiver a
    [TypeError]. *)
Definition subscript (v : json) (k : string) : Try json :=
  match v with
  | JObj kvs =>
      match dict_get k kvs with
      | Some x => Done x
      | None => Raised (KeyError k)
      end
  | _ => Raised OtherError
  end.

(** [v.get(k, default)]: an [AttributeError] unless [v] is a [dict]. *)
Definition get_default (v : json) (k : string) (default : json) : Try json :=
  match v with
  | JObj kvs => Done (match dict_get k kvs with Some x => x | None => default end)
  | _ => Raised OtherError
  end.

(** [for item in v]: a list yields its elements, a dict its keys, a string
    its characters; anything else is not iterable. *)
Definition py_iter (v : json) : Try (list json) :=
  match v with
  | JArr xs => Done xs
  | JObj kvs => Done (map (fun kv => JStr (fst kv)) kvs)
  | JStr s => Done (map JStr (PyStr.chars s))
  | _ => Raised OtherError
  end.

(** ** Dates *)

Module PyDate.

(** [date.max.toordinal()], the ordinal of 9999-12-31 *)
Definition MAXORDINAL : Z := 3652059.

(** [d + timedelta(days=n)]: [OverflowError] outside [date.min, date.max] *)
Definition add_days (d n : Z) : Try Z :=
  let r := d + n in
  if (1 <=? r) && (r <=? MAXORDINAL) then Done r else Raised OtherError.

Definition is_leap (y : Z) : bool :=
  (y mod 4 =? 0) && (negb (y mod 100 =? 0) || (y mod 400 =? 0)).

Definition days_in_month (y m : Z) : Z :=
  if m =? 2 then (if is_leap y then 29 else 28)
  else if (m =? 4) || (m =? 6) || (m =? 9) || (m =? 11) then 30 else 31.

Definition days_before_year (y : Z) : Z :=
  let p := y - 1 in p * 365 + p / 4 - p / 100 + p / 400.

Fixpoint days_before_month_aux (y : Z) (m : nat) : Z :=
  match m with
  | O => 0
  | S k => days_before_month_aux y k + days_in_month y (Z.of_nat (S k))
  end.

Definition days_before_month (y m : Z) : Z :=
  days_before_month_aux y (Z.to_nat (m - 1)).

Definition ymd2ord (y m d : Z) : Z :=
  days_before_year y + days_before_month y m + d.

Definition digit (a : ascii) : option Z :=
  let n := Z.of_nat (nat_of_ascii a) in
  if (48 <=? n) && (n <=? 57) then Some (n - 48) else None.

Fixpoint number_aux (acc : Z) (s : string) : option Z :=
  match s with
  | EmptyString => Some acc
  | String a r =>
      match digit a with
      | Some d => number_aux (acc * 10 + d) r
      | None => None
      end
  end.

Definition number (s : string) : option Z := number_aux 0 s.

(** [date(y, m, d)]: [ValueError] unless the fields name a day *)
Definition make (y m d : Z) : option Z :=
  if (1 <=? y) && (y <=? 9999) && (1 <=? m) && (m <=? 12)
     && (1 <=? d) && (d <=? days_in_month y m)
  then Some (ymd2ord y m d) else None.

(** [date.fromisoformat] on the extended format YYYY-MM-DD, the one format
    every version of the function reads. *)
Definition iso_date (s : string) : option Z :=
  if (String.length s =? 10)%nat
     && String.eqb (substring 4 1 s) "-" && String.eqb (substring 7 1 s) "-"
  then
    match number (substring 0 4 s), number (substring 5 2 s),
          number (substring 8 2 s) with
    | Some y, Some m, Some d => make y m d
    | _, _, _ => None
    end
  else None.

End PyDate.

(** ** Data models (models.py) *)

Inductive InvoiceStatus : Type := DRAFT | PENDING | PAID | CANCELLED.

Inductive ConversationState : Type :=
  | INITIATED
  | GATHERING_INFO
  | REVIEWING
  | COMPLETED
  | ABANDONED.

Definition Qgtb (x y : Q) : bool := negb (Qle_bool x y).

(** [sum(...)] of decimals, from the integer 0 *)
Definition Qsum (l : list Q) : Q := fold_left Qplus l 0%Q.

Module LineItem.

Record t : Type := mk {
  description : string;
  quantity : Q;
  unit_price : Q;
  taxable : bool
}.

Definition total (i : t) : Q := (quantity i * unit_price i)%Q.

(** The constructor with pydantic's checks: [description] a string of 1 to
    500 characters (then stripped by [sanitize_description]), [quantity]
    finite and > 0, [unit_price] finite and >= 0; [taxable] is taken from
    the keyword argument when one is passed, else defaults to [True]. *)
Definition create (description : json) (quantity unit_price : Decimal)
    (taxable : option bool) : Try t :=
  match description, quantity, unit_price with
  | JStr s, Finite q, Finite p =>
      if (1 <=? String.length s)%nat && (String.length s <=? 500)%nat
         && Qgtb q 0 && Qle_bool 0 p
      then Done (mk (PyStr.strip s) q p
                    (match taxable with Some b => b | None => true end))
      else Raised ValueError
  | _, _, _ => Raised ValueError
  end.

End LineItem.

(** An optional string field with a maximal length: absent or [null] is
    [None], a string within the bound is kept, anything else is a
    [ValidationError]. *)
Definition optional_str (max_length : nat) (v : option json) : Try (option string) :=
  match v with
  | None | Some JNull => Done None
  | Some (JStr s) =>
      if (String.length s <=? max_length)%nat then Done (Some s) else Raised ValueError
  | Some _ => Raised ValueError
  end.

Module InvoiceData.

Record t : Type := mk {
  customer_name : string;
  customer_email : option string;
  customer_address : option string;
  invoice_date : Z;
  due_date : Z;
  invoice_number : option string;
  line_items : list LineItem.t;
  tax_rate : Q;
  discount : Q;
  notes : option string
}.

Definition subtotal (d : t) : Q :=
  Qsum (map LineItem.total (line_items d)).

Definition taxable_subtotal (d : t) : Q :=
  Qsum (map LineItem.total (filter (fun i => LineItem.taxable i = true) (line_items d))).

Definition tax_amount (d : t) : Q :=
  if Qeq_bool (subtotal d) 0 then 0%Q
  else
    let taxable_ratio :=
      if Qgtb (subtotal d) 0 then (taxable_subtotal d / subtotal d)%Q else 0%Q in
    let taxable_discount := (discount d * taxable_ratio)%Q in
    ((taxable_subtotal d - taxable_discount) * tax_rate d)%Q.

Definition total (d : t) : Q :=
  (subtotal d - discount d + tax_amount d)%Q.

(** [validate_due_date] *)
Definition validate_due_date (v invoice_date : Z) : Try Z :=
  if v <? invoice_date then Raised ValueError else Done v.

(** The constructor as the validator calls it, with pydantic's checks:
    [customer_name] a string of 1 to 200 characters, the optional strings
    within their bounds, the due date not before the invoice date, at
    least one line item, [tax_rate] finite in [0, 1], [discount] finite
    and >= 0. *)
Definition create (customer_name : json)
    (customer_email customer_address : option json)
    (invoice_date due_date : Z) (line_items : list LineItem.t)
    (tax_rate discount : Decimal) (notes : option json) : Try t :=
  match customer_name, tax_rate, discount with
  | JStr name, Finite rate, Finite disc =>
      if (1 <=? String.length name)%nat && (String.length name <=? 200)%nat then
        let? email := optional_str 254 customer_email in
        let? address := optional_str 500 customer_address in
        let? due := validate_due_date due_date invoice_date in
        if (1 <=? length line_items)%nat
           && Qle_bool 0 rate && Qle_bool rate 1 && Qle_bool 0 disc
        then
          let? notes' := optional_str 1000 notes in
          Done (mk name email address invoice_date due None line_items
                   rate disc notes')
        else Raised ValueError
      else Raised ValueError
  | _, _, _ => Raised ValueError
  end.

End InvoiceData.

(** ** The invoice validator (bedrock_client.py) *)

(** Why a payload is rejected: the three messages of
    [validate_and_parse_invoice_data], one per [except] clause. *)
Inductive Rejection : Type :=
  | MissingRequiredField (k : string)
  | InvalidDataFormat
  | FailedToParse.

Inductive Validated : Type :=
  | Valid (d : InvoiceData.t)
  | Invalid (r : Rejection).

Section Validator.

(** [Decimal(s)] on a string: [None] when the constructor raises
    [InvalidOperation]. *)
Variable decimal_of_string : string -> option Decimal.

(** [date.fromisoformat(s)] on a string: [None] when it raises
    [ValueError]. *)
Variable fromisoformat : string -> option Z.

(** [Decimal(str(v))]: [str] of [None], a [bool], a list or a dict is
    never a numeral. *)
Definition Decimal_of_str (v : json) : Try Decimal :=
  match v with
  | JInt n => Done (Finite (inject_Z n))
  | JFloat d | JDecimal d => Done d
  | JStr s =>
      match decimal_of_string s with
      | Some d => Done d
      | None => Raised OtherError
      end
  | _ => Raised OtherError
  end.

(** [date.fromisoformat(v)]: a [TypeError] unless [v] is a string. *)
Definition date_fromisoformat (v : json) : Try Z :=
  match v with
  | JStr s =>
      match fromisoformat s with
      | Some d => Done d
      | None => Raised ValueError
      end
  | _ => Raised OtherError
  end.

(** [v.get(k)] *)
Definition get (v : json) (k : string) : Try (option json) :=
  match v with
  | JObj kvs => Done (dict_get k kvs)
  | _ => Raised OtherError
  end.

(** The body of the loop over the raw line items: the keyword arguments
    are evaluated from left to right, then [LineItem] is built from
    [description], [quantity] and [unit_price] only. *)
Definition parse_line_item (item : json) : Try LineItem.t :=
  let? description := subscript item "description" in
  let? q := subscript item "quantity" in
  let? quantity := Decimal_of_str q in
  let? p := subscript item "unit_price" in
  let? unit_price := Decimal_of_str p in
  LineItem.create description quantity unit_price None.

(** The dates after the two corrections: an invoice date more than 90 days
    before [today] becomes [today]; a due date before the invoice date
    becomes the invoice date plus 30 days. The third comparison only
    logs, its [timedelta] sum is still computed. *)
Definition correct_dates (today invoice_date due_date : Z) : Try (Z * Z) :=
  let? oldest := PyDate.add_days today (-90) in
  let invoice_date := if invoice_date <? oldest then today else invoice_date in
  let? due_date :=
    if due_date <? invoice_date then PyDate.add_days invoice_date 30
    else Done due_date in
  let? _ := PyDate.add_days today 365 in
  Done (invoice_date, due_date).

(** The [try] block of [validate_and_parse_invoice_data]. The default of
    [tax_rate] and [discount], the string '0.00', is written as the
    number it denotes. *)
Definition parse_invoice_data (today : Z) (data : json) : Try InvoiceData.t :=
  let? invoice_dict := get_default data "data" (JObj []) in
  let? raw_items := get_default invoice_dict "line_items" (JArr []) in
  let? items := py_iter raw_items in
  let? line_items := try_map parse_line_item items in
  let? raw_invoice_date := subscript invoice_dict "invoice_date" in
  let? invoice_date := date_fromisoformat raw_invoice_date in
  let? raw_due_date := subscript invoice_dict "due_date" in
  let? due_date := date_fromisoformat raw_due_date in
  let? dates := correct_dates today invoice_date due_date in
  let? customer_name := subscript invoice_dict "customer_name" in
  let? customer_email := get invoice_dict "customer_email" in
  let? customer_address := get invoice_dict "customer_address" in
  let? raw_tax_rate := get_default invoice_dict "tax_rate" (JInt 0) in
  let? tax_rate := Decimal_of_str raw_tax_rate in
  let? raw_discount := get_default invoice_dict "discount" (JInt 0) in
  let? discount := Decimal_of_str raw_discount in
  let? notes := get invoice_dict "notes" in
  InvoiceData.create customer_name customer_email customer_address
    (fst dates) (snd dates) line_items tax_rate discount notes.

Definition validate_and_parse_invoice_data (today : Z) (data : json) : Validated :=
  match parse_invoice_data today data with
  | Done d => Valid d
  | Raised (KeyError k) => Invalid (MissingRequiredField k)
  | Raised ValueError => Invalid InvalidDataFormat
  | Raised OtherError => Invalid FailedToParse
  end.

End Validator.

(** ** The structured-output extractor (bedrock_client.py) *)

Section Extractor.

(** [json.loads(s)]: [None] when it raises. *)
Variable json_loads : string -> option json.

(** The text the extractor hands to the parser: stripped, without a
    leading [```json] or [```], without a trailing [```], stripped
    again. *)
Definition clean_response (response : string) : string :=
  let json_str := PyStr.strip response in
  let json_str :=
    if PyStr.startswith json_str "```json" then PyStr.drop 7 json_str
    else json_str in
  let json_str :=
    if PyStr.startswith json_str "```" then PyStr.drop 3 json_str
    else json_str in
  let json_str :=
    if PyStr.endswith json_str "```" then PyStr.drop_last 3 json_str
    else json_str in
  PyStr.strip json_str.

(** [_extract_json_from_response]: both [except] clauses fall through to
    [return None]. *)
Definition extract_json_from_response (response : string) : option json :=
  let json_str := clean_response response in
  if PyStr.startswith json_str "{" then
    match json_loads json_str with
    | Some (JObj kvs) =>
        if dict_has "action" kvs then Some (JObj kvs) else None
    | Some _ => None
    | None => None
    end
  else None.

End Extractor.

(** ** Records of the store (models.py) *)

(** A [datetime], reduced to what the code reads: the calendar month and
    the seconds since the epoch. *)
Record datetime : Type := mk_datetime {
  year : Z;
  month : Z;
  seconds : Z
}.

Inductive Role : Type := role_user | role_assistant.

Module Message.

Record t : Type := mk {
  role : Role;
  content : string;
  timestamp : datetime
}.

(** pydantic's check of [content]: 1 to 10000 characters *)
Definition valid_content (s : string) : bool :=
  (1 <=? PyStr.len s) && (PyStr.len s <=? 10000).

End Message.

Module Conversation.

Record t : Type := mk {
  conversation_id : string;
  user_id : string;
  state : ConversationState;
  messages : list Message.t;
  extracted_data : option json;
  created_at : datetime;
  updated_at : datetime
}.

(** [Conversation(user_id=..., state=...)] *)
Definition create (id owner : string) (s : ConversationState) (now : datetime) : t :=
  mk id owner s [] None now now.

Definition set_conversation_id (id : string) (c : t) : t :=
  mk id (user_id c) (state c) (messages c) (extracted_data c)
     (created_at c) (updated_at c).

Definition set_state (s : ConversationState) (c : t) : t :=
  mk (conversation_id c) (user_id c) s (messages c) (extracted_data c)
     (created_at c) (updated_at c).

Definition set_extracted_data (d : option json) (c : t) : t :=
  mk (conversation_id c) (user_id c) (state c) (messages c) d
     (created_at c) (updated_at c).

Definition set_updated_at (now : datetime) (c : t) : t :=
  mk (conversation_id c) (user_id c) (state c) (messages c) (extracted_data c)
     (created_at c) now.

(** [add_message]: [None] when [Message] rejects the content. *)
Definition add_message (r : Role) (text : string) (now : datetime) (c : t) : option t :=
  if Message.valid_content text then
    Some (mk (conversation_id c) (user_id c) (state c)
             (messages c ++ [Message.mk r text now]) (extracted_data c)
             (created_at c) now)
  else None.

End Conversation.

Module Invoice.

Record t : Type := mk {
  invoice_id : string;
  user_id : string;
  conversation_id : option string;
  data : InvoiceData.t;
  status : InvoiceStatus;
  pdf_s3_key : option string;
  created_at : datetime;
  updated_at : datetime
}.

Definition set_invoice_id (id : string) (i : t) : t :=
  mk id (user_id i) (conversation_id i) (data i) (status i) (pdf_s3_key i)
     (created_at i) (updated_at i).

End Invoice.

Module RateLimit.

Record t : Type := mk {
  user_id : string;
  request_count : Z;
  window_start : datetime;
  ttl : Z
}.

Definition set_user_id (owner : string) (r : t) : t :=
  mk owner (request_count r) (window_start r) (ttl r).

Definition create_new (owner : string) (window_seconds : Z) (now : datetime) : t :=
  mk owner 1 now (seconds now + window_seconds).

Definition increment (r : t) : t :=
  mk (user_id r) (request_count r + 1) (window_start r) (ttl r).

Definition is_expired (r : t) (window_seconds : Z) (now : datetime) : bool :=
  let elapsed := seconds now - seconds (window_start r) in
  window_seconds <=? elapsed.

End RateLimit.

(** ** The rate limiter (security.py) *)

Module RateLimiter.

Record t : Type := mk {
  max_requests : Z;
  window_seconds : Z
}.

Definition check_limit (l : t) (current_count : Z) (window_start now : datetime) : bool :=
  let elapsed := seconds now - seconds window_start in
  if window_seconds l <=? elapsed then true
  else current_count <? max_requests l.

(** seconds since the epoch of the reset time *)
Definition get_reset_time (l : t) (window_start : datetime) : Z :=
  seconds window_start + window_seconds l.

End RateLimiter.

(** ** Input sanitisation (security.py) *)

(** The messages of error responses and exceptions: a literal, or one of
    the two formatted ones ("Rate limit exceeded. Try again after ..." with
    the reset time, "Input exceeds maximum length of ..." with the
    bound). *)
Inductive ErrorMessage : Type :=
  | Literal (text : string)
  | TryAgainAfter (reset_time : Z)
  | ExceedsMaximumLength (max_length : Z).

Section Sanitize.

(** Whether one of [DANGEROUS_PATTERNS], respectively
    [SQL_INJECTION_PATTERNS], is found in the text. *)
Variable dangerous : string -> bool.
Variable sql_injection : string -> bool.

(** [html.escape(text, quote=True)] *)
Fixpoint html_escape (s : string) : string :=
  match s with
  | EmptyString => EmptyString
  | String a r =>
      let e := html_escape r in
      if Ascii.eqb a "&" then "&amp;" ++ e
      else if Ascii.eqb a "<" then "&lt;" ++ e
      else if Ascii.eqb a ">" then "&gt;" ++ e
      else if Ascii.eqb a (ascii_of_nat 34) then "&quot;" ++ e
      else if Ascii.eqb a "'" then "&#x27;" ++ e
      else String a e
  end%string.

(** [text.replace('\x00', '')] *)
Fixpoint remove_nul (s : string) : string :=
  match s with
  | EmptyString => EmptyString
  | String a r => if Ascii.eqb a zero then remove_nul r else String a (remove_nul r)
  end.

(** [sanitize_input]: the message of the [InputValidationError], or the
    sanitised text. *)
Definition sanitize_input (text : string) (max_length : Z)
    : ErrorMessage + string :=
  if max_length <? PyStr.len text then
    inl (ExceedsMaximumLength max_length)
  else if dangerous text then
    inl (Literal "Input contains potentially dangerous content")
  else if sql_injection text then
    inl (Literal "Input contains potentially dangerous SQL patterns")
  else inr (PyStr.strip (remove_nul (html_escape text))).

End Sanitize.

(** ** The store and the outside world *)

(** A record of the subscriptions table, reduced to the attributes the
    conversation handler reads or writes; each may be absent. *)
Module Subscription.

Record t : Type := mk {
  subscription_status : option string;
  invoices_this_month : option Z;
  invoice_count_reset_at : option datetime
}.

End Subscription.

(** What a turn does to the outside, in order: the writes that reached the
    store and the calls to the language model. The log is ghost state, it
    is never read by the code. *)
Inductive Event : Type :=
  | RateLimitPut (r : RateLimit.t)
  | ConversationPut (c : Conversation.t)
  | InvoicePut (i : Invoice.t)
  | SubscriptionWrite (owner : string) (s : Subscription.t)
  | ModelInvoked (history : list Message.t).

(** The four tables, the outcome of the next calls to the store ([true]:
    the call raises [ClientError]; an empty list: every call succeeds) and
    the log. *)
Record World : Type := mk_world {
  conversations : gmap string Conversation.t;
  invoices : gmap string Invoice.t;
  rate_limits : gmap string RateLimit.t;
  subscriptions : gmap string Subscription.t;
  faults : list bool;
  trace : list Event
}.

(** ** Responses *)

(** The [response_data] dictionaries of the handler, by shape. *)
Inductive ResponseData : Type :=
  | UsageLimitReached (conversation_id : string) (invoices_this_month limit : Z)
  | InvoiceReady (conversation_id message invoice_id : string)
      (invoice_data : InvoiceData.t) (invoices_remaining : option Z)
  | InvoiceIssues (conversation_id : string) (reason : Rejection)
  | Cancelled (conversation_id message : string)
  | KeepGathering (conversation_id message : string).

Inductive Response : Type :=
  | ErrorResponse (statusCode : Z) (message : ErrorMessage) (error_type : string)
  | SuccessResponse (data : ResponseData).

(** ** The handler's monad: state, exceptions and early return *)

Inductive Exception : Type :=
  | InputValidationError (message : string)
  | DynamoDBException
  | BedrockException
  | UnexpectedError.

Inductive Outcome (A : Type) : Type :=
  | Value (a : A)
  | Returned (r : Response)
  | Thrown (e : Exception).
Arguments Value {A} a.
Arguments Returned {A} r.
Arguments Thrown {A} e.

Definition M (A : Type) : Type := World -> Outcome A * World.

Definition ret {A : Type} (a : A) : M A := fun w => (Value a, w).

Definition bind {A B : Type} (m : M A) (k : A -> M B) : M B :=
  fun w =>
    match m w with
    | (Value a, w') => k a w'
    | (Returned r, w') => (Returned r, w')
    | (Thrown e, w') => (Thrown e, w')
    end.

Definition return_ {A : Type} (r : Response) : M A := fun w => (Returned r, w).

Definition throw {A : Type} (e : Exception) : M A := fun w => (Thrown e, w).

Declare Scope handler_scope.
Delimit Scope handler_scope with handler.
Notation "'let!' x ':=' m 'in' k" := (bind m (fun x => k))
  (at level 10, x pattern, m at level 100, k at level 200) : handler_scope.
Notation "m ';;' k" := (bind m (fun _ => k))
  (at level 100, k at level 200, right associativity) : handler_scope.
Local Open Scope handler_scope.

Definition log (e : Event) : M unit :=
  fun w => (Value tt,
            mk_world (conversations w) (invoices w) (rate_limits w)
                     (subscriptions w) (faults w) (trace w ++ [e])).

(** One call to the store through boto3: it raises when the next entry of
    [faults] says so, and the helper turns that into a
    [DynamoDBException]. *)
Definition store_call : M unit :=
  fun w =>
    match faults w with
    | [] => (Value tt, w)
    | b :: rest =>
        let w' := mk_world (conversations w) (invoices w) (rate_limits w)
                           (subscriptions w) rest (trace w) in
        if b then (Thrown DynamoDBException, w') else (Value tt, w')
    end.

(** ** What boto3 writes and reads

    [put_item] serializes the item before any request is sent, and
    [get_item] deserializes what the store answers. *)

(** Whether [TypeSerializer] accepts the value. A [float] is a
    [TypeError] ("Float types are not supported. Use Decimal types
    instead."); an [int] goes through the decimal context of the
    serializer, whose precision is 38 digits and which traps [Rounded], so
    an [int] of more than 38 digits raises [decimal.Rounded]; a [Decimal]
    that was read from the store is written back as it is. *)
Fixpoint serializable (v : json) : bool :=
  match v with
  | JInt n => Z.abs n <? 10 ^ 38
  | JFloat _ => false
  | JArr xs => forallb serializable xs
  | JObj kvs => forallb (fun kv => serializable (snd kv)) kvs
  | _ => true
  end.

(** ... the [extracted_data] of a conversation, [None] being written as
    NULL. *)
Definition storable (extracted_data : option json) : bool :=
  match extracted_data with
  | Some v => serializable v
  | None => true
  end.

(** What [TypeDeserializer] returns for a stored value: every number is a
    [Decimal]. *)
Fixpoint deserialize (v : json) : json :=
  match v with
  | JInt n => JDecimal (Finite (inject_Z n))
  | JFloat d => JDecimal d
  | JArr xs => JArr (map deserialize xs)
  | JObj kvs => JObj (map (fun kv => (fst kv, deserialize (snd kv))) kvs)
  | _ => v
  end.

(** ** The store helper (dynamodb_helper.py) *)

Module DynamoDBHelper.

(** An item read by its key carries the key as its key attribute. *)
Definition get_rate_limit (owner : string) : M (option RateLimit.t) :=
  store_call ;;
  fun w =>
    (Value match rate_limits w !! owner with
           | Some r => Some (RateLimit.set_user_id owner r)
           | None => None
           end, w).

Definition update_rate_limit (r : RateLimit.t) : M unit :=
  store_call ;;
  (fun w => (Value tt,
             mk_world (conversations w) (invoices w)
                      (<[RateLimit.user_id r := r]> (rate_limits w))
                      (subscriptions w) (faults w) (trace w))) ;;
  log (RateLimitPut r).

(** [put_item(Item=conversation.to_dynamodb())]: [extracted_data] is
    handed to boto3 as it is, and what the serializer raises is not a
    [ClientError], so it leaves the helper as it is, before the store is
    called. *)
Definition put_conversation (c : Conversation.t) : M unit :=
  if storable (Conversation.extracted_data c) then
    store_call ;;
    (fun w => (Value tt,
               mk_world (<[Conversation.conversation_id c := c]> (conversations w))
                        (invoices w) (rate_limits w) (subscriptions w)
                        (faults w) (trace w))) ;;
    log (ConversationPut c)
  else throw UnexpectedError.

Definition create_conversation (c : Conversation.t) : M unit :=
  put_conversation c.

(** [_item_to_conversation]: the numbers of [extracted_data] come back as
    the store returns them. *)
Definition item_to_conversation (item : Conversation.t) : Conversation.t :=
  Conversation.set_extracted_data
    (option_map deserialize (Conversation.extracted_data item)) item.

Definition get_conversation (id : string) : M (option Conversation.t) :=
  store_call ;;
  fun w =>
    (Value match conversations w !! id with
           | Some c =>
               Some (item_to_conversation (Conversation.set_conversation_id id c))
           | None => None
           end, w).

(** [update_conversation]: stamps [updated_at], then overwrites; the
    stamped object is the caller's. *)
Definition update_conversation (now : datetime) (c : Conversation.t)
    : M Conversation.t :=
  let c' := Conversation.set_updated_at now c in
  put_conversation c' ;; ret c'.

Definition create_invoice (i : Invoice.t) : M unit :=
  store_call ;;
  (fun w => (Value tt,
             mk_world (conversations w)
                      (<[Invoice.invoice_id i := i]> (invoices w))
                      (rate_limits w) (subscriptions w) (faults w) (trace w))) ;;
  log (InvoicePut i).

Definition get_user_subscription (owner : string) : M (option Subscription.t) :=
  store_call ;; fun w => (Value (subscriptions w !! owner), w).

Definition write_subscription (owner : string) (s : Subscription.t) : M unit :=
  (fun w => (Value tt,
             mk_world (conversations w) (invoices w) (rate_limits w)
                      (<[owner := s]> (subscriptions w)) (faults w) (trace w))) ;;
  log (SubscriptionWrite owner s).

(** [update_item] creates the item when there is none. *)
Definition absent_subscription : Subscription.t :=
  Subscription.mk None None None.

Definition increment_monthly_invoice_count (owner : string) : M Z :=
  store_call ;;
  let! old := (fun w => (Value (default absent_subscription (subscriptions w !! owner)), w)) in
  let n := default 0 (Subscription.invoices_this_month old) + 1 in
  write_subscription owner
    (Subscription.mk (Subscription.subscription_status old) (Some n)
                     (Subscription.invoice_count_reset_at old)) ;;
  ret n.

Definition reset_monthly_invoice_count (owner : string) (now : datetime) : M unit :=
  store_call ;;
  let! old := (fun w => (Value (default absent_subscription (subscriptions w !! owner)), w)) in
  write_subscription owner
    (Subscription.mk (Subscription.subscription_status old) (Some 0) (Some now)).

(** [check_and_reset_monthly_count]: the subscription the caller goes on
    with. *)
Definition check_and_reset_monthly_count (owner : string) (now : datetime)
    : M Subscription.t :=
  let! subscription := get_user_subscription owner in
  match subscription with
  | None =>
      store_call ;;
      write_subscription owner (Subscription.mk (Some "free") (Some 0) (Some now)) ;;
      ret (Subscription.mk (Some "free") (Some 0) None)
  | Some s =>
      match Subscription.invoice_count_reset_at s with
      | Some reset_date =>
          if negb (month reset_date =? month now) || negb (year reset_date =? year now)
          then
            reset_monthly_invoice_count owner now ;;
            ret (Subscription.mk (Subscription.subscription_status s) (Some 0)
                                 (Subscription.invoice_count_reset_at s))
          else ret s
      | None => ret s
      end
  end.

(** [_item_to_invoice]: the models are built again from the stored item,
    so pydantic checks every field once more. The item holds what
    [to_dynamodb] wrote: [str] of a decimal and [isoformat] of a date read
    back to the same value. [LineItem] is again built from [description],
    [quantity] and [unit_price] only. *)
Definition item_to_line_item (li : LineItem.t) : Try LineItem.t :=
  LineItem.create (JStr (LineItem.description li))
    (Finite (LineItem.quantity li)) (Finite (LineItem.unit_price li)) None.

Definition item_to_invoice (item : Invoice.t) : Try Invoice.t :=
  let d := Invoice.data item in
  let? line_items := try_map item_to_line_item (InvoiceData.line_items d) in
  let? invoice_number :=
    optional_str 50 (option_map JStr (InvoiceData.invoice_number d)) in
  let? data :=
    InvoiceData.create (JStr (InvoiceData.customer_name d))
      (option_map JStr (InvoiceData.customer_email d))
      (option_map JStr (InvoiceData.customer_address d))
      (InvoiceData.invoice_date d) (InvoiceData.due_date d) line_items
      (Finite (InvoiceData.tax_rate d)) (Finite (InvoiceData.discount d))
      (option_map JStr (InvoiceData.notes d)) in
  let data :=
    InvoiceData.mk (InvoiceData.customer_name data)
      (InvoiceData.customer_email data) (InvoiceData.customer_address data)
      (InvoiceData.invoice_date data) (InvoiceData.due_date data)
      invoice_number (InvoiceData.line_items data)
      (InvoiceData.tax_rate data) (InvoiceData.discount data)
      (InvoiceData.notes data) in
  if (1 <=? String.length (Invoice.user_id item))%nat
     && (String.length (Invoice.user_id item) <=? 256)%nat
  then
    Done (Invoice.mk (Invoice.invoice_id item) (Invoice.user_id item)
            (Invoice.conversation_id item) data (Invoice.status item)
            (Invoice.pdf_s3_key item) (Invoice.created_at item)
            (Invoice.updated_at item))
  else Raised ValueError.

(** [get_invoice]: only [ClientError] becomes a [DynamoDBException]; what
    [_item_to_invoice] raises leaves the helper as it is. *)
Definition get_invoice (id : string) : M (option Invoice.t) :=
  store_call ;;
  fun w =>
    match invoices w !! id with
    | None => (Value None, w)
    | Some item =>
        match item_to_invoice (Invoice.set_invoice_id id item) with
        | Done i => (Value (Some i), w)
        | Raised _ => (Thrown UnexpectedError, w)
        end
    end.

End DynamoDBHelper.

(** The standalone [get_invoice(user_id, invoice_id)] of the helper module:
    the invoice when it exists and belongs to the user; every exception is
    swallowed. *)
Definition get_invoice (user_id invoice_id : string) (w : World)
    : option Invoice.t * World :=
  match DynamoDBHelper.get_invoice invoice_id w with
  | (Value (Some invoice), w') =>
      if negb (String.eqb (Invoice.user_id invoice) user_id) then (None, w')
      else (Some invoice, w')
  | (_, w') => (None, w')
  end.

(** ** The conversation handler (functions/bedrock/conversation.py) *)

(** The request body after decoding: [body.get('conversation_id')] and
    [body.get('message', '')]. *)
Module Body.

Record t : Type := mk {
  conversation_id : option string;
  message : string
}.

End Body.

(** What [extract_user_id_from_event] makes of the event: the validated
    Cognito subject, or the message of its [InputValidationError]. *)
Inductive Authorizer : Type :=
  | Authenticated (user_id : string)
  | Unauthenticated (message : string).

(** The API Gateway event; [body] is [None] when the body does not decode
    to an object. *)
Record Request : Type := mk_request {
  authorizer : Authorizer;
  body : option Body.t
}.

(** What a turn reads from its environment: the clock ([datetime.utcnow()]
    and [date.today()], read as one instant), the limiter built from the
    process environment, the identifiers [uuid4()] hands out and the
    language model behind [BedrockClient.converse] ([None]: the call
    raises [BedrockException]). *)
Record Env : Type := mk_env {
  utcnow : datetime;
  today : Z;
  rate_limiter : RateLimiter.t;
  new_conversation_id : string;
  new_invoice_id : string;
  converse : list Message.t -> option string
}.

Definition FREE_TIER_INVOICE_LIMIT : Z := 5.

Section Handler.

Variable json_loads : string -> option json.
Variable decimal_of_string : string -> option Decimal.
Variable fromisoformat : string -> option Z.
Variable dangerous : string -> bool.
Variable sql_injection : string -> bool.

Definition extract_user_id_from_event (event : Request) : M string :=
  match authorizer event with
  | Authenticated user_id => ret user_id
  | Unauthenticated message => throw (InputValidationError message)
  end.

(** Lines 62-99: the message rate check. [is_expired] is called without
    an argument, so it compares with its default of 3600 seconds. *)
Definition check_rate_limit (env : Env) (user_id : string) : M unit :=
  let! rate_limit_record := DynamoDBHelper.get_rate_limit user_id in
  match rate_limit_record with
  | Some r =>
      if negb (RateLimit.is_expired r 3600 (utcnow env)) then
        if negb (RateLimiter.check_limit (rate_limiter env)
                   (RateLimit.request_count r) (RateLimit.window_start r)
                   (utcnow env))
        then
          return_ (ErrorResponse 429
                     (TryAgainAfter
                        (RateLimiter.get_reset_time (rate_limiter env)
                           (RateLimit.window_start r)))
                     "RateLimitExceeded")
        else DynamoDBHelper.update_rate_limit (RateLimit.increment r)
      else
        DynamoDBHelper.update_rate_limit
          (RateLimit.create_new user_id
             (RateLimiter.window_seconds (rate_limiter env)) (utcnow env))
  | None =>
      DynamoDBHelper.update_rate_limit
        (RateLimit.create_new user_id
           (RateLimiter.window_seconds (rate_limiter env)) (utcnow env))
  end.

(** Lines 138-145 *)
Definition new_conversation (env : Env) (user_id : string) : M Conversation.t :=
  let conversation :=
    Conversation.create (new_conversation_id env) user_id INITIATED (utcnow env) in
  DynamoDBHelper.create_conversation conversation ;;
  ret conversation.

(** Lines 107-145: an empty identifier is falsy and opens a new
    conversation like an absent one. *)
Definition get_or_create_conversation (env : Env) (user_id : string)
    (conversation_id : option string) : M Conversation.t :=
  match conversation_id with
  | Some id =>
      if String.eqb id "" then new_conversation env user_id
      else
        let! conversation := DynamoDBHelper.get_conversation id in
        match conversation with
        | None =>
            return_ (ErrorResponse 404 (Literal "Conversation not found") "NotFound")
        | Some c =>
            if negb (String.eqb (Conversation.user_id c) user_id) then
              return_ (ErrorResponse 403
                         (Literal "Not authorized to access this conversation")
                         "Forbidden")
            else ret c
        end
  | None => new_conversation env user_id
  end.

(** Lines 147-161 *)
Definition read_user_message (b : Body.t) : M string :=
  let user_message := PyStr.strip (Body.message b) in
  if String.eqb user_message "" then
    return_ (ErrorResponse 400 (Literal "Message is required") "ValidationError")
  else
    match sanitize_input dangerous sql_injection user_message 2000 with
    | inl e => return_ (ErrorResponse 400 e "ValidationError")
    | inr text => ret text
    end.

(** [BedrockClient.process_conversation_turn]: the user message is added
    to the conversation object, the model is called on the object's
    messages, the reply is searched for a structured action and added to
    the object. A [Message] that pydantic rejects is a [ValueError],
    which no clause of the handler names. *)
Definition process_conversation_turn (env : Env)
    (conversation : Conversation.t) (user_message : string)
    : M (Conversation.t * string * option json) :=
  match Conversation.add_message role_user user_message (utcnow env) conversation with
  | None => throw UnexpectedError
  | Some c1 =>
      log (ModelInvoked (Conversation.messages c1)) ;;
      match converse env (Conversation.messages c1) with
      | None => throw BedrockException
      | Some assistant_message =>
          let extracted_data :=
            extract_json_from_response json_loads assistant_message in
          match Conversation.add_message role_assistant assistant_message
                  (utcnow env) c1 with
          | None => throw UnexpectedError
          | Some c2 => ret (c2, assistant_message, extracted_data)
          end
      end
  end.

(** Lines 178-259: the [create_invoice] action. *)
Definition create_invoice_action (env : Env) (user_id : string)
    (conversation : Conversation.t) (assistant_response : string)
    (extracted_data : json) : M Response :=
  let! subscription :=
    DynamoDBHelper.check_and_reset_monthly_count user_id (utcnow env) in
  let is_pro :=
    match Subscription.subscription_status subscription with
    | Some s => String.eqb s "pro"
    | None => false
    end in
  let invoices_this_month :=
    default 0 (Subscription.invoices_this_month subscription) in
  if negb is_pro && (FREE_TIER_INVOICE_LIMIT <=? invoices_this_month) then
    let conversation := Conversation.set_state COMPLETED conversation in
    DynamoDBHelper.update_conversation (utcnow env) conversation ;;
    return_ (SuccessResponse
               (UsageLimitReached (Conversation.conversation_id conversation)
                  invoices_this_month FREE_TIER_INVOICE_LIMIT))
  else
    let! outcome :=
      match validate_and_parse_invoice_data decimal_of_string fromisoformat
              (today env) extracted_data with
      | Valid invoice_data =>
          let conversation :=
            Conversation.set_state COMPLETED
              (Conversation.set_extracted_data (Some extracted_data) conversation) in
          let invoice :=
            Invoice.mk (new_invoice_id env) user_id
              (Some (Conversation.conversation_id conversation))
              invoice_data DRAFT None (utcnow env) (utcnow env) in
          DynamoDBHelper.create_invoice invoice ;;
          let! new_count := DynamoDBHelper.increment_monthly_invoice_count user_id in
          ret (conversation,
               InvoiceReady (Conversation.conversation_id conversation)
                 assistant_response (Invoice.invoice_id invoice) invoice_data
                 (if is_pro then None
                  else Some (FREE_TIER_INVOICE_LIMIT - new_count)))
      | Invalid e =>
          let conversation := Conversation.set_state GATHERING_INFO conversation in
          ret (conversation,
               InvoiceIssues (Conversation.conversation_id conversation) e)
      end in
    DynamoDBHelper.update_conversation (utcnow env) (fst outcome) ;;
    ret (SuccessResponse (snd outcome)).

(** Lines 174-298: the new state by the extracted action, then the
    conversation is saved. *)
Definition conclude_turn (env : Env) (user_id : string)
    (conversation : Conversation.t) (assistant_response : string)
    (extracted_data : option json) : M Response :=
  let keep_gathering :=
    let conversation := Conversation.set_state GATHERING_INFO conversation in
    DynamoDBHelper.update_conversation (utcnow env) conversation ;;
    ret (SuccessResponse
           (KeepGathering (Conversation.conversation_id conversation)
              assistant_response)) in
  match extracted_data with
  | Some (JObj kvs) =>
      match dict_get "action" kvs with
      | Some (JStr action) =>
          if String.eqb action "create_invoice" then
            create_invoice_action env user_id conversation assistant_response
              (JObj kvs)
          else if String.eqb action "cancel" then
            let conversation := Conversation.set_state ABANDONED conversation in
            DynamoDBHelper.update_conversation (utcnow env) conversation ;;
            ret (SuccessResponse
                   (Cancelled (Conversation.conversation_id conversation)
                      assistant_response))
          else keep_gathering
      | _ => keep_gathering
      end
  | _ => keep_gathering
  end.

(** Lines 49-172: the turn up to and including the model's reply. *)
Definition begin_turn (event : Request) (env : Env)
    : M (string * Conversation.t * string * option json) :=
  let! user_id := extract_user_id_from_event event in
  check_rate_limit env user_id ;;
  match body event with
  | None => throw UnexpectedError
  | Some b =>
      let! conversation :=
        get_or_create_conversation env user_id (Body.conversation_id b) in
      let! user_message := read_user_message b in
      let! turn := process_conversation_turn env conversation user_message in
      let '(conversation, assistant_response, extracted_data) := turn in
      ret (user_id, conversation, assistant_response, extracted_data)
  end.

(** The body of the outer [try]. *)
Definition handle (event : Request) (env : Env) : M Response :=
  let! turn := begin_turn event env in
  let '(user_id, conversation, assistant_response, extracted_data) := turn in
  conclude_turn env user_id conversation assistant_response extracted_data.

(** The [except] clauses of the handler. *)
Definition error_response (e : Exception) : Response :=
  match e with
  | InputValidationError message =>
      ErrorResponse 400 (Literal message) "ValidationError"
  | DynamoDBException =>
      ErrorResponse 500 (Literal "Database error occurred") "DatabaseError"
  | BedrockException =>
      ErrorResponse 500
        (Literal "Failed to process your message. Please try again.")
        "BedrockError"
  | UnexpectedError =>
      ErrorResponse 500 (Literal "An unexpected error occurred") "InternalError"
  end.

Definition handler (event : Request) (env : Env) (w : World) : Response * World :=
  match handle event env w with
  | (Value r, w') => (r, w')
  | (Returned r, w') => (r, w')
  | (Thrown e, w') => (error_response e, w')
  end.

End Handler.

(** ** The feedback handler's rate check (functions/feedback/submit.py)

    The sibling of the message rate check: the same table, keyed by
    "feedback_" and the e-mail address, read and written through boto3
    directly, the whole body inside [try ... except Exception]. *)

Module Feedback.

Definition FEEDBACK_RATE_LIMIT : Z := 3.

Definition FEEDBACK_WINDOW_SECONDS : Z := 3600.

Definition put_item (key : string) (request_count : Z) (window_start now : datetime)
    : M unit :=
  DynamoDBHelper.update_rate_limit
    (RateLimit.mk key request_count window_start
       (seconds now + FEEDBACK_WINDOW_SECONDS + 86400)).

(** The [try] block. *)
Definition check (email : string) (now : datetime) : M (bool * Z) :=
  let rate_limit_key := "feedback_" ++ email in
  let! item := DynamoDBHelper.get_rate_limit rate_limit_key in
  match item with
  | None =>
      put_item rate_limit_key 1 now now ;;
      ret (true, FEEDBACK_RATE_LIMIT - 1)
  | Some r =>
      if FEEDBACK_WINDOW_SECONDS <=? seconds now - seconds (RateLimit.window_start r)
      then
        put_item rate_limit_key 1 now now ;;
        ret (true, FEEDBACK_RATE_LIMIT - 1)
      else if FEEDBACK_RATE_LIMIT <=? RateLimit.request_count r then
        ret (false, 0)
      else
        put_item rate_limit_key (RateLimit.request_count r + 1)
          (RateLimit.window_start r) now ;;
        ret (true, FEEDBACK_RATE_LIMIT - (RateLimit.request_count r + 1))
  end.

(** [check_rate_limit]: "On error, allow the request (fail open)". *)
Definition check_rate_limit (email : string) (now : datetime) (w : World)
    : (bool * Z) * World :=
  match check email now w with
  | (Value a, w') => (a, w')
  | (Returned _, w') => ((true, FEEDBACK_RATE_LIMIT), w')
  | (Thrown _, w') => ((true, FEEDBACK_RATE_LIMIT), w')
  end.

End Feedback.

(** ** Pagination (security.py, functions/invoices/list.py) *)

(** An argument of [validate_pagination_params]: [None], an [int], or a
    value of another type. *)
Inductive Param : Type :=
  | ParamNone
  | ParamInt (n : Z)
  | ParamOther.

(** [validate_pagination_params]: the pair to use, or the message of the
    [InputValidationError]. *)
Definition validate_pagination_params (limit offset : Param) : string + Z * Z :=
  let default_limit := 20 in
  let max_limit := 100 in
  let max_offset := 10000 in
  let checked_limit :=
    match limit with
    | ParamNone => inr default_limit
    | ParamInt n =>
        if n <? 1 then inl "Limit must be a positive integer"
        else if max_limit <? n then inl "Limit cannot exceed 100"
        else inr n
    | ParamOther => inl "Limit must be a positive integer"
    end in
  match checked_limit with
  | inl e => inl e
  | inr validated_limit =>
      match offset with
      | ParamNone => inr (validated_limit, 0)
      | ParamInt n =>
          if n <? 0 then inl "Offset must be a non-negative integer"
          else if max_offset <? n then inl "Offset cannot exceed 10000"
          else inr (validated_limit, n)
      | ParamOther => inl "Offset must be a non-negative integer"
      end
  end.

Section ListInvoices.

(** [int(s)] on a string: [None] when it raises [ValueError]. *)
Variable int_of_string : string -> option Z.

(** Lines 52-56 of the list handler: the page size handed to the store
    query, from the raw query parameter, or the message of the
    [InputValidationError]; [None] when [int] raises [ValueError]. An empty
    parameter is falsy, so it reaches [validate_pagination_params] as the
    string it is. *)
Definition requested_limit (limit : option string) : option (string + Z) :=
  let limit :=
    match limit with
    | None => Some ParamNone
    | Some s =>
        if String.eqb s "" then Some ParamOther
        else option_map ParamInt (int_of_string s)
    end in
  match limit with
  | None => None
  | Some limit =>
      Some (match validate_pagination_params limit (ParamInt 0) with
            | inl e => inl e
            | inr (validated_limit, _) => inr validated_limit
            end)
  end.

End ListInvoices.

(** ** The invoice handlers (functions/invoices/create.py, get.py) *)

(** Python's truth value of a decoded JSON value. *)
Definition truthy (v : json) : bool :=
  match v with
  | JNull => false
  | JBool b => b
  | JInt n => negb (n =? 0)
  | JFloat (Finite q) | JDecimal (Finite q) => negb (Qeq_bool q 0)
  | JFloat NonFinite | JDecimal NonFinite => true
  | JStr s => negb (String.eqb s "")
  | JArr xs => match xs with [] => false | _ => true end
  | JObj kvs => match kvs with [] => false | _ => true end
  end.

(** What the two handlers answer, by shape and status: 201 with the new
    invoice, 200 with the stored one, 403 with the count of the month in
    its message, 400 with the validator's message, or another error
    response. The fields of the success bodies are all read off the
    invoice. *)
Inductive Reply : Type :=
  | Created (invoice : Invoice.t)
  | Details (invoice : Invoice.t)
  | UsageLimitExceeded (invoices_this_month limit : Z)
  | InvalidInvoiceData (reason : Rejection)
  | Refused (statusCode : Z) (message : string) (error_type : string).

(** The [except] clauses, the same in both handlers. *)
Definition error_reply (e : Exception) : Reply :=
  match e with
  | InputValidationError message => Refused 400 message "ValidationError"
  | DynamoDBException => Refused 500 "Database error occurred" "DatabaseError"
  | BedrockException | UnexpectedError =>
      Refused 500 "An unexpected error occurred" "InternalError"
  end.

(** [extract_user_id_from_event], on the authorizer of the event. *)
Definition authenticated_user (a : Authorizer) : M string :=
  match a with
  | Authenticated user_id => ret user_id
  | Unauthenticated message => throw (InputValidationError message)
  end.

(** The handler around the body of its [try]; no step of these handlers
    returns a response of the conversation handler. *)
Definition reply_of (m : M Reply) (w : World) : Reply * World :=
  match m w with
  | (Value r, w') => (r, w')
  | (Returned _, w') => (error_reply UnexpectedError, w')
  | (Thrown e, w') => (error_reply e, w')
  end.

Module CreateInvoice.

Definition FREE_TIER_INVOICE_LIMIT : Z := 5.

(** The object the body decodes to: [body.get('conversation_id')] when it
    is a string, and [body['invoice_data']] when the key is there. *)
Record Body : Type := mk_body {
  conversation_id : option string;
  invoice_data : option json
}.

(** The body of the event: a text that [json.loads] rejects, a value that
    is not an object, or an object. *)
Inductive Decoded : Type :=
  | Undecodable
  | NotAnObject
  | Object (b : Body).

Record Request : Type := mk_request {
  authorizer : Authorizer;
  body : Decoded
}.

Section Handler.

Variable decimal_of_string : string -> option Decimal.
Variable fromisoformat : string -> option Z.

(** Lines 83-121: where the raw invoice data come from, or the error
    response. An empty identifier is falsy, like an absent one. *)
Definition invoice_source (user_id : string) (b : Body) : M (Reply + json) :=
  let from_direct_data : M (Reply + json) :=
    match invoice_data b with
    | Some data =>
        ret (inr (JObj [("action", JStr "create_invoice"); ("data", data)]))
    | None =>
        ret (inl (Refused 400
                    "Either conversation_id or invoice_data is required"
                    "ValidationError"))
    end in
  let no_extracted_data : M (Reply + json) :=
    ret (inl (Refused 400 "Conversation has no extracted invoice data"
                "ValidationError")) in
  match conversation_id b with
  | Some id =>
      if String.eqb id "" then from_direct_data
      else
        let! conversation := DynamoDBHelper.get_conversation id in
        match conversation with
        | None => ret (inl (Refused 404 "Conversation not found" "NotFound"))
        | Some c =>
            if negb (String.eqb (Conversation.user_id c) user_id) then
              ret (inl (Refused 403 "Not authorized" "Forbidden"))
            else
              match Conversation.extracted_data c with
              | Some data =>
                  if truthy data then ret (inr data) else no_extracted_data
              | None => no_extracted_data
              end
        end
  | None => from_direct_data
  end.

(** The body of the [try]. The summary of the response is formatted from
    the invoice data and is not modelled. *)
Definition handle (event : Request) (env : Env) : M Reply :=
  let! user_id := authenticated_user (authorizer event) in
  match body event with
  | Undecodable => throw UnexpectedError
  | decoded =>
      let! subscription :=
        DynamoDBHelper.check_and_reset_monthly_count user_id (utcnow env) in
      let is_pro :=
        match Subscription.subscription_status subscription with
        | Some s => String.eqb s "pro"
        | None => false
        end in
      let invoices_this_month :=
        default 0 (Subscription.invoices_this_month subscription) in
      if negb is_pro && (FREE_TIER_INVOICE_LIMIT <=? invoices_this_month) then
        ret (UsageLimitExceeded invoices_this_month FREE_TIER_INVOICE_LIMIT)
      else
        match decoded with
        | Object b =>
            let! source := invoice_source user_id b in
            match source with
            | inl reply => ret reply
            | inr invoice_data_dict =>
                match validate_and_parse_invoice_data decimal_of_string
                        fromisoformat (today env) invoice_data_dict with
                | Invalid e => ret (InvalidInvoiceData e)
                | Valid invoice_data =>
                    let invoice :=
                      Invoice.mk (new_invoice_id env) user_id (conversation_id b)
                        invoice_data DRAFT None (utcnow env) (utcnow env) in
                    DynamoDBHelper.create_invoice invoice ;;
                    let! new_count :=
                      DynamoDBHelper.increment_monthly_invoice_count user_id in
                    ret (Created invoice)
                end
            end
        | _ => throw UnexpectedError
        end
  end.

Definition handler (event : Request) (env : Env) : World -> Reply * World :=
  reply_of (handle event env).

End Handler.

End CreateInvoice.

Module GetInvoice.

(** The event: the authorizer and [pathParameters.get('invoice_id')]. *)
Record Request : Type := mk_request {
  authorizer : Authorizer;
  invoice_id : option string
}.

Section Handler.

(** Whether the lower-cased text matches the pattern of a version 4
    UUID. *)
Variable uuid4 : string -> bool.

(** [validate_uuid]: the value as given, or the message of the
    [InputValidationError]. *)
Definition validate_uuid (value field_name : string) : string + string :=
  if String.eqb value "" then inl (field_name ++ " is required")
  else if uuid4 value then inr value
  else inl ("Invalid " ++ field_name ++ " format").

Definition handle (event : Request) : M Reply :=
  let! user_id := authenticated_user (authorizer event) in
  match invoice_id event with
  | None => ret (Refused 400 "Invoice ID is required" "ValidationError")
  | Some raw =>
      if String.eqb raw "" then
        ret (Refused 400 "Invoice ID is required" "ValidationError")
      else
        match validate_uuid raw "Invoice ID" with
        | inl message => ret (Refused 400 message "ValidationError")
        | inr id =>
            let! invoice := DynamoDBHelper.get_invoice id in
            match invoice with
            | None => ret (Refused 404 "Invoice not found" "NotFound")
            | Some i =>
                if negb (String.eqb (Invoice.user_id i) user_id) then
                  ret (Refused 403 "Not authorized to access this invoice"
                         "Forbidden")
                else ret (Details i)
            end
        end
  end.

Definition handler (event : Request) : World -> Reply * World :=
  reply_of (handle event).

End Handler.

End GetInvoice.

(** ** Vocabulary of the statements

    Definitions that are not part of the code: they name what the
    properties below talk about. *)

(** Payloads that differ in one raw field: [dict_set k v d] is [d] with the
    binding of [k] replaced (or added). Used to state properties only. *)
Fixpoint dict_set (k : string) (v : json) (kvs : list (string * json))
    : list (string * json) :=
  match kvs with
  | [] => [(k, v)]
  | (k', v') :: r =>
      if String.eqb k k' then (k, v) :: r else (k', v') :: dict_set k v r
  end.

(** The raw field [k] of the payload's [data] object. *)
Definition raw_field (k : string) (data : json) : option json :=
  match data with
  | JObj kvs =>
      match dict_get "data" kvs with
      | Some (JObj fields) => dict_get k fields
      | _ => None
      end
  | _ => None
  end.

(** The payload with its raw due date replaced by the string [s]. *)
Definition with_due_date (s : string) (data : json) : json :=
  match data with
  | JObj kvs =>
      match dict_get "data" kvs with
      | Some (JObj fields) =>
          JObj (dict_set "data" (JObj (dict_set "due_date" (JStr s) fields)) kvs)
      | _ => data
      end
  | _ => data
  end.

(** The object the validator reads the fields from, [data.get('data', {})],
    and the raw line items it iterates over; both default to nothing when
    the payload is not shaped as expected. Used to state properties only. *)
Definition invoice_dict (data : json) : json :=
  match get_default data "data" (JObj []) with
  | Done v => v
  | Raised _ => JNull
  end.






(** A string of white space only. Used to state properties only. *)
Fixpoint all_space (s : string) : bool :=
  match s with
  | EmptyString => true
  | String a r => PyStr.isspace a && all_space r
  end.

(** A string that does not begin with white space. *)
Definition no_leading_space (s : string) : Prop :=
  match s with
  | EmptyString => True
  | String a _ => PyStr.isspace a = false
  end.

(** The conversation a success response is about, and the state the handler
    stores with each shape of response. Used to state properties only. *)
Definition response_conversation (d : ResponseData) : string :=
  match d with
  | UsageLimitReached id _ _ => id
  | InvoiceReady id _ _ _ _ => id
  | InvoiceIssues id _ => id
  | Cancelled id _ => id
  | KeepGathering id _ => id
  end.

Definition state_after (d : ResponseData) : ConversationState :=
  match d with
  | UsageLimitReached _ _ _ => COMPLETED
  | InvoiceReady _ _ _ _ _ => COMPLETED
  | InvoiceIssues _ _ => GATHERING_INFO
  | Cancelled _ _ => ABANDONED
  | KeepGathering _ _ => GATHERING_INFO
  end.

(** The stored rate record of [user_id] is within its window and at the
    cap: the condition under which the handler answers 429. *)
Definition rate_limited (env : Env) (w : World) (user_id : string) : bool :=
  match rate_limits w !! user_id with
  | Some r =>
      negb (RateLimit.is_expired r 3600 (utcnow env))
      && negb (RateLimiter.check_limit (rate_limiter env)
                 (RateLimit.request_count r) (RateLimit.window_start r)
                 (utcnow env))
  | None => false
  end.

(** The monthly counter of the subscription was last reset in the calendar
    month of [now] (or never): the count is this month's. *)
Definition counted_this_month (now : datetime) (s : Subscription.t) : bool :=
  match Subscription.invoice_count_reset_at s with
  | Some reset_date =>
      (month reset_date =? month now) && (year reset_date =? year now)
  | None => true
  end.

(** Events that can precede the call to the model: a write of the rate
    record, or the creation of a conversation that has no message yet. *)
Definition prepares (e : Event) : Prop :=
  match e with
  | RateLimitPut _ => True
  | ConversationPut c => Conversation.messages c = []
  | _ => False
  end.

(** Events that can follow the model's reply: writes only, and a
    conversation is written with the messages [msgs]. *)
Definition follows (msgs : list Message.t) (e : Event) : Prop :=
  match e with
  | ModelInvoked _ => False
  | ConversationPut c => Conversation.messages c = msgs
  | _ => True
  end.

(** The subscription is a pro one, as both handlers test it. *)
Definition is_pro (s : Subscription.t) : bool :=
  match Subscription.subscription_status s with
  | Some status => String.eqb status "pro"
  | None => false
  end.

(** The messages of the stored conversation a request goes on with: none
    when it names no conversation (an empty identifier names none), or one
    the store does not have. *)
Definition prior_messages (w : World) (conversation_id : option string)
    : list Message.t :=
  match conversation_id with
  | Some id =>
      if String.eqb id "" then []
      else
        match conversations w !! id with
        | Some c => Conversation.messages c
        | None => []
        end
  | None => []
  end.

(** The identifier of the conversation a request is about: the one it
    names, or the fresh one of the conversation the turn creates. *)
Definition conversation_of (env : Env) (conversation_id : option string)
    : string :=
  match conversation_id with
  | Some id => if String.eqb id "" then new_conversation_id env else id
  | None => new_conversation_id env
  end.

(** The action a reply asks for: the string under "action" of the object
    extracted from it, if there is one. *)
Definition action_of (extracted : option json) : option string :=
  match extracted with
  | Some (JObj kvs) =>
      match dict_get "action" kvs with
      | Some (JStr action) => Some action
      | _ => None
      end
  | _ => None
  end.

(** No line item has an empty description. *)
Definition described (items : list LineItem.t) : bool :=
  forallb (fun li => negb (String.eqb (LineItem.description li) "")) items.

(** No character of [s] satisfies [p]. *)
Fixpoint free_of (p : ascii -> bool) (s : string) : bool :=
  match s with
  | EmptyString => true
  | String a r => negb (p a) && free_of p r
  end.

(** The characters that open or close a tag or an attribute value. *)
Definition tags (a : ascii) : bool :=
  Ascii.eqb a "<" || Ascii.eqb a ">" || Ascii.eqb a (ascii_of_nat 34)
  || Ascii.eqb a "'".

(** ... and NUL. *)
Definition unsafe (a : ascii) : bool := tags a || Ascii.eqb a zero.

(** The characters the sanitiser rewrites or removes. *)
Definition special (a : ascii) : bool :=
  Ascii.eqb a "&" || tags a || Ascii.eqb a zero.

(** ** Concrete instances for running the code *)

Module Demo.

(** The double quote, to write JSON texts. *)
Definition q : string := String (ascii_of_nat 34) EmptyString.

(** [Decimal(s)] on plain numerals: digits, optionally followed by a point
    and digits. *)
Fixpoint numeral (acc : Z) (scale : positive) (seen_point : bool) (s : string)
    : option Decimal :=
  match s with
  | EmptyString => Some (Finite (Qred (acc # scale)))
  | String a r =>
      if Ascii.eqb a "." then
        if seen_point then None else numeral acc scale true r
      else
        match PyDate.digit a with
        | Some d =>
            numeral (acc * 10 + d) (if seen_point then scale * 10 else scale)
                    seen_point r
        | None => None
        end
  end.

Definition decimal_of_string (s : string) : option Decimal :=
  match s with
  | EmptyString => None
  | _ => numeral 0 1 false s
  end.

(** The regular-expression screens on texts without markup, script or SQL
    fragments: nothing is found. *)
Definition no_pattern (text : string) : bool := false.

(** Two model replies and what [json.loads] makes of them. *)
Definition cancel_text : string :=
  "{" ++ q ++ "action" ++ q ++ ": " ++ q ++ "cancel" ++ q ++ "}".

Definition cancel_json : json := JObj [("action", JStr "cancel")].

Definition line_item (description : string) (quantity unit_price : Z)
    (taxable : bool) : json :=
  JObj [("description", JStr description);
        ("quantity", JInt quantity);
        ("unit_price", JInt unit_price);
        ("taxable", JBool taxable)].

(** The scenario of the specification: two units at 100, taxable, one unit
    at 50, not taxable, a tax rate of 0.10 and a discount of 30. The
    amounts are JSON numbers: the tax rate decodes to a [float]. *)
Definition scenario : json :=
  JObj [("action", JStr "create_invoice");
        ("data",
         JObj [("customer_name", JStr "Acme Corp");
               ("invoice_date", JStr "2024-01-15");
               ("due_date", JStr "2024-02-14");
               ("line_items",
                JArr [line_item "Widgets" 2 100 true;
                      line_item "Setup" 1 50 false]);
               ("tax_rate", JFloat (Finite (1 # 10)));
               ("discount", JInt 30)])].

(** The JSON text of [scenario], as the model writes it. *)
Definition quoted (s : string) : string := q ++ s ++ q.

Definition member (k v : string) : string := quoted k ++ ": " ++ v.

Definition line_item_text (description quantity unit_price taxable : string)
    : string :=
  "{" ++ member "description" (quoted description) ++ ", "
      ++ member "quantity" quantity ++ ", "
      ++ member "unit_price" unit_price ++ ", "
      ++ member "taxable" taxable ++ "}".

Definition scenario_text : string :=
  "{" ++ member "action" (quoted "create_invoice") ++ ", "
      ++ member "data"
           ("{" ++ member "customer_name" (quoted "Acme Corp") ++ ", "
                ++ member "invoice_date" (quoted "2024-01-15") ++ ", "
                ++ member "due_date" (quoted "2024-02-14") ++ ", "
                ++ member "line_items"
                     ("[" ++ line_item_text "Widgets" "2" "100" "true" ++ ", "
                          ++ line_item_text "Setup" "1" "50" "false" ++ "]")
                ++ ", "
                ++ member "tax_rate" "0.10" ++ ", "
                ++ member "discount" "30" ++ "}")
      ++ "}".

(** The same scenario in the format of the extraction prompt, where every
    amount is a string ("quantity": "decimal", "tax_rate": "decimal (0.08
    for 8%)"). *)
Definition exact_item (description quantity unit_price : string)
    (taxable : bool) : json :=
  JObj [("description", JStr description);
        ("quantity", JStr quantity);
        ("unit_price", JStr unit_price);
        ("taxable", JBool taxable)].

Definition exact : json :=
  JObj [("action", JStr "create_invoice");
        ("data",
         JObj [("customer_name", JStr "Acme Corp");
               ("invoice_date", JStr "2024-01-15");
               ("due_date", JStr "2024-02-14");
               ("line_items",
                JArr [exact_item "Widgets" "2" "100.00" true;
                      exact_item "Setup" "1" "50.00" false]);
               ("tax_rate", JStr "0.10");
               ("discount", JStr "30.00")])].

Definition exact_text : string :=
  "{" ++ member "action" (quoted "create_invoice") ++ ", "
      ++ member "data"
           ("{" ++ member "customer_name" (quoted "Acme Corp") ++ ", "
                ++ member "invoice_date" (quoted "2024-01-15") ++ ", "
                ++ member "due_date" (quoted "2024-02-14") ++ ", "
                ++ member "line_items"
                     ("[" ++ line_item_text "Widgets" (quoted "2")
                               (quoted "100.00") "true" ++ ", "
                          ++ line_item_text "Setup" (quoted "1")
                               (quoted "50.00") "false" ++ "]")
                ++ ", "
                ++ member "tax_rate" (quoted "0.10") ++ ", "
                ++ member "discount" (quoted "30.00") ++ "}")
      ++ "}".

Definition json_loads (s : string) : option json :=
  if String.eqb s cancel_text then Some cancel_json
  else if String.eqb s scenario_text then Some scenario
  else if String.eqb s exact_text then Some exact
  else None.

(** 2024-01-15, the day the examples run *)
Definition today : Z := 738900.

Definition validate : json -> Validated :=
  validate_and_parse_invoice_data decimal_of_string PyDate.iso_date today.

(** A payload with one line item and the given raw dates. *)
Definition dated_fields (dates : list (string * json)) : list (string * json) :=
  ("customer_name", JStr "Acme Corp") :: dates
  ++ [("line_items", JArr [line_item "Widgets" 2 100 true])].

Definition dated (dates : list (string * json)) : json :=
  JObj [("action", JStr "create_invoice"); ("data", JObj (dated_fields dates))].


(** due five days before the invoice date *)
Definition out_of_order : json :=
  dated [("invoice_date", JStr "2024-01-15"); ("due_date", JStr "2024-01-10")].

(** the same, eleven days before [date.max] *)
Definition out_of_order_late : json :=
  dated [("invoice_date", JStr "9999-12-20"); ("due_date", JStr "9999-12-10")].






(** ... and the handler: 2024-01-15 10:00:00 UTC, the default limiter of
    100 requests an hour. *)
Definition now : datetime := mk_datetime 2024 1 1705312800.

Definition env (model : list Message.t -> option string) : Env :=
  mk_env now today (RateLimiter.mk 100 3600) "conv-0001" "inv-0001" model.

Definition request (user_id : string) (conversation_id : option string)
    (message : string) : Request :=
  mk_request (Authenticated user_id) (Some (Body.mk conversation_id message)).

Definition run : Request -> Env -> World -> Response * World :=
  handler json_loads decimal_of_string PyDate.iso_date no_pattern no_pattern.

Definition begin
    : Request -> Env -> M (string * Conversation.t * string * option json) :=
  begin_turn json_loads no_pattern no_pattern.

(** an empty store that answers every call *)
Definition empty : World := mk_world ∅ ∅ ∅ ∅ [] [].

(** the same store, unreachable at the next call *)
Definition unreachable : World := mk_world ∅ ∅ ∅ ∅ [true] [].

(** a conversation of alice that ended with an invoice *)
Definition finished : Conversation.t :=
  Conversation.mk "conv-7" "alice" COMPLETED
    [Message.mk role_user "Invoice Acme for two widgets" (mk_datetime 2024 1 1705300000);
     Message.mk role_assistant exact_text (mk_datetime 2024 1 1705300000)]
    (Some exact) (mk_datetime 2024 1 1705300000) (mk_datetime 2024 1 1705300000).

Definition with_finished : World :=
  mk_world {[ "conv-7" := finished ]} ∅ ∅ ∅ [] [].

(** alice on the free tier, five invoices counted since 2024-01-02 *)
Definition at_cap : Subscription.t :=
  Subscription.mk (Some "free") (Some 5) (Some (mk_datetime 2024 1 1704190000)).

Definition with_quota_used : World :=
  mk_world ∅ ∅ ∅ {[ "alice" := at_cap ]} [] [].

Definition chatty (history : list Message.t) : option string :=
  Some "Sure, what else do you need?".

Definition creating (history : list Message.t) : option string :=
  Some scenario_text.

Definition creating_exact (history : list Message.t) : option string :=
  Some exact_text.

Definition cancelling (history : list Message.t) : option string :=
  Some cancel_text.

Definition failing (history : list Message.t) : option string := None.

(** the requests of the examples *)
Definition alice_asks : Request :=
  request "alice" (Some "conv-7") "One more thing".

Definition alice_starts : Request :=
  request "alice" None "Invoice Acme for two widgets".

Definition alice_confirms : Request := request "alice" None "Yes, create it".

Definition bob_intrudes : Request :=
  request "bob" (Some "conv-7") "Show me this one".

Definition bob_blank : Request := request "bob" None "   ".

(** Instances for the further properties: a line item, and invoice data
    made of line items, dated 2024-01-15 and due 2024-02-14. *)
Definition widgets : LineItem.t := LineItem.mk "Widgets" 2 100 true.

Definition invoice_of (items : list LineItem.t) (tax_rate discount : Q)
    : InvoiceData.t :=
  InvoiceData.mk "Acme Corp" None None 738900 738930 None items tax_rate
    discount None.

(** an invoice dated a year back, its due date in order; and one due in
    2030 *)
Definition stale : json :=
  dated [("invoice_date", JStr "2023-01-01"); ("due_date", JStr "2023-02-01")].

Definition far_due : json :=
  dated [("invoice_date", JStr "2024-01-15"); ("due_date", JStr "2030-01-01")].

(** [int(s)] on plain numerals *)
Definition int_of_string (s : string) : option Z := PyDate.number s.

(** alice's rate record, at the cap 800 seconds into the window *)
Definition busy : RateLimit.t :=
  RateLimit.mk "alice" 100 (mk_datetime 2024 1 1705312000) 1705315600.

Definition with_busy : World := mk_world ∅ ∅ {[ "alice" := busy ]} ∅ [] [].

(** the limiter configured with a window of ten minutes *)
Definition short_window (model : list Message.t -> option string) : Env :=
  mk_env now today (RateLimiter.mk 100 600) "conv-0001" "inv-0001" model.

(** alice on the free tier with two invoices this month, respectively with
    five counted in December 2023 *)
Definition below_cap : Subscription.t :=
  Subscription.mk (Some "free") (Some 2) (Some (mk_datetime 2024 1 1704190000)).

Definition last_month : Subscription.t :=
  Subscription.mk (Some "free") (Some 5) (Some (mk_datetime 2023 12 1701500000)).

Definition with_quota_left : World :=
  mk_world ∅ ∅ ∅ {[ "alice" := below_cap ]} [] [].

(** the same store, failing at its sixth call *)
Definition count_fails : World :=
  mk_world ∅ ∅ ∅ {[ "alice" := below_cap ]}
    [false; false; false; false; false; true] [].

(** a message of one NUL character *)
Definition alice_sends_nul : Request := request "alice" None (String zero "").

(** the finished conversation and alice's subscription *)
Definition finished_with_quota_left : World :=
  mk_world {[ "conv-7" := finished ]} ∅ ∅ {[ "alice" := below_cap ]} [] [].

Definition create : CreateInvoice.Request -> Env -> World -> Reply * World :=
  CreateInvoice.handler decimal_of_string PyDate.iso_date.

Definition create_from_finished : CreateInvoice.Request :=
  CreateInvoice.mk_request (Authenticated "alice")
    (CreateInvoice.Object (CreateInvoice.mk_body (Some "conv-7") None)).

Definition create_from_nothing : CreateInvoice.Request :=
  CreateInvoice.mk_request (Authenticated "alice") CreateInvoice.NotAnObject.

(** The UUID screen, reduced to the length of the text. *)
Definition uuid4 (value : string) : bool := (String.length value =? 36)%nat.

Definition invoice_key : string := "123e4567-e89b-42d3-a456-426614174000".

(** a stored invoice whose only line item has an empty description *)
Definition undescribed : Invoice.t :=
  Invoice.mk invoice_key "alice" None
    (invoice_of [LineItem.mk "" 2 100 true] 0 0) DRAFT None now now.

Definition with_undescribed : World :=
  mk_world ∅ {[ invoice_key := undescribed ]} ∅ ∅ [] [].

(** ... and one that reads back *)
Definition stored_invoice : Invoice.t :=
  Invoice.mk invoice_key "alice" None (invoice_of [widgets] 0 0) DRAFT None
    now now.

Definition with_invoice : World :=
  mk_world ∅ {[ invoice_key := stored_invoice ]} ∅ ∅ [] [].

Definition alice_reads : GetInvoice.Request :=
  GetInvoice.mk_request (Authenticated "alice") (Some invoice_key).

End Demo.

(** * Properties *)

(** ** Reasoning about [Try] *)

Lemma try_bind_Done {A B : Type} (m : Try A) (k : A -> Try B) (b : B) :
  try_bind m k = Done b -> exists a, m = Done a /\ k a = Done b.
Proof.
  destruct m as [a|e]; simpl; intros H.
  - exists a. split; [reflexivity | exact H].
  - discriminate H.
Qed.


(** Inverts every hypothesis that says a sequence of steps succeeded. *)
Ltac try_done :=
  repeat match goal with
  | H : try_bind _ _ = Done _ |- _ =>
      let a := fresh "a" in
      let Ha := fresh "Ha" in
      apply try_bind_Done in H; destruct H as (a & Ha & H)
  end.

Lemma try_map_Done_Forall {A B : Type} (f : A -> Try B) (P : B -> Prop) :
  (forall x y, f x = Done y -> P y) ->
  forall l l', try_map f l = Done l' -> Forall P l'.
Proof.
  intros Hf l. induction l as [|x r IH]; simpl; intros l' H.
  - injection H as <-. constructor.
  - try_done. injection H as <-. constructor.
    + eapply Hf. eassumption.
    + apply IH. assumption.
Qed.

(** ** The taxable flag *)

Section TaxableFlag.

Variable decimal_of_string : string -> option Decimal.
Variable fromisoformat : string -> option Z.

Lemma LineItem_create_default_taxable description quantity unit_price i :
  LineItem.create description quantity unit_price None = Done i ->
  LineItem.taxable i = true.
Proof.
  unfold LineItem.create.
  destruct description, quantity, unit_price; try discriminate.
  destruct (_ && _); [|discriminate].
  intros H. injection H as <-. reflexivity.
Qed.

Lemma parse_line_item_taxable item i :
  parse_line_item decimal_of_string item = Done i -> LineItem.taxable i = true.
Proof.
  unfold parse_line_item. intros H. try_done.
  eapply LineItem_create_default_taxable. eassumption.
Qed.

Lemma InvoiceData_create_line_items n e a i d items r disc notes inv :
  InvoiceData.create n e a i d items r disc notes = Done inv ->
  InvoiceData.line_items inv = items.
Proof.
  unfold InvoiceData.create.
  destruct n, r, disc; try discriminate.
  destruct (_ && _); [|discriminate].
  intros H. try_done.
  destruct (_ && _); [|discriminate].
  try_done. injection H as <-. reflexivity.
Qed.

(** Whatever the payload says, every line item of a validated invoice is
    taxable: the validator never reads the raw flag. *)
Lemma validated_items_all_taxable today data inv :
  validate_and_parse_invoice_data decimal_of_string fromisoformat today data
    = Valid inv ->
  Forall (fun i => LineItem.taxable i = true) (InvoiceData.line_items inv).
Proof.
  unfold validate_and_parse_invoice_data.
  destruct (parse_invoice_data _ _ _ _) as [d|[k| |]] eqn:E; try discriminate.
  intros H. injection H as ->.
  unfold parse_invoice_data in E. try_done.
  apply InvoiceData_create_line_items in E. rewrite E.
  eapply try_map_Done_Forall; [|eassumption].
  intros x y. apply parse_line_item_taxable.
Qed.

End TaxableFlag.

(** C1. On the scenario of the specification (two units at 100 flagged
    taxable, one unit at 50 flagged not taxable, tax rate 0.10, discount 30)
    validation succeeds, but the raw [taxable] flags are not carried over:
    both validated items are taxable, so [taxable_subtotal] is 250 (not
    200), [tax_amount] is (250 - 30) * 0.10 = 22 (not 17.60) and [total] is
    242 (not 237.60); only [subtotal] = 250 is as specified. *)
Theorem scenario_taxable_flag_dropped :
  exists inv,
    Demo.validate Demo.scenario = Valid inv
    /\ map LineItem.taxable (InvoiceData.line_items inv) = [true; true]
    /\ (InvoiceData.subtotal inv == 250)%Q
    /\ (InvoiceData.taxable_subtotal inv == 250)%Q
    /\ (InvoiceData.tax_amount inv == 22)%Q
    /\ (InvoiceData.total inv == 242)%Q
    /\ ~ (InvoiceData.taxable_subtotal inv == 200)%Q
    /\ ~ (InvoiceData.tax_amount inv == 176 # 10)%Q
    /\ ~ (InvoiceData.total inv == 2376 # 10)%Q.
Proof.
  eexists. split; [vm_compute; reflexivity|].
  repeat split; try (vm_compute; reflexivity); vm_compute; discriminate.
Qed.

(** ** The date corrections *)

Lemma dict_get_set_eq k v kvs : dict_get k (dict_set k v kvs) = Some v.
Proof.
  induction kvs as [|[k' v'] r IH]; simpl.
  - rewrite String.eqb_refl. reflexivity.
  - destruct (String.eqb k k') eqn:E; simpl.
    + rewrite String.eqb_refl. reflexivity.
    + rewrite E. exact IH.
Qed.

Lemma dict_get_set_ne k k' v kvs :
  String.eqb k' k = false -> dict_get k' (dict_set k v kvs) = dict_get k' kvs.
Proof.
  intros Hne. induction kvs as [|[k0 v0] r IH]; simpl.
  - rewrite Hne. reflexivity.
  - destruct (String.eqb k k0) eqn:E; simpl.
    + apply String.eqb_eq in E. subst k0. rewrite Hne. reflexivity.
    + rewrite IH. reflexivity.
Qed.

Lemma InvoiceData_create_due n e a i d d' items r disc notes inv :
  InvoiceData.create n e a i d items r disc notes = Done inv ->
  i <= d' ->
  InvoiceData.invoice_date inv = i
  /\ InvoiceData.create n e a i d' items r disc notes
     = Done (InvoiceData.mk (InvoiceData.customer_name inv)
               (InvoiceData.customer_email inv) (InvoiceData.customer_address inv)
               (InvoiceData.invoice_date inv) d'
               (InvoiceData.invoice_number inv) (InvoiceData.line_items inv)
               (InvoiceData.tax_rate inv) (InvoiceData.discount inv)
               (InvoiceData.notes inv)).
Proof.
  unfold InvoiceData.create. intros H Hle.
  destruct n, r, disc; try discriminate.
  destruct (_ && _); [|discriminate].
  destruct (optional_str 254 e) as [email|]; [|discriminate].
  destruct (optional_str 500 a) as [address|]; [|discriminate].
  simpl in *.
  unfold InvoiceData.validate_due_date in *.
  destruct (d <? i); [discriminate|].
  assert ((d' <? i) = false) as -> by (apply Z.ltb_ge; exact Hle).
  simpl in *.
  destruct (_ && _); [|discriminate].
  destruct (optional_str 1000 notes) as [notes'|]; [|discriminate].
  simpl in *. injection H as <-. simpl. split; reflexivity.
Qed.

Section DateOrder.

Variable decimal_of_string : string -> option Decimal.
Variable fromisoformat : string -> option Z.

Let validate := validate_and_parse_invoice_data decimal_of_string fromisoformat.

(** C5, as the code has it. Take a payload that validation accepts when
    its due date is the in-order date [s], giving [inv]. If instead the
    raw due date parses to a day [due] before the invoice date of [inv]
    (the invoice date after the backdating correction; [due] is a date,
    so its ordinal is at least 1), and that invoice date plus 30 days is
    still a date (at most [date.max]), then
    validation accepts the payload as well and the result is [inv] with
    its due date replaced by invoice date + 30 days. *)
Theorem due_date_before_invoice_date_is_replaced
    (today : Z) (data : json) (s raw : string) (due : Z) (inv : InvoiceData.t) :
  validate today (with_due_date s data) = Valid inv ->
  raw_field "due_date" data = Some (JStr raw) ->
  fromisoformat raw = Some due ->
  1 <= due ->
  due < InvoiceData.invoice_date inv ->
  InvoiceData.invoice_date inv + 30 <= PyDate.MAXORDINAL ->
  validate today data
  = Valid (InvoiceData.mk (InvoiceData.customer_name inv)
             (InvoiceData.customer_email inv) (InvoiceData.customer_address inv)
             (InvoiceData.invoice_date inv) (InvoiceData.invoice_date inv + 30)
             (InvoiceData.invoice_number inv) (InvoiceData.line_items inv)
             (InvoiceData.tax_rate inv) (InvoiceData.discount inv)
             (InvoiceData.notes inv)).
Proof.
  intros Hok Hraw Hdue Hpos Hlt Hmax.
  destruct data as [| | | | | |?|kvs]; try discriminate Hraw.
  simpl in Hraw. unfold with_due_date in Hok.
  destruct (dict_get "data" kvs) as [[| | | | | | |fields]|] eqn:Ed; try discriminate Hraw.
  unfold validate, validate_and_parse_invoice_data in *.
  destruct (parse_invoice_data _ _ today (JObj (dict_set _ _ _)))
    as [d|[k| |]] eqn:E; try discriminate Hok.
  injection Hok as ->.
  unfold parse_invoice_data in E |- *.
  cbn [get_default try_bind] in E |- *.
  rewrite dict_get_set_eq in E. rewrite Ed.
  cbn [get_default try_bind subscript get] in E |- *.
  rewrite !dict_get_set_eq in E.
  rewrite !dict_get_set_ne in E by reflexivity.
  rewrite Hraw.
  destruct (py_iter _) as [items|]; [|discriminate E].
  cbn [try_bind] in E |- *.
  destruct (try_map _ items) as [line_items|]; [|discriminate E].
  cbn [try_bind] in E |- *.
  destruct (dict_get "invoice_date" fields) as [raw_inv|]; [|discriminate E].
  cbn [try_bind] in E |- *.
  destruct (date_fromisoformat fromisoformat raw_inv) as [i|]; [|discriminate E].
  cbn [try_bind date_fromisoformat] in E |- *. rewrite Hdue.
  destruct (fromisoformat s) as [d_ok|]; [|discriminate E].
  cbn [try_bind] in E |- *.
  unfold correct_dates in E |- *.
  destruct (PyDate.add_days today (-90)) as [oldest|]; [|discriminate E].
  cbn [try_bind] in E |- *.
  set (i' := if i <? oldest then today else i) in *.
  destruct (if d_ok <? i' then PyDate.add_days i' 30 else Done d_ok)
    as [d1|]; [|discriminate E].
  cbn [try_bind] in E.
  destruct (PyDate.add_days today 365) as [horizon|]; [|discriminate E].
  cbn [try_bind fst snd] in E.
  destruct (dict_get "customer_name" fields) as [name|]; [|discriminate E].
  cbn [try_bind] in E.
  destruct (Decimal_of_str decimal_of_string _) as [rate|]; [|discriminate E].
  cbn [try_bind] in E.
  destruct (Decimal_of_str decimal_of_string _) as [disc|]; [|discriminate E].
  cbn [try_bind] in E.
  assert (Hi : InvoiceData.invoice_date inv = i').
  { eapply InvoiceData_create_due in E; [apply E|reflexivity]. }
  rewrite Hi in *.
  assert ((due <? i') = true) as -> by (apply Z.ltb_lt; exact Hlt).
  assert (PyDate.add_days i' 30 = Done (i' + 30)) as ->.
  { unfold PyDate.add_days. cbv zeta.
    assert (((1 <=? i' + 30) && (i' + 30 <=? PyDate.MAXORDINAL)) = true) as ->;
      [|reflexivity].
    apply andb_true_iff. split; apply Z.leb_le; lia. }
  cbn [try_bind fst snd].
  eapply InvoiceData_create_due with (d' := i' + 30) in E; [|lia].
  destruct E as [_ E]. rewrite Hi in E. rewrite E. reflexivity.
Qed.

End DateOrder.

(** ** Missing fields *)






Section MissingFields.

Variable decimal_of_string : string -> option Decimal.
Variable fromisoformat : string -> option Z.

Let validate := validate_and_parse_invoice_data decimal_of_string fromisoformat.















(** *** Which read fails first *)
















End MissingFields.

(** ** The extractor *)

Module PyStrFacts.

Import PyStr.

Lemma length_app (s t : string) :
  String.length (s ++ t) = (String.length s + String.length t)%nat.
Proof. induction s as [|a r IH]; simpl; [reflexivity | rewrite IH; reflexivity]. Qed.

Lemma app_assoc (x y z : string) : ((x ++ y) ++ z = x ++ (y ++ z))%string.
Proof.
  induction x as [|a r IH]; [reflexivity|].
  change (String a ((r ++ y) ++ z) = String a (r ++ (y ++ z))).
  rewrite IH. reflexivity.
Qed.

Lemma prefix_cons (a b : ascii) (p s : string) :
  String.prefix (String a p) (String b s)
  = if ascii_dec a b then String.prefix p s else false.
Proof. reflexivity. Qed.

Lemma lstrip_space_app (ws s : string) :
  all_space ws = true -> lstrip (ws ++ s) = lstrip s.
Proof.
  induction ws as [|a r IH]; simpl; [reflexivity|].
  intros H. apply andb_true_iff in H. destruct H as [Ha Hr].
  rewrite Ha. exact (IH Hr).
Qed.

Lemma rstrip_all_space (ws : string) : all_space ws = true -> rstrip ws = "".
Proof.
  induction ws as [|a r IH]; simpl; [reflexivity|].
  intros H. apply andb_true_iff in H. destruct H as [Ha Hr].
  rewrite (IH Hr), Ha. reflexivity.
Qed.

Lemma rstrip_app_space (s ws : string) :
  all_space ws = true -> rstrip (s ++ ws) = rstrip s.
Proof.
  intros H. induction s as [|a r IH]; simpl.
  - exact (rstrip_all_space _ H).
  - rewrite IH. reflexivity.
Qed.

(** A string that ends with a character that is not white space is its
    own [rstrip]. *)
Lemma rstrip_app_fixed (s t : string) :
  t <> "" -> rstrip t = t -> rstrip (s ++ t) = s ++ t.
Proof.
  intros Hne Ht. induction s as [|a r IH]; [exact Ht|].
  change (String a r ++ t) with (String a (r ++ t)).
  cbn [rstrip]. rewrite IH. destruct (r ++ t) eqn:E; [|reflexivity].
  destruct r; simpl in E; [contradiction | discriminate E].
Qed.

Lemma rstrip_idempotent (s : string) : rstrip (rstrip s) = rstrip s.
Proof.
  induction s as [|a r IH]; simpl; [reflexivity|].
  destruct (rstrip r) as [|b r'] eqn:E.
  - destruct (isspace a) eqn:Ea; simpl; [reflexivity | rewrite Ea; reflexivity].
  - simpl in *. rewrite IH. reflexivity.
Qed.

Lemma lstrip_no_leading_space (s : string) : no_leading_space (lstrip s).
Proof.
  induction s as [|a r IH]; simpl; [exact I|].
  destruct (isspace a) eqn:E; [exact IH | exact E].
Qed.

Lemma lstrip_fixed (s : string) : no_leading_space s -> lstrip s = s.
Proof. destruct s as [|a r]; simpl; [reflexivity | intros ->; reflexivity]. Qed.

Lemma rstrip_no_leading_space (s : string) :
  no_leading_space s -> no_leading_space (rstrip s).
Proof.
  destruct s as [|a r]; simpl; [exact id|].
  intros Ha. destruct (rstrip r); [rewrite Ha|]; exact Ha.
Qed.

Lemma strip_idempotent (s : string) : strip (strip s) = strip s.
Proof.
  unfold strip.
  rewrite (lstrip_fixed (rstrip (lstrip s))).
  - apply rstrip_idempotent.
  - apply rstrip_no_leading_space, lstrip_no_leading_space.
Qed.

Lemma drop_app (s t : string) : drop (String.length s) (s ++ t) = t.
Proof. induction s as [|a r IH]; simpl; [destruct t; reflexivity | exact IH]. Qed.

Lemma take_app (s t : string) : take (String.length s) (s ++ t) = s.
Proof.
  induction s as [|a r IH]; simpl; [destruct t; reflexivity | rewrite IH; reflexivity].
Qed.

Lemma endswith_app (s p : string) : endswith (s ++ p) p = true.
Proof.
  unfold endswith. rewrite length_app.
  replace (String.length s + String.length p - String.length p)%nat
    with (String.length s) by lia.
  rewrite drop_app, String.eqb_refl.
  rewrite andb_true_r. apply Nat.leb_le. lia.
Qed.

Lemma drop_last_app (s p : string) : drop_last (String.length p) (s ++ p) = s.
Proof.
  unfold drop_last. rewrite length_app.
  replace (String.length s + String.length p - String.length p)%nat
    with (String.length s) by lia.
  apply take_app.
Qed.

End PyStrFacts.

Section ExtractorFacts.

Variable json_loads : string -> option json.

Let extract := extract_json_from_response json_loads.

Lemma clean_response_stripped response :
  PyStr.strip (clean_response response) = clean_response response.
Proof. unfold clean_response. cbv zeta. apply PyStrFacts.strip_idempotent. Qed.

(** A reply wrapped in a [```json] fence, with white space around it: the
    cleaned text is the stripped inside of the fence. *)
Lemma clean_response_fenced ws1 ws2 c body :
  all_space ws1 = true -> all_space ws2 = true -> c <> "`"%char ->
  clean_response (ws1 ++ "```json" ++ String c body ++ "```" ++ ws2)
  = PyStr.strip (String c body).
Proof.
  intros H1 H2 Hc. unfold clean_response. cbv zeta.
  assert (Hs : PyStr.strip (ws1 ++ "```json" ++ String c body ++ "```" ++ ws2)
               = "```json" ++ (String c body ++ "```")).
  { unfold PyStr.strip. rewrite (PyStrFacts.lstrip_space_app _ _ H1).
    rewrite <- (PyStrFacts.app_assoc (String c body) "```" ws2).
    rewrite <- (PyStrFacts.app_assoc "```json" (String c body ++ "```") ws2).
    rewrite PyStrFacts.lstrip_fixed by reflexivity.
    rewrite (PyStrFacts.rstrip_app_space _ _ H2).
    rewrite <- (PyStrFacts.app_assoc "```json" (String c body) "```").
    rewrite PyStrFacts.rstrip_app_fixed; [|discriminate|reflexivity].
    apply PyStrFacts.app_assoc. }
  rewrite Hs.
  change (PyStr.startswith ("```json" ++ (String c body ++ "```")) "```json")
    with true.
  cbv iota.
  change (PyStr.drop 7 ("```json" ++ (String c body ++ "```")))
    with (String c body ++ "```").
  assert (PyStr.startswith (String c body ++ "```") "```" = false) as ->.
  { unfold PyStr.startswith.
    change (String c body ++ "```") with (String c (body ++ "```")).
    rewrite PyStrFacts.prefix_cons.
    destruct (ascii_dec "`" c) as [E|_]; [congruence | reflexivity]. }
  rewrite PyStrFacts.endswith_app.
  change 3%nat with (String.length "```").
  rewrite PyStrFacts.drop_last_app. reflexivity.
Qed.

(** The same for a fence without a language tag. *)
Lemma clean_response_fenced_plain ws1 ws2 c body :
  all_space ws1 = true -> all_space ws2 = true -> c <> "`"%char ->
  PyStr.startswith (String c body ++ "```") "json" = false ->
  clean_response (ws1 ++ "```" ++ String c body ++ "```" ++ ws2)
  = PyStr.strip (String c body).
Proof.
  intros H1 H2 Hc Hj. unfold clean_response. cbv zeta.
  assert (Hs : PyStr.strip (ws1 ++ "```" ++ String c body ++ "```" ++ ws2)
               = "```" ++ (String c body ++ "```")).
  { unfold PyStr.strip. rewrite (PyStrFacts.lstrip_space_app _ _ H1).
    rewrite <- (PyStrFacts.app_assoc (String c body) "```" ws2).
    rewrite <- (PyStrFacts.app_assoc "```" (String c body ++ "```") ws2).
    rewrite PyStrFacts.lstrip_fixed by reflexivity.
    rewrite (PyStrFacts.rstrip_app_space _ _ H2).
    rewrite <- (PyStrFacts.app_assoc "```" (String c body) "```").
    rewrite PyStrFacts.rstrip_app_fixed; [|discriminate|reflexivity].
    apply PyStrFacts.app_assoc. }
  rewrite Hs.
  assert (PyStr.startswith ("```" ++ (String c body ++ "```")) "```json" = false)
    as ->.
  { unfold PyStr.startswith in *.
    change ("```" ++ (String c body ++ "```"))
      with (String "`" (String "`" (String "`" (String c body ++ "```")))).
    rewrite !PyStrFacts.prefix_cons.
    destruct (ascii_dec "`" "`") as [_|E]; [|contradiction].
    exact Hj. }
  change (PyStr.startswith ("```" ++ (String c body ++ "```")) "```") with true.
  cbv iota.
  change (PyStr.drop 3 ("```" ++ (String c body ++ "```")))
    with (String c body ++ "```").
  rewrite PyStrFacts.endswith_app.
  change 3%nat with (String.length "```").
  rewrite PyStrFacts.drop_last_app. reflexivity.
Qed.

(** A reply without fences is only stripped. *)
Lemma clean_response_plain response :
  PyStr.startswith (PyStr.strip response) "```" = false ->
  PyStr.endswith (PyStr.strip response) "```" = false ->
  clean_response response = PyStr.strip response.
Proof.
  intros H1 H2. unfold clean_response. cbv zeta.
  assert (PyStr.startswith (PyStr.strip response) "```json" = false) as ->.
  { unfold PyStr.startswith in *.
    destruct (PyStr.strip response) as [|a r]; [reflexivity|].
    rewrite !PyStrFacts.prefix_cons in *.
    destruct (ascii_dec "`" a); [|reflexivity].
    destruct r as [|b r]; [reflexivity|].
    rewrite !PyStrFacts.prefix_cons in *.
    destruct (ascii_dec "`" b); [|reflexivity].
    destruct r as [|c r]; [reflexivity|].
    rewrite !PyStrFacts.prefix_cons in *.
    destruct (ascii_dec "`" c); [|reflexivity].
    destruct r; discriminate H1. }
  rewrite H1, H2. apply PyStrFacts.strip_idempotent.
Qed.

Lemma extract_Some_iff response d :
  extract response = Some d <->
  PyStr.startswith (clean_response response) "{" = true
  /\ json_loads (clean_response response) = Some d
  /\ exists kvs, d = JObj kvs /\ dict_has "action" kvs = true.
Proof.
  unfold extract, extract_json_from_response. cbv zeta.
  destruct (PyStr.startswith (clean_response response) "{").
  - destruct (json_loads (clean_response response)) as [[| | | | | | |kvs]|] eqn:E;
      try (split; [discriminate | intros (_ & H & kvs & -> & _); discriminate H]).
    destruct (dict_has "action" kvs) eqn:Ea.
    + split.
      * intros H. injection H as <-. repeat split. exists kvs.
        split; [reflexivity | exact Ea].
      * intros (_ & H & _). exact H.
    + split; [discriminate|].
      intros (_ & H & kvs' & -> & Ha). injection H as ->. congruence.
  - split; [discriminate | intros (H & _); discriminate H].
Qed.

(** C7. For every reply text: the text handed to the parser is stripped
    of surrounding white space, a reply wrapped in a [```json] fence is
    reduced to the stripped inside of the fence, likewise with a fence
    without language tag, and a reply without fences is only stripped; the parser is consulted only when the cleaned
    text begins with the opening brace (otherwise the result is no action,
    whatever the parser would say); when the parser fails the result is no
    action; and an object is returned exactly when the parser returns it,
    it is a mapping and it has the key action. The extractor is a total
    function: it has no way to raise. (A fence is written here as the
    marker, a first character that is not a backquote, the rest of the
    inside, and the closing marker.) *)
Theorem extractor_contract (response : string) :
  PyStr.strip (clean_response response) = clean_response response
  /\ (forall ws1 ws2 c body,
        all_space ws1 = true -> all_space ws2 = true -> c <> "`"%char ->
        response = ws1 ++ "```json" ++ String c body ++ "```" ++ ws2 ->
        clean_response response = PyStr.strip (String c body))
  /\ (forall ws1 ws2 c body,
        all_space ws1 = true -> all_space ws2 = true -> c <> "`"%char ->
        PyStr.startswith (String c body ++ "```") "json" = false ->
        response = ws1 ++ "```" ++ String c body ++ "```" ++ ws2 ->
        clean_response response = PyStr.strip (String c body))
  /\ (PyStr.startswith (PyStr.strip response) "```" = false ->
      PyStr.endswith (PyStr.strip response) "```" = false ->
      clean_response response = PyStr.strip response)
  /\ (PyStr.startswith (clean_response response) "{" = false ->
      extract response = None)
  /\ (json_loads (clean_response response) = None -> extract response = None)
  /\ (forall d,
        extract response = Some d <->
        PyStr.startswith (clean_response response) "{" = true
        /\ json_loads (clean_response response) = Some d
        /\ exists kvs, d = JObj kvs /\ dict_has "action" kvs = true).
Proof.
  split; [apply clean_response_stripped|].
  split; [intros ws1 ws2 c body H1 H2 Hc ->; apply clean_response_fenced; assumption|].
  split; [intros ws1 ws2 c body H1 H2 Hc Hj ->;
          apply clean_response_fenced_plain; assumption|].
  split; [apply clean_response_plain|].
  split; [|split].
  - intros H. destruct (extract response) as [d|] eqn:E; [|reflexivity].
    apply extract_Some_iff in E. destruct E as (E & _). congruence.
  - intros H. destruct (extract response) as [d|] eqn:E; [|reflexivity].
    apply extract_Some_iff in E. destruct E as (_ & E & _). congruence.
  - intros d. apply extract_Some_iff.
Qed.

End ExtractorFacts.

(** ** What is written to the store and read back *)

(** Induction on a JSON value, with the property at hand for every member
    of an array and every value of an object. *)
Lemma json_induction (P : json -> Prop) :
  P JNull ->
  (forall b, P (JBool b)) ->
  (forall n, P (JInt n)) ->
  (forall d, P (JFloat d)) ->
  (forall d, P (JDecimal d)) ->
  (forall s, P (JStr s)) ->
  (forall xs, Forall P xs -> P (JArr xs)) ->
  (forall kvs, Forall (fun kv => P (snd kv)) kvs -> P (JObj kvs)) ->
  forall v, P v.
Proof.
  intros HNull HBool HInt HFloat HDecimal HStr HArr HObj.
  fix IH 1. intros [| b | n | d | d | s | xs | kvs].
  - exact HNull.
  - apply HBool.
  - apply HInt.
  - apply HFloat.
  - apply HDecimal.
  - apply HStr.
  - apply HArr. induction xs as [|x r IHr]; constructor; [apply IH | exact IHr].
  - apply HObj. induction kvs as [|kv r IHr]; constructor; [apply IH | exact IHr].
Qed.

Lemma serializable_deserialize (v : json) : serializable (deserialize v) = true.
Proof.
  induction v using json_induction; cbn; try reflexivity.
  - induction H as [|x xs Hx _ IH]; cbn; [reflexivity|].
    rewrite Hx. exact IH.
  - induction H as [|kv kvs Hx _ IH]; cbn; [reflexivity|].
    rewrite Hx. exact IH.
Qed.

Lemma storable_deserialize (o : option json) :
  storable (option_map deserialize o) = true.
Proof. destruct o as [v|]; [apply serializable_deserialize | reflexivity]. Qed.

Lemma dict_get_deserialize (k : string) (kvs : list (string * json)) :
  dict_get k (map (fun kv => (fst kv, deserialize (snd kv))) kvs)
  = option_map deserialize (dict_get k kvs).
Proof.
  induction kvs as [|[k' v] r IH]; cbn; [reflexivity|].
  destruct (String.eqb k k'); [reflexivity | exact IH].
Qed.

Lemma Qeq_bool_inject_Z (n : Z) : Qeq_bool (inject_Z n) 0 = (n =? 0).
Proof. unfold Qeq_bool, inject_Z. cbn. rewrite Z.mul_1_r. reflexivity. Qed.

Lemma truthy_deserialize (v : json) : truthy (deserialize v) = truthy v.
Proof.
  destruct v as [| | | | | |xs|kvs]; cbn; try reflexivity.
  - rewrite Qeq_bool_inject_Z. reflexivity.
  - destruct xs; reflexivity.
  - destruct kvs; reflexivity.
Qed.

(** [deserialize] under the reads of the validator *)
Lemma subscript_deserialize v k :
  subscript (deserialize v) k
  = match subscript v k with
    | Done x => Done (deserialize x)
    | Raised e => Raised e
    end.
Proof.
  destruct v; try reflexivity. cbn. rewrite dict_get_deserialize.
  destruct (dict_get k kvs); reflexivity.
Qed.

Lemma get_default_deserialize v k d :
  get_default (deserialize v) k (deserialize d)
  = match get_default v k d with
    | Done x => Done (deserialize x)
    | Raised e => Raised e
    end.
Proof.
  destruct v; try reflexivity. cbn. rewrite dict_get_deserialize.
  destruct (dict_get k kvs); reflexivity.
Qed.

Lemma get_deserialize v k :
  get (deserialize v) k
  = match get v k with
    | Done o => Done (option_map deserialize o)
    | Raised e => Raised e
    end.
Proof.
  destruct v; try reflexivity. cbn. rewrite dict_get_deserialize. reflexivity.
Qed.

Lemma py_iter_deserialize v :
  py_iter (deserialize v)
  = match py_iter v with
    | Done items => Done (map deserialize items)
    | Raised e => Raised e
    end.
Proof.
  destruct v; try reflexivity; cbn; f_equal.
  - rewrite map_map. reflexivity.
  - rewrite !map_map. reflexivity.
Qed.

Lemma optional_str_deserialize n o :
  optional_str n (option_map deserialize o) = optional_str n o.
Proof. destruct o as [[]|]; reflexivity. Qed.

Lemma LineItem_create_deserialize description quantity unit_price taxable :
  LineItem.create (deserialize description) quantity unit_price taxable
  = LineItem.create description quantity unit_price taxable.
Proof. destruct description; reflexivity. Qed.

Lemma InvoiceData_create_deserialize n e a i d items r disc notes :
  InvoiceData.create (deserialize n) (option_map deserialize e)
    (option_map deserialize a) i d items r disc (option_map deserialize notes)
  = InvoiceData.create n e a i d items r disc notes.
Proof.
  unfold InvoiceData.create. rewrite !optional_str_deserialize.
  destruct n; reflexivity.
Qed.

Section StoredPayload.

Variable decimal_of_string : string -> option Decimal.
Variable fromisoformat : string -> option Z.

Lemma Decimal_of_str_deserialize v :
  Decimal_of_str decimal_of_string (deserialize v)
  = Decimal_of_str decimal_of_string v.
Proof. destruct v; reflexivity. Qed.

Lemma date_fromisoformat_deserialize v :
  date_fromisoformat fromisoformat (deserialize v)
  = date_fromisoformat fromisoformat v.
Proof. destruct v; reflexivity. Qed.

Lemma parse_line_item_deserialize item :
  parse_line_item decimal_of_string (deserialize item)
  = parse_line_item decimal_of_string item.
Proof.
  unfold parse_line_item. rewrite !subscript_deserialize.
  destruct (subscript item "description") as [description|]; [|reflexivity].
  destruct (subscript item "quantity") as [q|]; [|reflexivity].
  cbn [try_bind]. rewrite Decimal_of_str_deserialize.
  destruct (Decimal_of_str _ q) as [quantity|]; [|reflexivity].
  destruct (subscript item "unit_price") as [p|]; [|reflexivity].
  cbn [try_bind]. rewrite Decimal_of_str_deserialize.
  destruct (Decimal_of_str _ p) as [unit_price|]; [|reflexivity].
  cbn [try_bind]. apply LineItem_create_deserialize.
Qed.

Lemma parse_line_items_deserialize items :
  try_map (parse_line_item decimal_of_string) (map deserialize items)
  = try_map (parse_line_item decimal_of_string) items.
Proof.
  induction items as [|x r IH]; cbn; [reflexivity|].
  rewrite parse_line_item_deserialize, IH. reflexivity.
Qed.

Lemma get_default_number_deserialize {A : Type} v k (rest : Decimal -> Try A) :
  (let? raw := get_default (deserialize v) k (JInt 0) in
   let? number := Decimal_of_str decimal_of_string raw in
   rest number)
  = (let? raw := get_default v k (JInt 0) in
     let? number := Decimal_of_str decimal_of_string raw in
     rest number).
Proof.
  destruct v; try reflexivity. cbn [deserialize get_default try_bind].
  rewrite dict_get_deserialize.
  destruct (dict_get k kvs); cbn [option_map]; [|reflexivity].
  rewrite Decimal_of_str_deserialize. reflexivity.
Qed.

(** The validator does not tell a stored payload from the decoded one. *)
Lemma validate_deserialize today data :
  validate_and_parse_invoice_data decimal_of_string fromisoformat today
    (deserialize data)
  = validate_and_parse_invoice_data decimal_of_string fromisoformat today data.
Proof.
  unfold validate_and_parse_invoice_data.
  unfold parse_invoice_data.
  change (JObj []) with (deserialize (JObj [])).
  change (JArr []) with (deserialize (JArr [])).
  rewrite get_default_deserialize.
  destruct (get_default data "data" _) as [invoice_dict|]; [|reflexivity].
  cbn [try_bind]. rewrite get_default_deserialize.
  destruct (get_default invoice_dict "line_items" _) as [raw|]; [|reflexivity].
  cbn [try_bind]. rewrite py_iter_deserialize.
  destruct (py_iter raw) as [items|]; [|reflexivity].
  cbn [try_bind]. rewrite parse_line_items_deserialize.
  destruct (try_map _ items) as [line_items|]; [|reflexivity].
  cbn [try_bind]. rewrite !subscript_deserialize.
  destruct (subscript invoice_dict "invoice_date") as [i|]; [|reflexivity].
  cbn [try_bind]. rewrite date_fromisoformat_deserialize.
  destruct (date_fromisoformat _ i) as [invoice_date|]; [|reflexivity].
  destruct (subscript invoice_dict "due_date") as [d|]; [|reflexivity].
  cbn [try_bind]. rewrite date_fromisoformat_deserialize.
  destruct (date_fromisoformat _ d) as [due_date|]; [|reflexivity].
  cbn [try_bind].
  destruct (correct_dates today invoice_date due_date) as [dates|]; [|reflexivity].
  destruct (subscript invoice_dict "customer_name") as [name|]; [|reflexivity].
  cbn [try_bind]. rewrite !get_deserialize.
  destruct (get invoice_dict "customer_email") as [email|]; [|reflexivity].
  destruct (get invoice_dict "customer_address") as [address|]; [|reflexivity].
  cbn [try_bind].
  rewrite !get_default_number_deserialize.
  destruct (get_default invoice_dict "tax_rate" _) as [raw_tax_rate|]; [|reflexivity].
  cbn [try_bind].
  destruct (Decimal_of_str _ raw_tax_rate) as [tax_rate|]; [|reflexivity].
  cbn [try_bind]. rewrite get_default_number_deserialize.
  destruct (get_default invoice_dict "discount" _) as [raw_discount|]; [|reflexivity].
  cbn [try_bind].
  destruct (Decimal_of_str _ raw_discount) as [discount|]; [|reflexivity].
  cbn [try_bind].
  destruct (get invoice_dict "notes") as [notes|]; [|reflexivity].
  cbn [try_bind]. rewrite InvoiceData_create_deserialize. reflexivity.
Qed.

End StoredPayload.

(** ** The handler *)

(** Symbolic execution of the handler's monad: unfold the steps, then split
    on whatever the next [match] looks at. *)
Ltac head_scrutinee t :=
  lazymatch t with
  | match ?x with _ => _ end => head_scrutinee x
  | (match ?x with _ => _ end) _ => head_scrutinee x
  | _ => constr:(t)
  end.

(** Splits on what the run in [H : run = result] looks at next. *)
Ltac head_match H :=
  lazymatch type of H with
  | ?l = _ =>
      let x := head_scrutinee l in
      lazymatch x with
      | l => fail
      | _ => first [is_var x; destruct x | destruct x eqn:?]
      end
  end.

Ltac simpl_world H :=
  cbn [conversations invoices rate_limits subscriptions faults trace fst snd
       authorizer body Body.conversation_id Body.message
       Conversation.conversation_id Conversation.user_id Conversation.state
       Conversation.messages Conversation.extracted_data
       Conversation.created_at Conversation.updated_at
       Conversation.create Conversation.set_conversation_id
       Conversation.set_state Conversation.set_extracted_data
       Conversation.set_updated_at
       RateLimit.user_id RateLimit.request_count RateLimit.window_start
       RateLimit.ttl RateLimit.set_user_id RateLimit.increment
       RateLimit.create_new RateLimit.is_expired
       Subscription.subscription_status Subscription.invoices_this_month
       Subscription.invoice_count_reset_at
       Invoice.invoice_id Invoice.user_id Invoice.conversation_id
       storable option_map from_option id] in H.

Ltac unfold_turn H :=
  repeat progress unfold
    handler, handle, begin_turn, conclude_turn, create_invoice_action,
    extract_user_id_from_event, get_or_create_conversation,
    new_conversation, read_user_message, process_conversation_turn,
    DynamoDBHelper.create_conversation, DynamoDBHelper.get_conversation,
    DynamoDBHelper.item_to_conversation, DynamoDBHelper.update_conversation,
    DynamoDBHelper.check_and_reset_monthly_count,
    DynamoDBHelper.put_conversation, DynamoDBHelper.get_user_subscription,
    DynamoDBHelper.reset_monthly_invoice_count,
    DynamoDBHelper.write_subscription, DynamoDBHelper.create_invoice,
    DynamoDBHelper.increment_monthly_invoice_count,
    bind, ret, return_, throw, log, store_call in H.

Ltac unfold_steps H :=
  unfold_turn H;
  repeat progress unfold
    check_rate_limit,
    DynamoDBHelper.get_rate_limit, DynamoDBHelper.update_rate_limit,
    bind, ret, return_, throw, log, store_call in H.

(** Closes a branch whose recorded test evaluates the other way. *)
Ltac absurd_test :=
  match goal with
  | Hx : _ = true |- _ => cbn in Hx; discriminate Hx
  | Hx : _ = false |- _ => cbn in Hx; discriminate Hx
  end.

(** Rewrites the run in [H] with a fact of the context. *)
Ltac use_fact H :=
  match goal with
  | Hx : _ = _ |- _ =>
      lazymatch Hx with
      | H => fail
      | _ => rewrite Hx in H
      end
  end.

Ltac execute_with_facts H :=
  unfold_turn H; simpl_world H;
  repeat (first [use_fact H | head_match H]; simpl_world H).

Ltac execute H :=
  unfold_steps H; simpl_world H; repeat (head_match H; simpl_world H).

Lemma bind_inv {A B : Type} (m : M A) (k : A -> M B) w o w' :
  bind m k w = (o, w') ->
  (exists a w1, m w = (Value a, w1) /\ k a w1 = (o, w'))
  \/ (exists r, m w = (Returned r, w') /\ o = Returned r)
  \/ (exists e, m w = (Thrown e, w') /\ o = Thrown e).
Proof.
  unfold bind. destruct (m w) as [[a|r|e] w1]; intros H.
  - left. exists a, w1. split; [reflexivity | exact H].
  - right. left. exists r. injection H as <- <-. split; reflexivity.
  - right. right. exists e. injection H as <- <-. split; reflexivity.
Qed.

Lemma bind_Value {A B : Type} (m : M A) (k : A -> M B) w a w1 :
  m w = (Value a, w1) -> bind m k w = k a w1.
Proof. unfold bind. intros ->. reflexivity. Qed.

Lemma add_message_Some r text now c c' :
  Conversation.add_message r text now c = Some c' ->
  Conversation.messages c' = (Conversation.messages c ++ [Message.mk r text now])%list
  /\ Conversation.conversation_id c' = Conversation.conversation_id c
  /\ Conversation.user_id c' = Conversation.user_id c
  /\ Conversation.state c' = Conversation.state c.
Proof.
  unfold Conversation.add_message. destruct (Message.valid_content text); [|discriminate].
  intros H. injection H as <-. repeat split.
Qed.

Lemma add_message_extracted_data r text now c c' :
  Conversation.add_message r text now c = Some c' ->
  Conversation.extracted_data c' = Conversation.extracted_data c.
Proof.
  unfold Conversation.add_message. destruct (Message.valid_content text); [|discriminate].
  intros H. injection H as <-. reflexivity.
Qed.

Section HandlerFacts.

Variable json_loads : string -> option json.
Variable decimal_of_string : string -> option Decimal.
Variable fromisoformat : string -> option Z.
Variable dangerous : string -> bool.
Variable sql_injection : string -> bool.

Let run := handler json_loads decimal_of_string fromisoformat dangerous sql_injection.
Let begin := begin_turn json_loads dangerous sql_injection.
Let conclude := conclude_turn decimal_of_string fromisoformat.

(** *** States *)

Lemma conclude_turn_state env u c reply extracted w o w' d :
  conclude env u c reply extracted w = (o, w') ->
  o = Value (SuccessResponse d) \/ o = Returned (SuccessResponse d) ->
  exists c', conversations w' !! response_conversation d = Some c'
    /\ Conversation.state c' = state_after d.
Proof.
  intros H Ho. destruct w as [cs iv rl ss fs tr].
  unfold conclude in H. execute H.
  all: try (injection H as <- <-).
  all: try (destruct Ho as [Ho|Ho]; try discriminate Ho; injection Ho as <-).
  all: try (eexists; split; [apply lookup_insert_eq|reflexivity]).
Qed.

Lemma begin_turn_returns_errors event env w r w' :
  begin event env w = (Returned r, w') ->
  exists status message error_type, r = ErrorResponse status message error_type.
Proof.
  intros H. destruct w as [cs iv rl ss fs tr].
  unfold begin in H. execute H.
  all: try discriminate H.
  all: injection H as <- <-; eexists _, _, _; reflexivity.
Qed.

(** What a turn that reaches the end of [begin_turn] has done: the message
    of the request passed the sanitiser, the model was called on the
    stored history followed by that message, and the conversation object
    holds that history and the reply; the extracted data are those of the
    reply. *)
Lemma begin_turn_reply event env w u c reply extracted w1 :
  begin event env w = (Value (u, c, reply, extracted), w1) ->
  exists b text,
    body event = Some b
    /\ sanitize_input dangerous sql_injection (PyStr.strip (Body.message b)) 2000
       = inr text
    /\ converse env
         (prior_messages w (Body.conversation_id b)
          ++ [Message.mk role_user text (utcnow env)])%list
       = Some reply
    /\ Conversation.messages c
       = ((prior_messages w (Body.conversation_id b)
           ++ [Message.mk role_user text (utcnow env)])
          ++ [Message.mk role_assistant reply (utcnow env)])%list
    /\ extracted = extract_json_from_response json_loads reply
    /\ Conversation.conversation_id c
       = conversation_of env (Body.conversation_id b).
Proof.
  intros H. destruct event as [auth [[oid msg]|]], w as [cs iv rl ss fs tr].
  all: unfold prior_messages, conversation_of.
  all: unfold begin in H; execute H.
  all: try discriminate H.
  all: injection H as <- <- <- <- <-.
  all: repeat match goal with
         | Hx : Conversation.add_message _ _ _ _ = Some _ |- _ =>
             apply add_message_Some in Hx; destruct Hx as (Hx & ? & _ & _);
             simpl_world Hx
         end.
  all: eexists (Body.mk _ _), _; split; [reflexivity|].
  all: cbn [Body.conversation_id Body.message conversations].
  all: repeat match goal with
         | Hx : String.eqb ?x ?y = _ |- context [String.eqb ?x ?y] => rewrite Hx
         | Hx : ?m !! ?k = _ |- context [?m !! ?k] => rewrite Hx
         end.
  all: split; [eassumption|].
  all: repeat match goal with
         | Hx : Conversation.messages ?v = _ |- _ =>
             is_var v; try rewrite Hx in *; clear Hx
         end.
  all: cbn [app] in *; split; [assumption|]; split; [reflexivity|].
  all: split; [reflexivity|].
  all: repeat match goal with
         | Hx : Conversation.conversation_id _ = _ |- _ =>
             simpl_world Hx; rewrite Hx
         end.
  all: reflexivity.
Qed.

(** What a turn that ends with a success response stored, by the action of
    the reply. *)
Lemma conclude_turn_outcome env u c reply extracted w o w' d :
  conclude env u c reply extracted w = (o, w') ->
  o = Value (SuccessResponse d) \/ o = Returned (SuccessResponse d) ->
  let id := Conversation.conversation_id c in
  exists c', conversations w' !! id = Some c'
    /\ response_conversation d = id
    /\ Conversation.messages c' = Conversation.messages c
    /\ match action_of extracted with
       | Some action =>
           if String.eqb action "create_invoice" then
             (exists n,
                 d = UsageLimitReached id n FREE_TIER_INVOICE_LIMIT
                 /\ FREE_TIER_INVOICE_LIMIT <= n
                 /\ Conversation.state c' = COMPLETED)
             \/ (exists data inv invoice_id remaining,
                    extracted = Some data
                    /\ validate_and_parse_invoice_data decimal_of_string
                         fromisoformat (today env) data = Valid inv
                    /\ d = InvoiceReady id reply invoice_id inv remaining
                    /\ Conversation.state c' = COMPLETED)
             \/ (exists data e,
                    extracted = Some data
                    /\ validate_and_parse_invoice_data decimal_of_string
                         fromisoformat (today env) data = Invalid e
                    /\ d = InvoiceIssues id e
                    /\ Conversation.state c' = GATHERING_INFO)
           else if String.eqb action "cancel" then
             d = Cancelled id reply /\ Conversation.state c' = ABANDONED
           else
             d = KeepGathering id reply
             /\ Conversation.state c' = GATHERING_INFO
       | None =>
           d = KeepGathering id reply /\ Conversation.state c' = GATHERING_INFO
       end.
Proof.
  intros H Ho id. subst id. destruct w as [cs iv rl ss fs tr].
  unfold conclude in H. execute H.
  all: try (injection H as <- <-).
  all: try (destruct Ho as [Ho|Ho]; try discriminate Ho; injection Ho as <-).
  all: eexists; split; [apply lookup_insert_eq|]; split; [reflexivity|].
  all: split; [reflexivity|].
  all: unfold action_of.
  all: repeat match goal with
         | Hx : dict_get _ _ = _ |- _ => rewrite Hx
         | Hx : String.eqb _ _ = _ |- _ => rewrite Hx
         end.
  all: first
    [ split; reflexivity
    | left; eexists; split; [reflexivity|]; split; [|reflexivity];
      match goal with
      | Hx : negb _ && _ = true |- _ =>
          apply andb_true_iff in Hx; destruct Hx as [_ Hx];
          apply Z.leb_le in Hx; exact Hx
      end
    | right; left; eexists _, _, _, _; split; [reflexivity|];
      split; [eassumption|]; split; reflexivity
    | right; right; eexists _, _; split; [reflexivity|];
      split; [eassumption|]; split; reflexivity ].
Qed.

(** C4, as the code has it. Whatever state the conversation was in before
    the turn (also COMPLETED or ABANDONED: the handler never looks at
    it), a turn that ends with a success response stores the conversation
    the request is about, with the history the model saw and its reply, in
    the state that the action of that reply decides:
    - create_invoice: COMPLETED when the quota is exhausted (the answer is
      the upgrade prompt) or when the data validate (the answer is the
      invoice), GATHERING_INFO when the data do not validate (the answer
      names the issue);
    - cancel: ABANDONED;
    - any other action, or none: GATHERING_INFO.
    INITIATED and REVIEWING are never the state after such a turn. *)
Theorem turn_state_follows_outcome
    (event : Request) (env : Env) (w w' : World) (d : ResponseData) :
  run event env w = (SuccessResponse d, w') ->
  exists c' b text reply,
    let h :=
      (prior_messages w (Body.conversation_id b)
       ++ [Message.mk role_user text (utcnow env)])%list in
    let extracted := extract_json_from_response json_loads reply in
    let id := conversation_of env (Body.conversation_id b) in
    body event = Some b
    /\ sanitize_input dangerous sql_injection (PyStr.strip (Body.message b)) 2000
       = inr text
    /\ converse env h = Some reply
    /\ response_conversation d = id
    /\ conversations w' !! id = Some c'
    /\ Conversation.messages c'
       = (h ++ [Message.mk role_assistant reply (utcnow env)])%list
    /\ Conversation.state c' = state_after d
    /\ (Conversation.state c' = GATHERING_INFO
        \/ Conversation.state c' = COMPLETED
        \/ Conversation.state c' = ABANDONED)
    /\ match action_of extracted with
       | Some action =>
           if String.eqb action "create_invoice" then
             (exists n,
                 d = UsageLimitReached id n FREE_TIER_INVOICE_LIMIT
                 /\ FREE_TIER_INVOICE_LIMIT <= n
                 /\ Conversation.state c' = COMPLETED)
             \/ (exists data inv invoice_id remaining,
                    extracted = Some data
                    /\ validate_and_parse_invoice_data decimal_of_string
                         fromisoformat (today env) data = Valid inv
                    /\ d = InvoiceReady id reply invoice_id inv remaining
                    /\ Conversation.state c' = COMPLETED)
             \/ (exists data e,
                    extracted = Some data
                    /\ validate_and_parse_invoice_data decimal_of_string
                         fromisoformat (today env) data = Invalid e
                    /\ d = InvoiceIssues id e
                    /\ Conversation.state c' = GATHERING_INFO)
           else if String.eqb action "cancel" then
             d = Cancelled id reply /\ Conversation.state c' = ABANDONED
           else
             d = KeepGathering id reply
             /\ Conversation.state c' = GATHERING_INFO
       | None =>
           d = KeepGathering id reply /\ Conversation.state c' = GATHERING_INFO
       end.
Proof.
  intros H. unfold run, handler, handle in H. fold begin in H.
  destruct (bind _ _ w) as [o w1] eqn:E.
  apply bind_inv in E.
  destruct E as [((((u & c) & reply) & extracted) & w0 & Hb & Hc)
                | [(r & Hb & ->) | (e & Hb & ->)]].
  - fold conclude in Hc.
    assert (Ho : o = Value (SuccessResponse d) \/ o = Returned (SuccessResponse d)).
    { destruct o as [r|r|e].
      - injection H as -> _. left. reflexivity.
      - injection H as -> _. right. reflexivity.
      - injection H as H _. destruct e; discriminate H. }
    assert (w1 = w') as -> by (destruct o; injection H as _ <-; reflexivity).
    destruct (conclude_turn_state _ _ _ _ _ _ _ _ _ Hc Ho) as (c0 & Hc0 & Hs0).
    destruct (conclude_turn_outcome _ _ _ _ _ _ _ _ _ Hc Ho)
      as (c' & Hc' & Hid & Hm & Haction).
    destruct (begin_turn_reply _ _ _ _ _ _ _ _ Hb)
      as (b & text & Hbody & Htext & Hreply & Hh & -> & Hconv).
    rewrite Hid, Hc' in Hc0. injection Hc0 as <-.
    rewrite Hconv in *.
    exists c', b, text, reply. cbv zeta.
    repeat (split; [first [assumption | congruence]|]).
    split; [|exact Haction].
    rewrite Hs0. destruct d; simpl; tauto.
  - injection H as -> <-.
    apply begin_turn_returns_errors in Hb.
    destruct Hb as (? & ? & ? & Hb). discriminate Hb.
  - injection H as H _. destruct e; discriminate H.
Qed.

(** *** The message rate check *)

Lemma check_rate_limit_frame env u w o w' :
  check_rate_limit env u w = (o, w') ->
  conversations w' = conversations w
  /\ invoices w' = invoices w
  /\ subscriptions w' = subscriptions w
  /\ (faults w = [] -> faults w' = [])
  /\ (forall u', u' <> u -> rate_limits w' !! u' = rate_limits w !! u')
  /\ exists evs, trace w' = (trace w ++ evs)%list
       /\ Forall (fun e => exists r, e = RateLimitPut r) evs.
Proof.
  intros H. destruct w as [cs iv rl ss fs tr]. execute H.
  all: injection H as <- <-; cbn.
  all: repeat split; try congruence.
  all: try (intros u' Hu'; apply lookup_insert_ne; congruence).
  all: first [ exists []; split; [symmetry; apply app_nil_r | constructor]
             | eexists [_]; split; [reflexivity | repeat constructor; eexists; reflexivity] ].
Qed.

Lemma check_rate_limit_passes env u cs iv rl ss tr :
  rate_limited env (mk_world cs iv rl ss [] tr) u = false ->
  exists r,
    check_rate_limit env u (mk_world cs iv rl ss [] tr)
    = (Value tt,
       mk_world cs iv (<[u := r]> rl) ss [] (tr ++ [RateLimitPut r])%list).
Proof.
  intros Hrate. destruct (check_rate_limit env u _) as [o w'] eqn:H.
  unfold rate_limited, RateLimit.is_expired in Hrate. simpl_world Hrate.
  unfold_steps H. unfold RateLimit.is_expired in H. simpl_world H.
  repeat (head_match H; simpl_world H).
  all: simpl_world Hrate; try discriminate Hrate.
  all: injection H as <- <-; eexists; reflexivity.
Qed.

(** The sibling check of the feedback handler lets the request through when
    the store fails at its first call. *)
Lemma feedback_rate_check_fails_open email now w rest :
  faults w = true :: rest ->
  fst (Feedback.check_rate_limit email now w) = (true, Feedback.FEEDBACK_RATE_LIMIT).
Proof.
  intros Hf. destruct w as [cs iv rl ss fs tr]. simpl_world Hf. subst fs.
  reflexivity.
Qed.

(** C3, on the code. When the store fails at the read of the rate record,
    or (for a user who is not at the cap) at the write that follows, the
    turn of an authenticated user ends there with the 500 DatabaseError
    response: the request does not proceed, no table is changed and the
    model is not called. *)
Theorem rate_check_outage_fails_closed
    (event : Request) (env : Env) (w : World) (u : string) (rest : list bool) :
  authorizer event = Authenticated u ->
  faults w = true :: rest
  \/ (faults w = false :: true :: rest /\ rate_limited env w u = false) ->
  run event env w
  = (ErrorResponse 500 (Literal "Database error occurred") "DatabaseError",
     mk_world (conversations w) (invoices w) (rate_limits w)
              (subscriptions w) rest (trace w)).
Proof.
  intros Hu Hf. destruct event as [auth b], w as [cs iv rl ss fs tr].
  cbn in Hu, Hf. subst auth. unfold rate_limited in Hf. simpl_world Hf.
  destruct (run _ env _) as [r w'] eqn:H. unfold run in H.
  destruct Hf as [-> | [-> Hf]]; execute H.
  all: try (injection H as <- <-; reflexivity).
  all: unfold RateLimit.is_expired in *; simpl_world Hf; simpl_world Heqb0.
  all: rewrite Heqb0 in Hf; discriminate Hf.
Qed.

(** *** Turns that end before the model is called *)

(** C9. A turn of an authenticated user who is not at the rate cap, with
    the store reachable, that names an existing conversation of another
    user ends with the 403 Forbidden response. The conversations, invoices
    and subscriptions tables are as before, and all the turn did to the
    outside is one write of the user's own rate record: no message was
    appended and the model was not called. *)
Theorem foreign_conversation_is_forbidden
    (event : Request) (env : Env) (w : World) (u id : string) (b : Body.t)
    (c : Conversation.t) :
  authorizer event = Authenticated u ->
  body event = Some b ->
  Body.conversation_id b = Some id ->
  id <> "" ->
  conversations w !! id = Some c ->
  Conversation.user_id c <> u ->
  faults w = [] ->
  rate_limited env w u = false ->
  exists w',
    run event env w
    = (ErrorResponse 403 (Literal "Not authorized to access this conversation")
         "Forbidden", w')
    /\ conversations w' = conversations w
    /\ invoices w' = invoices w
    /\ subscriptions w' = subscriptions w
    /\ (forall u', u' <> u -> rate_limits w' !! u' = rate_limits w !! u')
    /\ exists r, trace w' = (trace w ++ [RateLimitPut r])%list.
Proof.
  intros Hu Hb Hid Hne Hc Hown Hf Hrate.
  destruct event as [auth ob], b as [oid msg], w as [cs iv rl ss fs tr].
  simpl_world Hu. simpl_world Hb. simpl_world Hid. simpl_world Hc.
  simpl_world Hf. simpl_world Hown. subst auth ob oid fs.
  apply String.eqb_neq in Hne, Hown.
  destruct (run _ env _) as [r w'] eqn:H. exists w'.
  destruct (check_rate_limit_passes env u cs iv rl ss tr Hrate) as (r0 & Hpass).
  unfold run in H. unfold_turn H. simpl_world H.
  repeat (first [rewrite Hpass in H | rewrite Hne in H | rewrite Hc in H
                | rewrite Hown in H | head_match H]; simpl_world H).
  all: try absurd_test.
  all: injection H as <- <-; cbn.
  all: repeat split; try (eexists; reflexivity).
  all: intros u' Hu'; apply lookup_insert_ne; congruence.
Qed.

(** C10. A turn of an authenticated user who is not at the rate cap, with
    the store reachable, that names no conversation and whose message is
    empty once stripped, ends with the 400 ValidationError response
    "Message is required"; by then a new conversation, in state INITIATED
    and without messages, has been written to the store under the fresh
    identifier. *)
Theorem empty_message_still_creates_conversation
    (event : Request) (env : Env) (w : World) (u : string) (b : Body.t) :
  authorizer event = Authenticated u ->
  body event = Some b ->
  Body.conversation_id b = None ->
  PyStr.strip (Body.message b) = "" ->
  faults w = [] ->
  rate_limited env w u = false ->
  exists w' c,
    run event env w
    = (ErrorResponse 400 (Literal "Message is required") "ValidationError", w')
    /\ conversations w' !! new_conversation_id env = Some c
    /\ conversations w'
       = <[new_conversation_id env := c]> (conversations w)
    /\ Conversation.user_id c = u
    /\ Conversation.state c = INITIATED
    /\ Conversation.messages c = []
    /\ In (ConversationPut c) (trace w').
Proof.
  intros Hu Hb Hid Hmsg Hf Hrate.
  destruct event as [auth ob], b as [oid msg], w as [cs iv rl ss fs tr].
  simpl_world Hu. simpl_world Hb. simpl_world Hid. simpl_world Hmsg.
  simpl_world Hf. subst auth ob oid fs.
  destruct (run _ env _) as [r w'] eqn:H. exists w'.
  exists (Conversation.create (new_conversation_id env) u INITIATED (utcnow env)).
  destruct (check_rate_limit_passes env u cs iv rl ss tr Hrate) as (r0 & Hpass).
  unfold run in H. unfold_turn H. simpl_world H.
  repeat (first [rewrite Hpass in H | rewrite Hmsg in H | head_match H];
          simpl_world H).
  all: try absurd_test.
  all: injection H as <- <-; cbn.
  all: repeat split; try apply lookup_insert_eq.
  all: apply in_or_app; right; left; reflexivity.
Qed.

(** *** The monthly quota *)

Lemma begin_turn_frame event env w o w' :
  begin event env w = (o, w') ->
  invoices w' = invoices w
  /\ subscriptions w' = subscriptions w
  /\ (faults w = [] -> faults w' = []).
Proof.
  intros H. destruct w as [cs iv rl ss fs tr].
  unfold begin in H. execute H.
  all: injection H as <- <-; cbn.
  all: repeat split; congruence.
Qed.

(** The conversation a turn goes on with can be written back: it is a new
    one, or it was read from the store. *)
Lemma begin_turn_storable event env w u c reply extracted w1 :
  begin event env w = (Value (u, c, reply, extracted), w1) ->
  storable (Conversation.extracted_data c) = true.
Proof.
  intros H. destruct w as [cs iv rl ss fs tr].
  unfold begin in H. execute H.
  all: try discriminate H.
  all: injection H as _ <- _ _ _.
  all: repeat match goal with
         | Hx : Conversation.add_message _ _ _ _ = Some _ |- _ =>
             apply add_message_extracted_data in Hx; simpl_world Hx
         end.
  all: repeat match goal with
         | Hx : Conversation.extracted_data _ = _ |- _ => rewrite Hx; clear Hx
         end.
  all: first [reflexivity | apply storable_deserialize].
Qed.

(** C2. Take a turn that reaches the model, whose reply carries the action
    create_invoice, for a user whose subscription is not pro and whose
    monthly counter, last reset this calendar month, is at the free-tier
    cap of 5 (or above), the store being reachable. The handler answers
    with the upgrade prompt (usage limit reached), the conversation is
    stored in state COMPLETED, and nothing else is written after the
    model's reply: the invoices table and the subscriptions table, with
    the monthly counter, are as before the turn. *)
Theorem quota_exhausted_turn_creates_nothing
    (event : Request) (env : Env) (w w1 : World) (u reply : string)
    (c : Conversation.t) (kvs : list (string * json))
    (sub : Subscription.t) (n : Z) :
  begin event env w = (Value (u, c, reply, Some (JObj kvs)), w1) ->
  dict_get "action" kvs = Some (JStr "create_invoice") ->
  faults w = [] ->
  subscriptions w !! u = Some sub ->
  Subscription.subscription_status sub <> Some "pro" ->
  Subscription.invoices_this_month sub = Some n ->
  FREE_TIER_INVOICE_LIMIT <= n ->
  counted_this_month (utcnow env) sub = true ->
  exists w' c',
    run event env w
    = (SuccessResponse
         (UsageLimitReached (Conversation.conversation_id c) n
            FREE_TIER_INVOICE_LIMIT), w')
    /\ invoices w' = invoices w
    /\ subscriptions w' = subscriptions w
    /\ conversations w' !! Conversation.conversation_id c = Some c'
    /\ Conversation.state c' = COMPLETED
    /\ trace w' = (trace w1 ++ [ConversationPut c'])%list.
Proof.
  intros Hbegin Haction Hf Hsub Hpro Hn Hcap Hmonth.
  destruct (begin_turn_frame _ _ _ _ _ Hbegin) as (Hiv & Hss & Hfs).
  specialize (Hfs Hf). rewrite <- Hss in Hsub. rewrite <- Hiv, <- Hss.
  clear Hiv Hss Hf.
  pose proof (begin_turn_storable _ _ _ _ _ _ _ _ Hbegin) as Hstorable.
  unfold run, handler, handle. fold begin.
  rewrite (bind_Value _ _ _ _ _ Hbegin). clear Hbegin.
  destruct w1 as [cs iv rl ss fs tr]. simpl_world Hsub. simpl_world Hfs. subst fs.
  destruct sub as [st cnt rs]. simpl_world Hn. subst cnt.
  unfold counted_this_month in Hmonth. simpl_world Hmonth. simpl_world Hpro.
  apply Z.leb_le in Hcap.
  assert (Hst : match st with Some s => String.eqb s "pro" | None => false end = false).
  { destruct st as [s|]; [|reflexivity].
    apply String.eqb_neq. congruence. }
  destruct (conclude_turn _ _ _ _ _ _ _ _) as [o w'] eqn:H.
  destruct rs as [d|].
  - apply andb_true_iff in Hmonth. destruct Hmonth as [Hm Hy].
    execute_with_facts H; try absurd_test.
    all: injection H as <- <-; eexists _, _; cbn; repeat split;
      first [reflexivity | apply lookup_insert_eq].
  - execute_with_facts H; try absurd_test.
    all: injection H as <- <-; eexists _, _; cbn; repeat split;
      first [reflexivity | apply lookup_insert_eq].
Qed.

(** *** What happens before and after the call to the model *)

Lemma begin_turn_trace event env w o w' :
  begin event env w = (o, w') ->
  (exists pre,
      trace w' = (trace w ++ pre)%list /\ Forall prepares pre
      /\ forall x, o <> Value x)
  \/ (exists pre b text,
        let h :=
          (prior_messages w (Body.conversation_id b)
           ++ [Message.mk role_user text (utcnow env)])%list in
        body event = Some b
        /\ sanitize_input dangerous sql_injection
             (PyStr.strip (Body.message b)) 2000 = inr text
        /\ trace w' = (trace w ++ pre ++ [ModelInvoked h])%list
        /\ Forall prepares pre
        /\ match o with
           | Value (_, c, reply, _) =>
               converse env h = Some reply
               /\ Conversation.messages c
                  = (h ++ [Message.mk role_assistant reply (utcnow env)])%list
           | Returned _ => False
           | Thrown e =>
               (e = BedrockException /\ converse env h = None)
               \/ (e = UnexpectedError /\ exists reply, converse env h = Some reply)
           end).
Proof.
  intros H. destruct event as [auth [[oid msg]|]], w as [cs iv rl ss fs tr].
  all: unfold prior_messages.
  all: unfold begin in H; execute H.
  all: injection H as <- <-.
  all: repeat match goal with
         | Hx : Conversation.add_message _ _ _ _ = Some _ |- _ =>
             apply add_message_Some in Hx; destruct Hx as (Hx & _ & _ & _);
             simpl_world Hx
         end.
  all: cbn [trace].
  all: repeat match goal with
         | Hx : Conversation.messages ?v = _ |- _ =>
             is_var v; try rewrite Hx in *; clear Hx
         end.
  all: first
    [ solve [ left; eexists; split;
              [ rewrite <- ?app_assoc; first [reflexivity | symmetry; apply app_nil_r]
              | split; [cbn [app]; repeat constructor | intros x; discriminate] ] ]
    | right;
      lazymatch goal with
      | |- context [(((?t ++ [?a]) ++ [?b]) ++ [ModelInvoked _])%list] =>
          exists [a; b]
      | |- context [((?t ++ [?a]) ++ [ModelInvoked _])%list] =>
          exists [a]
      end;
      eexists (Body.mk _ _), _; cbv zeta; split; [reflexivity|];
      cbn [Body.conversation_id Body.message conversations];
      repeat match goal with
        | Hx : String.eqb ?x ?y = _ |- context [String.eqb ?x ?y] => rewrite Hx
        | Hx : ?m !! ?k = _ |- context [?m !! ?k] => rewrite Hx
        end;
      split; [eassumption|];
      split; [rewrite <- ?app_assoc; reflexivity|];
      split; [repeat constructor|];
      first [ split; [assumption | reflexivity]
            | left; split; [reflexivity | assumption]
            | right; split; [reflexivity | eexists; eassumption] ] ].
Qed.

Lemma conclude_turn_trace env u c reply extracted w o w' :
  conclude env u c reply extracted w = (o, w') ->
  exists post,
    trace w' = (trace w ++ post)%list
    /\ Forall (follows (Conversation.messages c)) post.
Proof.
  intros H. destruct w as [cs iv rl ss fs tr].
  unfold conclude in H. execute H.
  all: injection H as <- <-; cbn [trace].
  all: eexists; split;
    [ rewrite <- ?app_assoc; first [reflexivity | symmetry; apply app_nil_r]
    | cbn [app]; repeat constructor ].
Qed.

(** A turn that ends with a success response has saved the conversation:
    the write is the last thing the turn does. *)
Lemma conclude_turn_saves env u c reply extracted w o w' d :
  conclude env u c reply extracted w = (o, w') ->
  o = Value (SuccessResponse d) \/ o = Returned (SuccessResponse d) ->
  exists c' earlier,
    trace w' = (trace w ++ earlier ++ [ConversationPut c'])%list
    /\ Conversation.messages c' = Conversation.messages c
    /\ conversations w' !! response_conversation d = Some c'.
Proof.
  intros H Ho. destruct w as [cs iv rl ss fs tr].
  unfold conclude in H. execute H.
  all: try (injection H as <- <-).
  all: try (destruct Ho as [Ho|Ho]; try discriminate Ho; injection Ho as <-).
  all: cbn [trace response_conversation].
  all: first
    [ eexists _, []; split; [reflexivity|]
    | eexists _, [_]; split; [rewrite <- ?app_assoc; reflexivity|]
    | eexists _, [_; _]; split; [rewrite <- ?app_assoc; reflexivity|]
    | eexists _, [_; _; _]; split; [rewrite <- ?app_assoc; reflexivity|] ].
  all: split; [reflexivity | apply lookup_insert_eq].
Qed.

(** C8, as the code has it. In every turn, either the model is not called,
    and then all the turn wrote is the rate record and at most a new
    conversation without messages, and the turn does not end with a
    success response; or the model is called once, on the stored history
    of the conversation followed by the message of the request as the
    sanitiser returned it, and
    - before the call only the rate record and at most a new conversation
      without messages were written: the user's message is in the
      conversation object, not in the store;
    - if the call fails, nothing is written after it and the turn ends
      with the 500 BedrockError response;
    - if the model replies, whatever is written after the call is a write
      to the store, a conversation is only written with the history the
      model saw followed by its reply, and a turn that ends with a success
      response has made that write: it is the last event of the turn, and
      the store holds the conversation with these messages. *)
Theorem user_message_stored_after_model_reply
    (event : Request) (env : Env) (w w' : World) (r : Response) :
  run event env w = (r, w') ->
  (exists pre,
      trace w' = (trace w ++ pre)%list /\ Forall prepares pre
      /\ ~ exists d, r = SuccessResponse d)
  \/ (exists b text pre post,
        let h :=
          (prior_messages w (Body.conversation_id b)
           ++ [Message.mk role_user text (utcnow env)])%list in
        body event = Some b
        /\ sanitize_input dangerous sql_injection
             (PyStr.strip (Body.message b)) 2000 = inr text
        /\ trace w' = (trace w ++ pre ++ ModelInvoked h :: post)%list
        /\ Forall prepares pre
        /\ match converse env h with
           | None => post = [] /\ r = error_response BedrockException
           | Some reply =>
               let saved :=
                 (h ++ [Message.mk role_assistant reply (utcnow env)])%list in
               Forall (follows saved) post
               /\ (forall d, r = SuccessResponse d ->
                     exists c' earlier,
                       post = (earlier ++ [ConversationPut c'])%list
                       /\ Conversation.messages c' = saved
                       /\ conversations w' !! response_conversation d = Some c')
           end).
Proof.
  unfold run, handler, handle. fold begin. fold conclude. intros H.
  destruct (bind _ _ w) as [o w1] eqn:E.
  apply bind_inv in E.
  destruct E as [((((u & c) & reply) & extracted) & w0 & Hb & Hc)
                | [(r0 & Hb & ->) | (e & Hb & ->)]].
  - assert (w1 = w') as -> by (destruct o; injection H as _ <-; reflexivity).
    apply begin_turn_trace in Hb.
    destruct Hb as [(pre & _ & _ & Hno)
                   | (pre & b & text & Hbody & Htext & Ht & Hpre & Hr & Hm)].
    { exfalso. eapply Hno. reflexivity. }
    destruct (conclude_turn_trace _ _ _ _ _ _ _ _ Hc) as (post & Hpost & Hf).
    right. exists b, text, pre, post. cbv zeta.
    split; [exact Hbody|]. split; [exact Htext|]. split; [|split; [exact Hpre|]].
    + rewrite Hpost, Ht. rewrite <- !app_assoc. reflexivity.
    + rewrite Hr. rewrite <- Hm. split; [exact Hf|].
      intros d Hd.
      assert (Ho : o = Value (SuccessResponse d) \/ o = Returned (SuccessResponse d)).
      { destruct o as [r1|r1|e].
        - injection H as ->. left. congruence.
        - injection H as ->. right. congruence.
        - injection H as H. destruct e; rewrite Hd in H; discriminate H. }
      destruct (conclude_turn_saves _ _ _ _ _ _ _ _ _ Hc Ho)
        as (c' & earlier & Hsaved & Hmsgs & Hstored).
      exists c', earlier. split; [|split; [exact Hmsgs | exact Hstored]].
      rewrite Hpost in Hsaved. apply app_inv_head in Hsaved. exact Hsaved.
  - injection H as <- <-.
    pose proof (begin_turn_returns_errors _ _ _ _ _ Hb) as (? & ? & ? & Herr).
    apply begin_turn_trace in Hb.
    destruct Hb as [(pre & Ht & Hpre & _) | (pre & b & text & _ & _ & _ & _ & [])].
    left. exists pre. split; [exact Ht|]. split; [exact Hpre|].
    intros (d & Hd). congruence.
  - injection H as <- <-.
    apply begin_turn_trace in Hb.
    destruct Hb as [(pre & Ht & Hpre & _)
                   | (pre & b & text & Hbody & Htext & Ht & Hpre
                      & [(-> & Hr) | (-> & reply & Hr)])].
    + left. exists pre. split; [exact Ht|]. split; [exact Hpre|].
      intros (d & Hd). destruct e; discriminate Hd.
    + right. exists b, text, pre, []. cbv zeta.
      split; [exact Hbody|]. split; [exact Htext|].
      split; [exact Ht|]. split; [exact Hpre|].
      rewrite Hr. split; reflexivity.
    + right. exists b, text, pre, []. cbv zeta.
      split; [exact Hbody|]. split; [exact Htext|].
      split; [exact Ht|]. split; [exact Hpre|].
      rewrite Hr. split; [constructor|].
      intros d Hd. discriminate Hd.
Qed.

End HandlerFacts.

(** * The properties on concrete runs *)

(** C2 at work: alice, on the free tier with five invoices this month,
    confirms a sixth; the reply of the model is the create_invoice action
    of the scenario. *)
Lemma quota_exhausted_turn_creates_nothing_witness :
  fst (Demo.run Demo.alice_confirms (Demo.env Demo.creating) Demo.with_quota_used)
  = SuccessResponse (UsageLimitReached "conv-0001" 5 5)
  /\ invoices (snd (Demo.run Demo.alice_confirms (Demo.env Demo.creating)
                      Demo.with_quota_used)) = ∅
  /\ subscriptions (snd (Demo.run Demo.alice_confirms (Demo.env Demo.creating)
                           Demo.with_quota_used))
     = {[ "alice" := Demo.at_cap ]}.
Proof.
  destruct (Demo.begin Demo.alice_confirms (Demo.env Demo.creating)
              Demo.with_quota_used) as [[[[[u c] reply] [[| | | | | | |kvs]|]]|?|?] w1] eqn:Hb;
    try (vm_compute in Hb; discriminate Hb).
  destruct (quota_exhausted_turn_creates_nothing
              Demo.json_loads Demo.decimal_of_string PyDate.iso_date
              Demo.no_pattern Demo.no_pattern
              Demo.alice_confirms (Demo.env Demo.creating) Demo.with_quota_used
              w1 u reply c kvs Demo.at_cap 5)
    as (w' & c' & Hrun & Hiv & Hss & _).
  - exact Hb.
  - vm_compute in Hb. injection Hb as _ _ _ <- _. reflexivity.
  - reflexivity.
  - vm_compute in Hb. injection Hb as <- _ _ _ _. vm_compute. reflexivity.
  - discriminate.
  - reflexivity.
  - vm_compute. discriminate.
  - reflexivity.
  - fold Demo.run in Hrun. rewrite Hrun. cbn [fst snd].
    assert (Hc : Conversation.conversation_id c = "conv-0001").
    { vm_compute in Hb. injection Hb as _ <- _ _ _. reflexivity. }
    rewrite Hc. split; [reflexivity|]. split; assumption.
Defined.

(** C3 at work: the store is down when the rate record is read. *)
Lemma rate_check_outage_fails_closed_witness :
  Demo.run Demo.alice_starts (Demo.env Demo.chatty) Demo.unreachable
  = (ErrorResponse 500 (Literal "Database error occurred") "DatabaseError",
     Demo.empty).
Proof.
  apply (rate_check_outage_fails_closed
           Demo.json_loads Demo.decimal_of_string PyDate.iso_date
           Demo.no_pattern Demo.no_pattern
           Demo.alice_starts (Demo.env Demo.chatty) Demo.unreachable "alice" []).
  - reflexivity.
  - left. reflexivity.
Defined.

(** C4 refuted as stated: a turn on a COMPLETED conversation, to which the
    model answers with plain text, leaves it in GATHERING_INFO. *)
Lemma completed_conversation_reopens :
  Conversation.state <$> conversations Demo.with_finished !! "conv-7"
  = Some COMPLETED
  /\ fst (Demo.run Demo.alice_asks (Demo.env Demo.chatty) Demo.with_finished)
     = SuccessResponse (KeepGathering "conv-7" "Sure, what else do you need?")
  /\ Conversation.state
       <$> conversations (snd (Demo.run Demo.alice_asks (Demo.env Demo.chatty)
                                 Demo.with_finished)) !! "conv-7"
     = Some GATHERING_INFO.
Proof. vm_compute. repeat split. Qed.

(** C4 at work: alice cancels on her finished conversation, which goes
    from COMPLETED to ABANDONED with the two messages of the turn
    appended. *)
Lemma turn_state_follows_outcome_witness :
  exists c',
    fst (Demo.run Demo.alice_asks (Demo.env Demo.cancelling) Demo.with_finished)
    = SuccessResponse (Cancelled "conv-7" Demo.cancel_text)
    /\ conversations (snd (Demo.run Demo.alice_asks (Demo.env Demo.cancelling)
                             Demo.with_finished)) !! "conv-7" = Some c'
    /\ Conversation.state c' = ABANDONED
    /\ Conversation.messages c'
       = (Conversation.messages Demo.finished
          ++ [Message.mk role_user "One more thing" Demo.now;
              Message.mk role_assistant Demo.cancel_text Demo.now])%list.
Proof.
  destruct (turn_state_follows_outcome
              Demo.json_loads Demo.decimal_of_string PyDate.iso_date
              Demo.no_pattern Demo.no_pattern
              Demo.alice_asks (Demo.env Demo.cancelling) Demo.with_finished
              (snd (Demo.run Demo.alice_asks (Demo.env Demo.cancelling)
                      Demo.with_finished))
              (Cancelled "conv-7" Demo.cancel_text))
    as (c' & b & text & reply & Hbody & Htext & Hreply & _ & Hstored & Hmessages
        & Hstate & _).
  - vm_compute. reflexivity.
  - injection Hbody as <-.
    vm_compute in Htext. injection Htext as <-.
    vm_compute in Hreply. injection Hreply as <-.
    exists c'. split; [vm_compute; reflexivity|].
    split; [exact Hstored|]. split; [exact Hstate|]. exact Hmessages.
Defined.

(** C5 refuted as stated: the raw due date 9999-12-10 is before the
    invoice date 9999-12-20, every other field is fine (with the due date
    9999-12-25 the payload is accepted), and validation rejects: the
    invoice date plus 30 days is past [date.max]. *)
Lemma due_date_correction_overflows :
  raw_field "invoice_date" Demo.out_of_order_late = Some (JStr "9999-12-20")
  /\ raw_field "due_date" Demo.out_of_order_late = Some (JStr "9999-12-10")
  /\ PyDate.iso_date "9999-12-20" = Some 3652048
  /\ PyDate.iso_date "9999-12-10" = Some 3652038
  /\ (exists inv,
        Demo.validate (with_due_date "9999-12-25" Demo.out_of_order_late)
        = Valid inv)
  /\ Demo.validate Demo.out_of_order_late = Invalid FailedToParse.
Proof.
  repeat split; try (vm_compute; reflexivity).
  eexists. vm_compute. reflexivity.
Qed.

(** C5 at work: due 2024-01-10 for an invoice of 2024-01-15 becomes
    2024-02-14. *)
Lemma due_date_before_invoice_date_is_replaced_witness :
  exists inv,
    Demo.validate Demo.out_of_order = Valid inv
    /\ InvoiceData.invoice_date inv = 738900
    /\ InvoiceData.due_date inv = 738930.
Proof.
  destruct (Demo.validate (with_due_date "2024-02-01" Demo.out_of_order))
    as [inv|r] eqn:Hok; [|vm_compute in Hok; discriminate Hok].
  assert (Hi : InvoiceData.invoice_date inv = 738900).
  { vm_compute in Hok. injection Hok as <-. reflexivity. }
  eexists. split.
  - apply (due_date_before_invoice_date_is_replaced
             Demo.decimal_of_string PyDate.iso_date Demo.today
             Demo.out_of_order "2024-02-01" "2024-01-10" 738895 inv).
    + exact Hok.
    + reflexivity.
    + vm_compute. reflexivity.
    + lia.
    + rewrite Hi. lia.
    + rewrite Hi. vm_compute. discriminate.
  - cbn [InvoiceData.invoice_date InvoiceData.due_date]. rewrite Hi.
    split; reflexivity.
Defined.



(** C7 at work: a cancel action in a [```json] fence. *)
Lemma extractor_contract_witness :
  clean_response ("```json" ++ String (ascii_of_nat 10) Demo.cancel_text ++ "```")
  = Demo.cancel_text
  /\ extract_json_from_response Demo.json_loads
       ("```json" ++ String (ascii_of_nat 10) Demo.cancel_text ++ "```")
     = Some Demo.cancel_json.
Proof.
  pose proof (extractor_contract Demo.json_loads
                ("```json" ++ String (ascii_of_nat 10) Demo.cancel_text ++ "```"))
    as (_ & Hfence & _ & _ & _ & _ & Hiff).
  split.
  - rewrite (Hfence "" "" (ascii_of_nat 10) Demo.cancel_text);
      [vm_compute; reflexivity | reflexivity | reflexivity | discriminate
      | reflexivity].
  - apply Hiff. split; [vm_compute; reflexivity|].
    split; [vm_compute; reflexivity|].
    exists [("action", JStr "cancel")]. split; reflexivity.
Defined.

(** C8 refuted as stated: alice opens a conversation and the call to the
    model fails. The model was called on her message, after the writes of
    the rate record and of the new, empty conversation; the turn ends with
    the 500 BedrockError response and the stored conversation has no
    message: her message was never in the store. *)
Lemma user_message_not_stored_before_model_call :
  fst (Demo.run Demo.alice_starts (Demo.env Demo.failing) Demo.empty)
  = ErrorResponse 500
      (Literal "Failed to process your message. Please try again.")
      "BedrockError"
  /\ (exists r c,
        trace (snd (Demo.run Demo.alice_starts (Demo.env Demo.failing) Demo.empty))
        = [RateLimitPut r; ConversationPut c;
           ModelInvoked [Message.mk role_user "Invoice Acme for two widgets"
                           Demo.now]]
        /\ Conversation.messages c = [])
  /\ Conversation.messages
       <$> conversations (snd (Demo.run Demo.alice_starts (Demo.env Demo.failing)
                                 Demo.empty)) !! "conv-0001"
     = Some [].
Proof.
  split; [vm_compute; reflexivity|]. split; [|vm_compute; reflexivity].
  eexists _, _. split; vm_compute; reflexivity.
Qed.

(** C8 at work: alice opens a conversation and the model replies. Her
    message and the reply are in the conversation that the last write of
    the turn stores. *)
Lemma user_message_stored_after_model_reply_witness :
  exists c',
    fst (Demo.run Demo.alice_starts (Demo.env Demo.chatty) Demo.empty)
    = SuccessResponse (KeepGathering "conv-0001" "Sure, what else do you need?")
    /\ conversations (snd (Demo.run Demo.alice_starts (Demo.env Demo.chatty)
                             Demo.empty)) !! "conv-0001" = Some c'
    /\ Conversation.messages c'
       = [Message.mk role_user "Invoice Acme for two widgets" Demo.now;
          Message.mk role_assistant "Sure, what else do you need?" Demo.now]
    /\ exists r0 c0,
         trace (snd (Demo.run Demo.alice_starts (Demo.env Demo.chatty) Demo.empty))
         = [RateLimitPut r0; ConversationPut c0;
            ModelInvoked [Message.mk role_user "Invoice Acme for two widgets"
                            Demo.now];
            ConversationPut c']
         /\ Conversation.messages c0 = [].
Proof.
  destruct (user_message_stored_after_model_reply
              Demo.json_loads Demo.decimal_of_string PyDate.iso_date
              Demo.no_pattern Demo.no_pattern
              Demo.alice_starts (Demo.env Demo.chatty) Demo.empty
              (snd (Demo.run Demo.alice_starts (Demo.env Demo.chatty) Demo.empty))
              (fst (Demo.run Demo.alice_starts (Demo.env Demo.chatty) Demo.empty)))
    as [(pre & _ & _ & Hno)
       | (b & text & pre & post & Hbody & Htext & _ & _ & Hreply)].
  - apply surjective_pairing.
  - exfalso. apply Hno. eexists. vm_compute. reflexivity.
  - injection Hbody as <-.
    vm_compute in Htext. injection Htext as <-.
    cbv zeta in Hreply. unfold Demo.env, Demo.chatty in Hreply.
    cbn [converse] in Hreply. destruct Hreply as [_ Hsaved].
    destruct (Hsaved (KeepGathering "conv-0001" "Sure, what else do you need?"))
      as (c' & earlier & _ & Hmessages & Hstored); [vm_compute; reflexivity|].
    exists c'. split; [vm_compute; reflexivity|].
    split; [exact Hstored|]. split; [exact Hmessages|].
    cbn [response_conversation] in Hstored.
    vm_compute in Hstored. injection Hstored as <-.
    eexists _, _. split; vm_compute; reflexivity.
Defined.

(** C9 at work: bob names alice's conversation. *)
Lemma foreign_conversation_is_forbidden_witness :
  fst (Demo.run Demo.bob_intrudes (Demo.env Demo.chatty) Demo.with_finished)
  = ErrorResponse 403 (Literal "Not authorized to access this conversation")
      "Forbidden"
  /\ conversations (snd (Demo.run Demo.bob_intrudes (Demo.env Demo.chatty)
                           Demo.with_finished))
     = conversations Demo.with_finished.
Proof.
  destruct (foreign_conversation_is_forbidden
              Demo.json_loads Demo.decimal_of_string PyDate.iso_date
              Demo.no_pattern Demo.no_pattern
              Demo.bob_intrudes (Demo.env Demo.chatty) Demo.with_finished
              "bob" "conv-7" (Body.mk (Some "conv-7") "Show me this one")
              Demo.finished)
    as (w' & Hrun & Hc & _).
  - reflexivity.
  - reflexivity.
  - reflexivity.
  - discriminate.
  - vm_compute. reflexivity.
  - discriminate.
  - reflexivity.
  - vm_compute. reflexivity.
  - fold Demo.run in Hrun. rewrite Hrun. split; [reflexivity | exact Hc].
Defined.

(** C10 at work: bob sends blanks and names no conversation. *)
Lemma empty_message_still_creates_conversation_witness :
  fst (Demo.run Demo.bob_blank (Demo.env Demo.chatty) Demo.empty)
  = ErrorResponse 400 (Literal "Message is required") "ValidationError"
  /\ exists c,
       conversations (snd (Demo.run Demo.bob_blank (Demo.env Demo.chatty) Demo.empty))
         !! "conv-0001" = Some c
       /\ Conversation.state c = INITIATED
       /\ Conversation.messages c = [].
Proof.
  destruct (empty_message_still_creates_conversation
              Demo.json_loads Demo.decimal_of_string PyDate.iso_date
              Demo.no_pattern Demo.no_pattern
              Demo.bob_blank (Demo.env Demo.chatty) Demo.empty
              "bob" (Body.mk None "   "))
    as (w' & c & Hrun & Hc & _ & _ & Hs & Hm & _).
  - reflexivity.
  - reflexivity.
  - reflexivity.
  - vm_compute. reflexivity.
  - reflexivity.
  - vm_compute. reflexivity.
  - fold Demo.run in Hrun. rewrite Hrun. split; [reflexivity|].
    exists c. cbn [snd]. repeat split; assumption.
Defined.

(** * Further properties of the code *)

(** ** The validator (bedrock_client.py, models.py) *)

Lemma Qgtb_true (x y : Q) : Qgtb x y = true <-> (y < x)%Q.
Proof.
  unfold Qgtb. rewrite negb_true_iff. split.
  - intros H. apply Qnot_le_lt. intros Hle. apply Qle_bool_iff in Hle. congruence.
  - intros H. destruct (Qle_bool x y) eqn:E; [|reflexivity].
    apply Qle_bool_iff in E. lra.
Qed.

Lemma LineItem_create_Done description quantity unit_price t i :
  LineItem.create description quantity unit_price t = Done i ->
  exists s,
    description = JStr s
    /\ (1 <= String.length s <= 500)%nat
    /\ LineItem.description i = PyStr.strip s
    /\ quantity = Finite (LineItem.quantity i)
    /\ unit_price = Finite (LineItem.unit_price i)
    /\ (0 < LineItem.quantity i)%Q
    /\ (0 <= LineItem.unit_price i)%Q.
Proof.
  unfold LineItem.create.
  destruct description as [| | | | |s| |], quantity as [q|], unit_price as [p|];
    try discriminate.
  destruct (_ && _) eqn:E; [|discriminate].
  intros H. injection H as <-. cbn.
  repeat (apply andb_true_iff in E; destruct E as [E ?]).
  exists s. repeat split; try reflexivity.
  - apply Nat.leb_le. assumption.
  - apply Nat.leb_le. assumption.
  - apply Qgtb_true. assumption.
  - apply Qle_bool_iff. assumption.
Qed.

Lemma InvoiceData_create_Done n e a i d items r disc notes inv :
  InvoiceData.create n e a i d items r disc notes = Done inv ->
  InvoiceData.invoice_date inv = i
  /\ InvoiceData.due_date inv = d
  /\ i <= d
  /\ InvoiceData.line_items inv = items
  /\ items <> []
  /\ n = JStr (InvoiceData.customer_name inv)
  /\ (1 <= String.length (InvoiceData.customer_name inv) <= 200)%nat
  /\ r = Finite (InvoiceData.tax_rate inv)
  /\ disc = Finite (InvoiceData.discount inv)
  /\ (0 <= InvoiceData.tax_rate inv)%Q
  /\ (InvoiceData.tax_rate inv <= 1)%Q
  /\ (0 <= InvoiceData.discount inv)%Q
  /\ InvoiceData.invoice_number inv = None.
Proof.
  unfold InvoiceData.create. intros H.
  destruct n as [| | | | |name| |], r as [rate|], disc as [dc|]; try discriminate H.
  destruct ((1 <=? String.length name)%nat && (String.length name <=? 200)%nat)
    eqn:En; [|discriminate H].
  destruct (optional_str 254 e) as [email|]; [|discriminate H].
  destruct (optional_str 500 a) as [address|]; [|discriminate H].
  cbn [try_bind] in H. unfold InvoiceData.validate_due_date in H.
  destruct (d <? i) eqn:Ed; [discriminate H|]. cbn [try_bind] in H.
  destruct (_ && _) eqn:Ec in H; [|discriminate H].
  destruct (optional_str 1000 notes) as [notes'|]; [|discriminate H].
  cbn [try_bind] in H. injection H as <-. cbn.
  apply Z.ltb_ge in Ed.
  apply andb_true_iff in En. destruct En as [En1 En2].
  repeat (apply andb_true_iff in Ec; destruct Ec as [Ec ?]).
  repeat split; try reflexivity; try assumption.
  - intros ->. discriminate Ec.
  - apply Nat.leb_le. assumption.
  - apply Nat.leb_le. assumption.
  - apply Qle_bool_iff. assumption.
  - apply Qle_bool_iff. assumption.
  - apply Qle_bool_iff. assumption.
Qed.

Lemma add_days_Done d n r : PyDate.add_days d n = Done r -> r = d + n.
Proof.
  unfold PyDate.add_days. cbv zeta. destruct (_ && _); [|discriminate].
  intros H. injection H as <-. reflexivity.
Qed.

Lemma correct_dates_Done today i d i' d' :
  correct_dates today i d = Done (i', d') ->
  i' = (if i <? today - 90 then today else i)
  /\ d' = (if d <? i' then i' + 30 else d).
Proof.
  unfold correct_dates. intros H. try_done.
  apply add_days_Done in Ha. subst a.
  injection H as <- <-.
  replace (today + -90) with (today - 90) in * by lia.
  split; [reflexivity|].
  destruct (d <? _) eqn:E.
  - apply add_days_Done in Ha0. exact Ha0.
  - injection Ha0 as <-. reflexivity.
Qed.

Section ValidatorFacts.

Variable decimal_of_string : string -> option Decimal.
Variable fromisoformat : string -> option Z.

Let validate := validate_and_parse_invoice_data decimal_of_string fromisoformat.

Lemma parse_line_item_Done item i :
  parse_line_item decimal_of_string item = Done i ->
  (0 < LineItem.quantity i)%Q /\ (0 <= LineItem.unit_price i)%Q
  /\ LineItem.taxable i = true.
Proof.
  intros H. pose proof (parse_line_item_taxable _ _ _ H) as Ht.
  unfold parse_line_item in H. try_done.
  apply LineItem_create_Done in H. destruct H as (s & _ & _ & _ & _ & _ & Hq & Hp).
  repeat split; assumption.
Qed.

Lemma Valid_inv today data inv :
  validate today data = Valid inv ->
  parse_invoice_data decimal_of_string fromisoformat today data = Done inv.
Proof.
  unfold validate, validate_and_parse_invoice_data.
  destruct (parse_invoice_data _ _ _ _) as [d|[k| |]]; try discriminate.
  intros H. injection H as ->. reflexivity.
Qed.

(** X5. What every validated invoice satisfies, whatever the payload: it is
    dated at most 90 days before today, it is due on or after its date, it
    has at least one line item, every line item has a quantity above zero,
    a unit price that is not negative and is taxable, the customer name has
    1 to 200 characters, the tax rate is between 0 and 1, the discount is
    not negative and there is no invoice number. *)
Theorem validated_invoice_is_well_formed (today : Z) (data : json) (inv : InvoiceData.t) :
  validate today data = Valid inv ->
  today - 90 <= InvoiceData.invoice_date inv
  /\ InvoiceData.invoice_date inv <= InvoiceData.due_date inv
  /\ InvoiceData.line_items inv <> []
  /\ Forall (fun i => (0 < LineItem.quantity i)%Q /\ (0 <= LineItem.unit_price i)%Q
                      /\ LineItem.taxable i = true)
            (InvoiceData.line_items inv)
  /\ (1 <= String.length (InvoiceData.customer_name inv) <= 200)%nat
  /\ (0 <= InvoiceData.tax_rate inv)%Q /\ (InvoiceData.tax_rate inv <= 1)%Q
  /\ (0 <= InvoiceData.discount inv)%Q
  /\ InvoiceData.invoice_number inv = None.
Proof.
  intros H. apply Valid_inv in H. unfold parse_invoice_data in H. try_done.
  match goal with
  | Hc : correct_dates _ _ _ = Done ?p |- _ =>
      destruct p as [i' d']; apply correct_dates_Done in Hc; destruct Hc as [Hi Hd]
  end.
  apply InvoiceData_create_Done in H. cbn [fst snd] in H.
  destruct H as (Hi' & Hd' & Hle & Hitems & Hne & _ & Hname & _ & _ & Hr0 & Hr1 & Hd0 & Hnum).
  rewrite Hi', Hd', Hitems.
  repeat split; try assumption; try (rewrite <- Hitems; assumption).
  - rewrite Hi. destruct (_ <? today - 90) eqn:E; [lia|]. apply Z.ltb_ge in E. lia.
  - eapply try_map_Done_Forall; [|eassumption].
    intros x y. apply parse_line_item_Done.
  - apply Hname.
  - apply Hname.
Qed.

Lemma raw_field_subscript data k v :
  raw_field k data = Some v ->
  exists fields,
    get_default data "data" (JObj []) = Done (JObj fields)
    /\ dict_get k fields = Some v.
Proof.
  unfold raw_field. destruct data as [| | | | | | |kvs]; try discriminate.
  cbn [get_default].
  destruct (dict_get "data" kvs) as [[| | | | | | |fields]|]; try discriminate.
  intros H. exists fields. split; [reflexivity | exact H].
Qed.

Lemma validated_dates today data si sd i d inv :
  raw_field "invoice_date" data = Some (JStr si) ->
  fromisoformat si = Some i ->
  raw_field "due_date" data = Some (JStr sd) ->
  fromisoformat sd = Some d ->
  validate today data = Valid inv ->
  InvoiceData.invoice_date inv = (if i <? today - 90 then today else i)
  /\ InvoiceData.due_date inv
     = (if d <? InvoiceData.invoice_date inv
        then InvoiceData.invoice_date inv + 30 else d).
Proof.
  intros Hi Hfi Hd Hfd H.
  apply raw_field_subscript in Hi, Hd.
  destruct Hi as (fields & Hdata & Hi), Hd as (fields' & Hdata' & Hd).
  rewrite Hdata in Hdata'. injection Hdata' as <-.
  apply Valid_inv in H. unfold parse_invoice_data in H.
  rewrite Hdata in H. cbn [try_bind subscript] in H.
  rewrite Hi, Hd in H. cbn [try_bind date_fromisoformat] in H.
  rewrite Hfi, Hfd in H. cbn [try_bind] in H.
  try_done.
  match goal with
  | Hc : correct_dates _ _ _ = Done ?p |- _ =>
      destruct p as [i' d']; apply correct_dates_Done in Hc; destruct Hc as [Hi' Hd']
  end.
  apply InvoiceData_create_Done in H. cbn [fst snd] in H.
  destruct H as (-> & -> & _).
  split; assumption.
Qed.

(** X6. An invoice date more than 90 days back is replaced by today, and
    the due date is then compared with today: a raw due date before today
    is replaced by today + 30 days, also when it was in order with the raw
    invoice date. *)
Theorem stale_invoice_date_moves_due_date
    (today : Z) (data : json) (si sd : string) (i d : Z) (inv : InvoiceData.t) :
  raw_field "invoice_date" data = Some (JStr si) ->
  fromisoformat si = Some i ->
  raw_field "due_date" data = Some (JStr sd) ->
  fromisoformat sd = Some d ->
  validate today data = Valid inv ->
  i < today - 90 ->
  d < today ->
  InvoiceData.invoice_date inv = today
  /\ InvoiceData.due_date inv = today + 30.
Proof.
  intros Hi Hfi Hd Hfd H Hstale Hdue.
  destruct (validated_dates _ _ _ _ _ _ _ Hi Hfi Hd Hfd H) as [Ei Ed].
  apply Z.ltb_lt in Hstale. rewrite Hstale in Ei.
  rewrite Ei in Ed |- *. apply Z.ltb_lt in Hdue. rewrite Hdue in Ed.
  split; [reflexivity | exact Ed].
Qed.

(** X7. An invoice date at most 90 days back (the ninetieth day included)
    and a due date not before it are kept as given, however far in the
    future they are: the check of a due date more than a year ahead only
    logs. *)
Theorem dates_in_range_are_kept
    (today : Z) (data : json) (si sd : string) (i d : Z) (inv : InvoiceData.t) :
  raw_field "invoice_date" data = Some (JStr si) ->
  fromisoformat si = Some i ->
  raw_field "due_date" data = Some (JStr sd) ->
  fromisoformat sd = Some d ->
  validate today data = Valid inv ->
  today - 90 <= i ->
  i <= d ->
  InvoiceData.invoice_date inv = i /\ InvoiceData.due_date inv = d.
Proof.
  intros Hi Hfi Hd Hfd H Hfresh Horder.
  destruct (validated_dates _ _ _ _ _ _ _ Hi Hfi Hd Hfd H) as [Ei Ed].
  apply Z.ltb_ge in Hfresh. rewrite Hfresh in Ei.
  rewrite Ei in Ed |- *. apply Z.ltb_ge in Horder. rewrite Horder in Ed.
  split; [reflexivity | exact Ed].
Qed.

End ValidatorFacts.

Lemma lstrip_all_space ws : all_space ws = true -> PyStr.lstrip ws = "".
Proof.
  induction ws as [|a r IH]; simpl; [reflexivity|].
  intros H. apply andb_true_iff in H. destruct H as [Ha Hr].
  rewrite Ha. apply IH, Hr.
Qed.

(** X8. The length of a description is checked before it is stripped: a
    description of 1 to 500 white-space characters is accepted, and the
    line item is built with the empty description. *)
Theorem blank_description_is_stored_empty
    (s : string) (q p : Q) (taxable : option bool) :
  all_space s = true ->
  (1 <= String.length s <= 500)%nat ->
  (0 < q)%Q ->
  (0 <= p)%Q ->
  LineItem.create (JStr s) (Finite q) (Finite p) taxable
  = Done (LineItem.mk "" q p (default true taxable)).
Proof.
  intros Hs [Hl1 Hl2] Hq Hp. unfold LineItem.create.
  apply Nat.leb_le in Hl1, Hl2. apply Qgtb_true in Hq. apply Qle_bool_iff in Hp.
  rewrite Hl1, Hl2, Hq, Hp. cbn [andb].
  unfold PyStr.strip. rewrite (lstrip_all_space s Hs). cbn.
  destruct taxable; reflexivity.
Qed.

(** ** The sanitiser (security.py) *)

Lemma free_of_app p s t : free_of p (s ++ t) = free_of p s && free_of p t.
Proof.
  induction s as [|a r IH]; [reflexivity|].
  change (String a r ++ t) with (String a (r ++ t)).
  cbn [free_of]. rewrite IH. apply andb_assoc.
Qed.

Lemma html_escape_free s : free_of tags (html_escape s) = true.
Proof.
  induction s as [|a r IH]; [reflexivity|].
  cbn [html_escape].
  destruct (Ascii.eqb a "&") eqn:E1; [rewrite free_of_app, IH; reflexivity|].
  destruct (Ascii.eqb a "<") eqn:E2; [rewrite free_of_app, IH; reflexivity|].
  destruct (Ascii.eqb a ">") eqn:E3; [rewrite free_of_app, IH; reflexivity|].
  destruct (Ascii.eqb a (ascii_of_nat 34)) eqn:E4; [rewrite free_of_app, IH; reflexivity|].
  destruct (Ascii.eqb a "'") eqn:E5; [rewrite free_of_app, IH; reflexivity|].
  cbn [free_of]. rewrite IH, andb_true_r. unfold tags. rewrite E2, E3, E4, E5. reflexivity.
Qed.

Lemma remove_nul_free s :
  free_of tags s = true -> free_of unsafe (remove_nul s) = true.
Proof.
  induction s as [|a r IH]; [reflexivity|].
  cbn [free_of remove_nul]. intros H. apply andb_true_iff in H. destruct H as [Ha Hr].
  destruct (Ascii.eqb a zero) eqn:E; [apply IH, Hr|].
  cbn [free_of]. rewrite (IH Hr), andb_true_r.
  unfold unsafe. apply negb_true_iff in Ha. rewrite Ha, E. reflexivity.
Qed.

Lemma lstrip_free p s : free_of p s = true -> free_of p (PyStr.lstrip s) = true.
Proof.
  induction s as [|a r IH]; [reflexivity|].
  intros H. cbn [PyStr.lstrip]. destruct (PyStr.isspace a); [|exact H].
  cbn [free_of] in H. apply andb_true_iff in H. apply IH, H.
Qed.

Lemma rstrip_free p s : free_of p s = true -> free_of p (PyStr.rstrip s) = true.
Proof.
  induction s as [|a r IH]; [reflexivity|].
  cbn [free_of PyStr.rstrip]. intros H. apply andb_true_iff in H. destruct H as [Ha Hr].
  specialize (IH Hr). destruct (PyStr.rstrip r) as [|b r'].
  - destruct (PyStr.isspace a); [reflexivity|]. cbn [free_of]. rewrite Ha. reflexivity.
  - cbn [free_of] in *. rewrite Ha, IH. reflexivity.
Qed.

Lemma special_false a :
  special a = false ->
  Ascii.eqb a "&" = false /\ Ascii.eqb a "<" = false /\ Ascii.eqb a ">" = false
  /\ Ascii.eqb a (ascii_of_nat 34) = false /\ Ascii.eqb a "'" = false
  /\ Ascii.eqb a zero = false.
Proof.
  unfold special, tags.
  destruct (Ascii.eqb a "&"), (Ascii.eqb a "<"), (Ascii.eqb a ">"),
    (Ascii.eqb a (ascii_of_nat 34)), (Ascii.eqb a "'"), (Ascii.eqb a zero);
    cbn; intros H; try discriminate H; repeat split.
Qed.

Lemma html_escape_plain s : free_of special s = true -> html_escape s = s.
Proof.
  induction s as [|a r IH]; [reflexivity|].
  cbn [free_of html_escape]. intros H.
  apply andb_true_iff in H. destruct H as [Ha Hr].
  apply negb_true_iff, special_false in Ha.
  destruct Ha as (-> & -> & -> & -> & -> & _).
  rewrite (IH Hr). reflexivity.
Qed.

Lemma remove_nul_plain s : free_of special s = true -> remove_nul s = s.
Proof.
  induction s as [|a r IH]; [reflexivity|].
  cbn [free_of remove_nul]. intros H.
  apply andb_true_iff in H. destruct H as [Ha Hr].
  apply negb_true_iff, special_false in Ha.
  destruct Ha as (_ & _ & _ & _ & _ & ->).
  rewrite (IH Hr). reflexivity.
Qed.

Lemma html_escape_length s :
  (String.length (html_escape s) <= 6 * String.length s)%nat.
Proof.
  induction s as [|a r IH]; [simpl; lia|].
  cbn [html_escape].
  repeat match goal with
  | |- context [if ?b then _ else _] => destruct b
  end; rewrite ?PyStrFacts.length_app; cbn [String.length]; lia.
Qed.

Lemma remove_nul_length s : (String.length (remove_nul s) <= String.length s)%nat.
Proof.
  induction s as [|a r IH]; [simpl; lia|].
  cbn [remove_nul]. destruct (Ascii.eqb a zero); cbn [String.length]; lia.
Qed.

Lemma lstrip_length s : (String.length (PyStr.lstrip s) <= String.length s)%nat.
Proof.
  induction s as [|a r IH]; [simpl; lia|].
  cbn [PyStr.lstrip]. destruct (PyStr.isspace a); cbn [String.length]; lia.
Qed.

Lemma rstrip_length s : (String.length (PyStr.rstrip s) <= String.length s)%nat.
Proof.
  induction s as [|a r IH]; [simpl; lia|].
  cbn [PyStr.rstrip]. destruct (PyStr.rstrip r) as [|b r'].
  - destruct (PyStr.isspace a); cbn [String.length]; lia.
  - cbn [String.length] in *. lia.
Qed.

Lemma strip_length s : (String.length (PyStr.strip s) <= String.length s)%nat.
Proof.
  unfold PyStr.strip. pose proof (rstrip_length (PyStr.lstrip s)).
  pose proof (lstrip_length s). lia.
Qed.

Section SanitizeFacts.

Variable dangerous : string -> bool.
Variable sql_injection : string -> bool.

(** X9. A text that [sanitize_input] lets through comes out without any of
    the characters that open or close a tag or an attribute value (the
    angle brackets and the two quotes), without NUL and stripped. The
    length bound is checked before escaping: the result can be up to six
    times as long as the bound. *)
Theorem sanitized_text_is_inert (text out : string) (max_length : Z) :
  sanitize_input dangerous sql_injection text max_length = inr out ->
  free_of unsafe out = true
  /\ PyStr.strip out = out
  /\ PyStr.len out <= 6 * max_length.
Proof.
  unfold sanitize_input.
  destruct (max_length <? PyStr.len text) eqn:El; [discriminate|].
  destruct (dangerous text); [discriminate|].
  destruct (sql_injection text); [discriminate|].
  intros H. injection H as <-.
  split; [|split; [apply PyStrFacts.strip_idempotent|]].
  - unfold PyStr.strip. apply rstrip_free, lstrip_free, remove_nul_free, html_escape_free.
  - apply Z.ltb_ge in El. unfold PyStr.len in *.
    pose proof (strip_length (remove_nul (html_escape text))).
    pose proof (remove_nul_length (html_escape text)).
    pose proof (html_escape_length text). lia.
Qed.

(** X10. A text without the characters the sanitiser rewrites or removes
    (ampersand, angle brackets, quotes, NUL), already stripped, within the
    length bound and passed by both screens is returned as it is. *)
Theorem plain_text_passes_unchanged (text : string) (max_length : Z) :
  free_of special text = true ->
  PyStr.strip text = text ->
  PyStr.len text <= max_length ->
  dangerous text = false ->
  sql_injection text = false ->
  sanitize_input dangerous sql_injection text max_length = inr text.
Proof.
  intros Hp Hs Hl Hd Hq. unfold sanitize_input.
  apply Z.ltb_ge in Hl. rewrite Hl, Hd, Hq.
  rewrite (html_escape_plain _ Hp), (remove_nul_plain _ Hp), Hs. reflexivity.
Qed.

End SanitizeFacts.

(** ** Pagination (security.py, functions/invoices/list.py) *)

(** [validate_pagination_params] accepts exactly an absent or in-range
    limit (1 to 100) together with an absent or in-range offset (0 to
    10000), and returns them with 20 and 0 for the absent ones. *)
Lemma pagination_params_accepted_iff (limit offset : Param) (l o : Z) :
  validate_pagination_params limit offset = inr (l, o)
  <-> (limit = ParamNone /\ l = 20 \/ limit = ParamInt l /\ 1 <= l <= 100)
      /\ (offset = ParamNone /\ o = 0 \/ offset = ParamInt o /\ 0 <= o <= 10000).
Proof.
  unfold validate_pagination_params. cbv zeta. split.
  - destruct limit as [|n|]; [| |discriminate].
    + destruct offset as [|m|]; [| |discriminate].
      * intros H. injection H as <- <-. split; left; split; reflexivity.
      * destruct (m <? 0) eqn:E1; [discriminate|].
        destruct (10000 <? m) eqn:E2; [discriminate|].
        intros H. injection H as <- <-.
        apply Z.ltb_ge in E1, E2.
        split; [left; split; reflexivity | right; split; [reflexivity | lia]].
    + destruct (n <? 1) eqn:E1; [discriminate|].
      destruct (100 <? n) eqn:E2; [discriminate|].
      apply Z.ltb_ge in E1, E2.
      destruct offset as [|m|]; [| |discriminate].
      * intros H. injection H as <- <-.
        split; [right; split; [reflexivity | lia] | left; split; reflexivity].
      * destruct (m <? 0) eqn:E3; [discriminate|].
        destruct (10000 <? m) eqn:E4; [discriminate|].
        intros H. injection H as <- <-.
        apply Z.ltb_ge in E3, E4.
        split; right; (split; [reflexivity | lia]).
  - intros [[[-> ->] | [-> Hl]] [[-> ->] | [-> Ho]]].
    + reflexivity.
    + assert ((o <? 0) = false) as -> by (apply Z.ltb_ge; lia).
      assert ((10000 <? o) = false) as -> by (apply Z.ltb_ge; lia).
      reflexivity.
    + assert ((l <? 1) = false) as -> by (apply Z.ltb_ge; lia).
      assert ((100 <? l) = false) as -> by (apply Z.ltb_ge; lia).
      reflexivity.
    + assert ((l <? 1) = false) as -> by (apply Z.ltb_ge; lia).
      assert ((100 <? l) = false) as -> by (apply Z.ltb_ge; lia).
      assert ((o <? 0) = false) as -> by (apply Z.ltb_ge; lia).
      assert ((10000 <? o) = false) as -> by (apply Z.ltb_ge; lia).
      reflexivity.
Qed.

Section ListInvoicesFacts.

Variable int_of_string : string -> option Z.

(** X11. The page size the list handler hands to the store query is always
    between 1 and 100: 20 when the query has no limit, else the number a
    parameter that is not empty reads as. An empty limit parameter is
    never accepted, it does not give the default. *)
Theorem requested_limit_is_bounded (limit : option string) (n : Z) :
  requested_limit int_of_string limit = Some (inr n) ->
  1 <= n <= 100
  /\ (limit = None /\ n = 20
      \/ exists s, limit = Some s /\ s <> "" /\ int_of_string s = Some n).
Proof.
  unfold requested_limit. destruct limit as [s|].
  - destruct (String.eqb s "") eqn:Es; [cbn; discriminate|].
    apply String.eqb_neq in Es.
    destruct (int_of_string s) as [m|] eqn:Em; [|cbn; discriminate].
    cbn [option_map].
    destruct (validate_pagination_params _ _) as [e|[l o]] eqn:E; [discriminate|].
    intros H. injection H as ->.
    apply pagination_params_accepted_iff in E.
    destruct E as [[[E _] | [E Hl]] _]; [discriminate E|].
    injection E as ->.
    split; [exact Hl|]. right. exists s. repeat split; assumption.
  - cbn. intros H. injection H as <-. split; [lia|]. left. split; reflexivity.
Qed.

End ListInvoicesFacts.

(** ** The message rate check (conversation.py, security.py, models.py) *)

Section RateLimitFacts.

Variable json_loads : string -> option json.
Variable decimal_of_string : string -> option Decimal.
Variable fromisoformat : string -> option Z.
Variable dangerous : string -> bool.
Variable sql_injection : string -> bool.

Let run := handler json_loads decimal_of_string fromisoformat dangerous sql_injection.

(** X13. A request of a user whose record is within the hour, within the
    configured window and at the cap is answered 429 with the reset time
    window start + configured window; when the store is reachable nothing
    at all is written: the refused request is not counted. *)
Theorem request_at_cap_is_refused
    (event : Request) (env : Env) (w : World) (u : string) (r : RateLimit.t) :
  authorizer event = Authenticated u ->
  faults w = [] ->
  rate_limits w !! u = Some r ->
  seconds (utcnow env) - seconds (RateLimit.window_start r) < 3600 ->
  seconds (utcnow env) - seconds (RateLimit.window_start r)
    < RateLimiter.window_seconds (rate_limiter env) ->
  RateLimiter.max_requests (rate_limiter env) <= RateLimit.request_count r ->
  run event env w
  = (ErrorResponse 429
       (TryAgainAfter (seconds (RateLimit.window_start r)
                       + RateLimiter.window_seconds (rate_limiter env)))
       "RateLimitExceeded", w).
Proof.
  intros Hu Hf Hr Hhour Hwin Hcap.
  destruct event as [auth b], w as [cs iv rl ss fs tr].
  simpl_world Hu. simpl_world Hf. simpl_world Hr. subst auth fs.
  destruct (run _ env _) as [resp w'] eqn:H. unfold run in H.
  unfold_steps H. unfold RateLimit.is_expired, RateLimiter.check_limit in H.
  simpl_world H. rewrite Hr in H. simpl_world H.
  assert ((3600 <=? seconds (utcnow env) - seconds (RateLimit.window_start r)) = false)
    as E1 by (apply Z.leb_gt; exact Hhour).
  assert ((RateLimiter.window_seconds (rate_limiter env)
           <=? seconds (utcnow env) - seconds (RateLimit.window_start r)) = false)
    as E2 by (apply Z.leb_gt; exact Hwin).
  assert ((RateLimit.request_count r <? RateLimiter.max_requests (rate_limiter env))
          = false) as E3 by (apply Z.ltb_ge; exact Hcap).
  rewrite E1, E2, E3 in H. cbn [negb] in H.
  injection H as <- <-. reflexivity.
Qed.

(** X14. Without a record, or with one that is an hour old or older, the
    check opens a new window: the stored record counts one request from
    now on and expires after the configured window. *)
Theorem expired_window_restarts
    (env : Env) (u : string) (cs : gmap string Conversation.t)
    (iv : gmap string Invoice.t) (rl : gmap string RateLimit.t)
    (ss : gmap string Subscription.t) (tr : list Event) :
  match rl !! u with
  | None => True
  | Some r => 3600 <= seconds (utcnow env) - seconds (RateLimit.window_start r)
  end ->
  let fresh :=
    RateLimit.mk u 1 (utcnow env)
      (seconds (utcnow env) + RateLimiter.window_seconds (rate_limiter env)) in
  check_rate_limit env u (mk_world cs iv rl ss [] tr)
  = (Value tt,
     mk_world cs iv (<[u := fresh]> rl) ss [] (tr ++ [RateLimitPut fresh])%list).
Proof.
  intros Hold fresh. subst fresh.
  destruct (check_rate_limit env u _) as [o w'] eqn:H.
  unfold_steps H. unfold RateLimit.is_expired in H. simpl_world H.
  destruct (rl !! u) as [r|]; simpl_world H.
  - apply Z.leb_le in Hold. rewrite Hold in H. cbn [negb] in H.
    injection H as <- <-. reflexivity.
  - injection H as <- <-. reflexivity.
Qed.

(** X15. The check treats a record as expired after an hour, whatever the
    configured window. With a configured window shorter than an hour, a
    record older than that window but younger than an hour lets the request
    pass whatever its count, and the window is not restarted: the count
    grows past the cap until the hour is over. *)
Theorem short_window_is_not_enforced
    (env : Env) (u : string) (r : RateLimit.t) (cs : gmap string Conversation.t)
    (iv : gmap string Invoice.t) (rl : gmap string RateLimit.t)
    (ss : gmap string Subscription.t) (tr : list Event) :
  rl !! u = Some r ->
  RateLimiter.window_seconds (rate_limiter env)
    <= seconds (utcnow env) - seconds (RateLimit.window_start r) ->
  seconds (utcnow env) - seconds (RateLimit.window_start r) < 3600 ->
  let counted :=
    RateLimit.mk u (RateLimit.request_count r + 1) (RateLimit.window_start r)
      (RateLimit.ttl r) in
  check_rate_limit env u (mk_world cs iv rl ss [] tr)
  = (Value tt,
     mk_world cs iv (<[u := counted]> rl) ss [] (tr ++ [RateLimitPut counted])%list).
Proof.
  intros Hr Hwin Hhour counted. subst counted.
  destruct (check_rate_limit env u _) as [o w'] eqn:H.
  unfold_steps H. unfold RateLimit.is_expired, RateLimiter.check_limit in H.
  simpl_world H. rewrite Hr in H. simpl_world H.
  apply Z.leb_gt in Hhour. apply Z.leb_le in Hwin.
  rewrite Hhour, Hwin in H. cbn [negb] in H.
  injection H as <- <-. reflexivity.
Qed.

End RateLimitFacts.

(** ** The monthly invoice counter (dynamodb_helper.py) *)

Ltac unfold_store H :=
  repeat progress unfold
    DynamoDBHelper.check_and_reset_monthly_count,
    DynamoDBHelper.get_user_subscription,
    DynamoDBHelper.reset_monthly_invoice_count,
    DynamoDBHelper.write_subscription,
    DynamoDBHelper.increment_monthly_invoice_count,
    DynamoDBHelper.absent_subscription,
    bind, ret, return_, throw, log, store_call in H.

(** X16. With the store reachable, [check_and_reset_monthly_count] returns
    a subscription whose status and count are those of the stored record,
    and the stored count is this month's: the record was last reset in the
    current calendar month, or it has no reset date. A user without a
    record gets a free one with a count of zero. Records of other users
    are not touched. *)
Theorem monthly_check_returns_current_count
    (u : string) (now : datetime) (cs : gmap string Conversation.t)
    (iv : gmap string Invoice.t) (rl : gmap string RateLimit.t)
    (ss : gmap string Subscription.t) (tr : list Event) :
  exists returned stored ss' evs,
    DynamoDBHelper.check_and_reset_monthly_count u now (mk_world cs iv rl ss [] tr)
    = (Value returned, mk_world cs iv rl ss' [] (tr ++ evs)%list)
    /\ ss' !! u = Some stored
    /\ Subscription.subscription_status stored
       = Subscription.subscription_status returned
    /\ Subscription.invoices_this_month stored
       = Subscription.invoices_this_month returned
    /\ counted_this_month now stored = true
    /\ (ss !! u = None ->
        returned = Subscription.mk (Some "free") (Some 0) None)
    /\ (forall u', u' <> u -> ss' !! u' = ss !! u').
Proof.
  destruct (DynamoDBHelper.check_and_reset_monthly_count u now _) as [o w'] eqn:H.
  unfold_store H. simpl_world H.
  destruct (ss !! u) as [[st n [d|]]|] eqn:Es; simpl_world H.
  - destruct (negb (month d =? month now) || negb (year d =? year now)) eqn:Em;
      simpl_world H.
    + rewrite Es in H. simpl_world H. injection H as <- <-.
      eexists _, _, _, [_]. split; [reflexivity|].
      split; [apply lookup_insert_eq|]. unfold counted_this_month. cbn.
      rewrite !Z.eqb_refl.
      repeat split; try discriminate.
      intros u' Hu'. apply lookup_insert_ne. congruence.
    + injection H as <- <-.
      eexists _, _, _, []. rewrite app_nil_r. split; [reflexivity|].
      split; [exact Es|]. unfold counted_this_month. cbn.
      apply orb_false_iff in Em. destruct Em as [Em Ey].
      apply negb_false_iff in Em, Ey. rewrite Em, Ey.
      repeat split; discriminate.
  - injection H as <- <-.
    eexists _, _, _, []. rewrite app_nil_r. split; [reflexivity|].
    split; [exact Es|]. repeat split; discriminate.
  - injection H as <- <-.
    eexists _, _, _, [_]. split; [reflexivity|].
    split; [apply lookup_insert_eq|]. unfold counted_this_month. cbn.
    rewrite !Z.eqb_refl.
    repeat split.
    intros u' Hu'. apply lookup_insert_ne. congruence.
Qed.

(** X17. On the first check in a new calendar month the stored count is
    set to zero and the reset date to now; the status is kept. The
    subscription handed to the caller has the count zero as well. *)
Theorem month_rollover_resets_count
    (u : string) (now d : datetime) (s : Subscription.t)
    (cs : gmap string Conversation.t) (iv : gmap string Invoice.t)
    (rl : gmap string RateLimit.t) (ss : gmap string Subscription.t)
    (tr : list Event) :
  ss !! u = Some s ->
  Subscription.invoice_count_reset_at s = Some d ->
  month d <> month now \/ year d <> year now ->
  let stored :=
    Subscription.mk (Subscription.subscription_status s) (Some 0) (Some now) in
  DynamoDBHelper.check_and_reset_monthly_count u now (mk_world cs iv rl ss [] tr)
  = (Value (Subscription.mk (Subscription.subscription_status s) (Some 0) (Some d)),
     mk_world cs iv rl (<[u := stored]> ss) []
       (tr ++ [SubscriptionWrite u stored])%list).
Proof.
  intros Hs Hd Hm stored. subst stored. destruct s as [st n rs].
  simpl_world Hd. subst rs.
  assert (negb (month d =? month now) || negb (year d =? year now) = true) as Em.
  { apply orb_true_iff. destruct Hm as [Hm|Hm]; [left|right];
      apply negb_true_iff, Z.eqb_neq; exact Hm. }
  destruct (DynamoDBHelper.check_and_reset_monthly_count u now _) as [o w'] eqn:H.
  unfold_store H. simpl_world H. rewrite Hs in H. simpl_world H.
  rewrite Em in H. simpl_world H. rewrite Hs in H. simpl_world H.
  injection H as <- <-. reflexivity.
Qed.

(** X18. A record that was last reset in the current calendar month, or
    that has no reset date, is handed to the caller as it is and nothing is
    written: a count without a reset date is never reset. *)
Theorem monthly_check_reads_only_in_same_month
    (u : string) (now : datetime) (s : Subscription.t)
    (cs : gmap string Conversation.t) (iv : gmap string Invoice.t)
    (rl : gmap string RateLimit.t) (ss : gmap string Subscription.t)
    (tr : list Event) :
  ss !! u = Some s ->
  counted_this_month now s = true ->
  DynamoDBHelper.check_and_reset_monthly_count u now (mk_world cs iv rl ss [] tr)
  = (Value s, mk_world cs iv rl ss [] tr).
Proof.
  intros Hs Hm. destruct s as [st n rs].
  unfold counted_this_month in Hm. simpl_world Hm.
  destruct (DynamoDBHelper.check_and_reset_monthly_count u now _) as [o w'] eqn:H.
  unfold_store H. simpl_world H. rewrite Hs in H. simpl_world H.
  destruct rs as [d|]; simpl_world H.
  - apply andb_true_iff in Hm. destruct Hm as [Em Ey]. rewrite Em, Ey in H.
    cbn [negb orb] in H. injection H as <- <-. reflexivity.
  - injection H as <- <-. reflexivity.
Qed.

(** X19. Counting an invoice after the monthly check: the new count is the
    checked count plus one, it is the count the store then holds for the
    user, and status and reset date of the stored record are as the check
    left them. *)
Theorem increment_after_check_counts_one_more
    (u : string) (now : datetime) (checked : Subscription.t) (w w1 : World) :
  faults w = [] ->
  DynamoDBHelper.check_and_reset_monthly_count u now w = (Value checked, w1) ->
  exists before stored w2,
    let n := default 0 (Subscription.invoices_this_month checked) + 1 in
    DynamoDBHelper.increment_monthly_invoice_count u w1 = (Value n, w2)
    /\ subscriptions w1 !! u = Some before
    /\ subscriptions w2 = <[u := stored]> (subscriptions w1)
    /\ stored
       = Subscription.mk (Subscription.subscription_status before) (Some n)
           (Subscription.invoice_count_reset_at before)
    /\ Subscription.subscription_status before
       = Subscription.subscription_status checked
    /\ conversations w2 = conversations w /\ invoices w2 = invoices w
    /\ rate_limits w2 = rate_limits w.
Proof.
  intros Hf H. destruct w as [cs iv rl ss fs tr]. simpl_world Hf. subst fs.
  unfold_store H. simpl_world H.
  destruct (ss !! u) as [[st n [d|]]|] eqn:Es; simpl_world H.
  - destruct (negb (month d =? month now) || negb (year d =? year now)) eqn:Em;
      simpl_world H.
    + rewrite Es in H. simpl_world H. injection H as <- <-.
      eexists _, _, _. cbv zeta.
      unfold DynamoDBHelper.increment_monthly_invoice_count,
        DynamoDBHelper.write_subscription, bind, ret, log, store_call.
      cbn [faults subscriptions conversations invoices rate_limits trace].
      rewrite lookup_insert_eq. cbn.
      repeat split; reflexivity.
    + injection H as <- <-.
      eexists _, _, _. cbv zeta.
      unfold DynamoDBHelper.increment_monthly_invoice_count,
        DynamoDBHelper.write_subscription, bind, ret, log, store_call.
      cbn [faults subscriptions conversations invoices rate_limits trace].
      rewrite Es. cbn.
      repeat split; reflexivity.
  - injection H as <- <-.
    eexists _, _, _. cbv zeta.
    unfold DynamoDBHelper.increment_monthly_invoice_count,
      DynamoDBHelper.write_subscription, bind, ret, log, store_call.
    cbn [faults subscriptions conversations invoices rate_limits trace].
    rewrite Es. cbn.
    repeat split; reflexivity.
  - injection H as <- <-.
    eexists _, _, _. cbv zeta.
    unfold DynamoDBHelper.increment_monthly_invoice_count,
      DynamoDBHelper.write_subscription, bind, ret, log, store_call.
    cbn [faults subscriptions conversations invoices rate_limits trace].
    rewrite lookup_insert_eq. cbn.
    repeat split; reflexivity.
Qed.

(** ** Turns of the conversation handler (conversation.py) *)

Section TurnFacts.

Variable json_loads : string -> option json.
Variable decimal_of_string : string -> option Decimal.
Variable fromisoformat : string -> option Z.
Variable dangerous : string -> bool.
Variable sql_injection : string -> bool.

Let run := handler json_loads decimal_of_string fromisoformat dangerous sql_injection.
Let begin := begin_turn json_loads dangerous sql_injection.
Let conclude := conclude_turn decimal_of_string fromisoformat.
Let validate := validate_and_parse_invoice_data decimal_of_string fromisoformat.

Lemma run_after_begin event env w u c reply extracted w1 :
  begin event env w = (Value (u, c, reply, extracted), w1) ->
  run event env w
  = match conclude env u c reply extracted w1 with
    | (Value r, w') => (r, w')
    | (Returned r, w') => (r, w')
    | (Thrown e, w') => (error_response e, w')
    end.
Proof.
  intros Hb. unfold run, handler, handle. fold begin.
  rewrite (bind_Value _ _ _ _ _ Hb). reflexivity.
Qed.


Lemma begin_user event env w u c reply extracted w1 :
  begin event env w = (Value (u, c, reply, extracted), w1) ->
  authorizer event = Authenticated u.
Proof.
  intros H. destruct event as [auth b], w as [cs iv rl ss fs tr].
  unfold begin, begin_turn, extract_user_id_from_event in H.
  cbn [authorizer] in *. destruct auth as [u0|m].
  - unfold bind at 1, ret at 1 in H.
    destruct (bind _ _ _) as [[x|r|e] w0] eqn:E in H; try discriminate H.
    revert H. apply bind_inv in E.
    destruct E as [(a & w2 & _ & E) | [(r & _ & E) | (e & _ & E)]];
      try discriminate E.
    cbn [body] in E. destruct b as [b|]; [|discriminate E].
    apply bind_inv in E.
    destruct E as [(c0 & w3 & _ & E) | [(r & _ & E) | (e & _ & E)]];
      try discriminate E.
    apply bind_inv in E.
    destruct E as [(m0 & w4 & _ & E) | [(r & _ & E) | (e & _ & E)]];
      try discriminate E.
    apply bind_inv in E.
    destruct E as [([[c1 a1] x1] & w5 & _ & E) | [(r & _ & E) | (e & _ & E)]];
      try discriminate E.
    unfold ret in E. injection E as <- _. intros H. injection H as -> _ _ _ _.
    reflexivity.
  - unfold bind, throw in H. discriminate H.
Qed.

Lemma conclude_invoices env u c reply extracted w o w' d :
  conclude env u c reply extracted w = (o, w') ->
  o = Value (SuccessResponse d) \/ o = Returned (SuccessResponse d) ->
  match d with
  | InvoiceReady id _ invoice_id invoice_data remaining =>
      invoices w'
      = <[invoice_id :=
            Invoice.mk invoice_id u (Some id) invoice_data DRAFT None
              (utcnow env) (utcnow env)]> (invoices w)
      /\ invoice_id = new_invoice_id env
      /\ match remaining with Some k => 0 <= k | None => True end
  | KeepGathering _ _ | Cancelled _ _ =>
      invoices w' = invoices w /\ subscriptions w' = subscriptions w
  | _ => invoices w' = invoices w
  end.
Proof.
  intros H Ho. destruct w as [cs iv rl ss fs tr].
  unfold conclude in H. execute H.
  all: try (injection H as <- <-).
  all: try (destruct Ho as [Ho|Ho]; try discriminate Ho; injection Ho as <-).
  all: cbn; repeat split.
  all: rewrite ?lookup_insert_eq.
  all: repeat match goal with
         | Hx : ?m !! ?k = _ |- context [?m !! ?k] => rewrite Hx
         end.
  all: cbn.
  all: match goal with
       | |- context [if ?b then None else _] => destruct b eqn:Epro; [exact I|]
       | _ => idtac
       end.
  all: unfold FREE_TIER_INVOICE_LIMIT in *; try lia.
  all: match goal with
       | Hx : negb _ && _ = false |- _ =>
           rewrite ?Epro in Hx; cbn in Hx; apply Z.leb_gt in Hx; cbn in Hx; lia
       end.
Qed.

(** X21. What a turn that ends with a success response did to the invoices
    and the monthly counter, by the shape of the response, also when calls
    to the store failed on the way. Only the answer that the invoice is
    ready goes with a new invoice: exactly one, a draft of the calling
    user with the returned data, linked to the conversation and stored
    under the returned identifier; the number of invoices that remain, when
    one is given, is not negative. Every other success response leaves the
    invoices as they were, and a cancelled or continued conversation
    leaves the subscriptions as they were too. *)
Theorem invoice_written_only_when_ready
    (event : Request) (env : Env) (w w' : World) (d : ResponseData) :
  run event env w = (SuccessResponse d, w') ->
  match d with
  | InvoiceReady id _ invoice_id invoice_data remaining =>
      exists u,
        authorizer event = Authenticated u
        /\ invoices w'
           = <[invoice_id :=
                 Invoice.mk invoice_id u (Some id) invoice_data DRAFT None
                   (utcnow env) (utcnow env)]> (invoices w)
        /\ invoice_id = new_invoice_id env
        /\ match remaining with Some k => 0 <= k | None => True end
  | KeepGathering _ _ | Cancelled _ _ =>
      invoices w' = invoices w /\ subscriptions w' = subscriptions w
  | _ => invoices w' = invoices w
  end.
Proof.
  intros H. unfold run, handler, handle in H. fold begin in H.
  destruct (bind _ _ w) as [o w1] eqn:E.
  apply bind_inv in E.
  destruct E as [((((u & c) & reply) & extracted) & w0 & Hb & Hc)
                | [(r & Hb & ->) | (e & Hb & ->)]].
  - destruct (begin_turn_frame _ _ _ _ _ _ _ _ Hb) as (Hiv & Hss & _).
    pose proof (begin_user _ _ _ _ _ _ _ _ Hb) as Hu.
    fold conclude in Hc.
    assert (Ho : o = Value (SuccessResponse d) \/ o = Returned (SuccessResponse d)).
    { destruct o as [r|r|e].
      - injection H as -> _. left. reflexivity.
      - injection H as -> _. right. reflexivity.
      - injection H as H _. destruct e; discriminate H. }
    assert (w1 = w') as -> by (destruct o; injection H as _ <-; reflexivity).
    pose proof (conclude_invoices _ _ _ _ _ _ _ _ _ Hc Ho) as Hd.
    destruct d; rewrite Hiv, ?Hss in Hd; try exact Hd.
    exists u. split; [exact Hu | exact Hd].
  - injection H as -> <-.
    apply begin_turn_returns_errors in Hb.
    destruct Hb as (? & ? & ? & Hb). discriminate Hb.
  - injection H as H _. destruct e; discriminate H.
Qed.

(** X22. The invoice is written before it is counted. When the store fails
    at the count (its third call after the model's reply, for a user with
    a record counted this month), the turn ends with the 500 DatabaseError
    response although the invoice is in the store: the counter is as
    before and the conversation of the turn is not saved. *)
Theorem failed_count_leaves_invoice_uncounted
    (event : Request) (env : Env) (w w1 : World) (u reply : string)
    (c : Conversation.t) (kvs : list (string * json))
    (sub : Subscription.t) (inv : InvoiceData.t) (rest : list bool) :
  begin event env w = (Value (u, c, reply, Some (JObj kvs)), w1) ->
  dict_get "action" kvs = Some (JStr "create_invoice") ->
  validate (today env) (JObj kvs) = Valid inv ->
  faults w1 = false :: false :: true :: rest ->
  subscriptions w1 !! u = Some sub ->
  counted_this_month (utcnow env) sub = true ->
  is_pro sub = true
  \/ default 0 (Subscription.invoices_this_month sub) < FREE_TIER_INVOICE_LIMIT ->
  let invoice :=
    Invoice.mk (new_invoice_id env) u (Some (Conversation.conversation_id c))
      inv DRAFT None (utcnow env) (utcnow env) in
  run event env w
  = (ErrorResponse 500 (Literal "Database error occurred") "DatabaseError",
     mk_world (conversations w1)
       (<[new_invoice_id env := invoice]> (invoices w1))
       (rate_limits w1) (subscriptions w1) rest
       (trace w1 ++ [InvoicePut invoice])%list).
Proof.
  intros Hbegin Haction Hvalid Hf Hsub Hmonth Hquota invoice. subst invoice.
  rewrite (run_after_begin _ _ _ _ _ _ _ _ Hbegin). clear Hbegin.
  destruct w1 as [cs iv rl ss fs tr]. simpl_world Hsub. simpl_world Hf. subst fs.
  destruct sub as [st cnt rs]. unfold is_pro in *.
  unfold counted_this_month in Hmonth. simpl_world Hmonth. simpl_world Hquota.
  unfold validate in Hvalid.
  destruct (conclude _ _ _ _ _ _) as [o w'] eqn:H. unfold conclude in H.
  assert (Hgate :
    negb (match st with Some s => String.eqb s "pro" | None => false end)
    && (FREE_TIER_INVOICE_LIMIT <=? default 0 cnt) = false).
  { destruct Hquota as [->|Hlt]; [reflexivity|].
    apply andb_false_iff. right. apply Z.leb_gt. exact Hlt. }
  clear Hquota.
  destruct rs as [d|].
  - apply andb_true_iff in Hmonth. destruct Hmonth as [Hm Hy].
    execute_with_facts H; try absurd_test.
    all: injection H as <- <-; reflexivity.
  - execute_with_facts H; try absurd_test.
    all: injection H as <- <-; reflexivity.
Qed.

(** X31. What boto3 cannot write is noticed after the invoice exists. When
    the data of a create_invoice action validate but hold a value that the
    serializer rejects (a JSON number with a fraction or an exponent
    decodes to a float, for which [put_item] raises [TypeError]), for a
    user with a record counted this month who is pro or below the cap and
    with the store reachable, the invoice is written and counted, then the
    save of the conversation raises: the turn ends with the 500
    InternalError response, and the conversation in the store has neither
    the messages of the turn nor the new state. *)
Theorem unwritable_payload_loses_turn
    (event : Request) (env : Env) (w w1 : World) (u reply : string)
    (c : Conversation.t) (kvs : list (string * json))
    (sub : Subscription.t) (inv : InvoiceData.t) :
  begin event env w = (Value (u, c, reply, Some (JObj kvs)), w1) ->
  dict_get "action" kvs = Some (JStr "create_invoice") ->
  validate (today env) (JObj kvs) = Valid inv ->
  serializable (JObj kvs) = false ->
  faults w = [] ->
  subscriptions w !! u = Some sub ->
  counted_this_month (utcnow env) sub = true ->
  is_pro sub = true
  \/ default 0 (Subscription.invoices_this_month sub) < FREE_TIER_INVOICE_LIMIT ->
  let n := default 0 (Subscription.invoices_this_month sub) + 1 in
  let invoice :=
    Invoice.mk (new_invoice_id env) u (Some (Conversation.conversation_id c))
      inv DRAFT None (utcnow env) (utcnow env) in
  let counted :=
    Subscription.mk (Subscription.subscription_status sub) (Some n)
      (Subscription.invoice_count_reset_at sub) in
  run event env w
  = (ErrorResponse 500 (Literal "An unexpected error occurred") "InternalError",
     mk_world (conversations w1)
       (<[new_invoice_id env := invoice]> (invoices w))
       (rate_limits w1) (<[u := counted]> (subscriptions w)) []
       (trace w1 ++ [InvoicePut invoice; SubscriptionWrite u counted])%list).
Proof.
  intros Hbegin Haction Hvalid Hunwritable Hf Hsub Hmonth Hquota n invoice counted.
  subst n invoice counted.
  destruct (begin_turn_frame _ _ _ _ _ _ _ _ Hbegin) as (Hiv & Hss & Hfs).
  specialize (Hfs Hf). rewrite <- Hss in Hsub. rewrite <- Hiv, <- Hss.
  clear Hiv Hss Hf.
  rewrite (run_after_begin _ _ _ _ _ _ _ _ Hbegin). clear Hbegin.
  destruct w1 as [cs iv rl ss fs tr]. simpl_world Hsub. simpl_world Hfs. subst fs.
  destruct sub as [st cnt rs]. unfold is_pro in *.
  unfold counted_this_month in Hmonth. simpl_world Hmonth. simpl_world Hquota.
  unfold validate in Hvalid.
  cbn [Subscription.subscription_status Subscription.invoices_this_month
       Subscription.invoice_count_reset_at conversations invoices rate_limits
       subscriptions trace].
  destruct (conclude _ _ _ _ _ _) as [o w'] eqn:H. unfold conclude in H.
  assert (Hgate :
    negb (match st with Some s => String.eqb s "pro" | None => false end)
    && (FREE_TIER_INVOICE_LIMIT <=? default 0 cnt) = false).
  { destruct Hquota as [->|Hlt]; [reflexivity|].
    apply andb_false_iff. right. apply Z.leb_gt. exact Hlt. }
  clear Hquota.
  destruct rs as [d|].
  - apply andb_true_iff in Hmonth. destruct Hmonth as [Hm Hy].
    execute_with_facts H; try absurd_test.
    all: injection H as <- <-; cbn; rewrite <- ?app_assoc; reflexivity.
  - execute_with_facts H; try absurd_test.
    all: injection H as <- <-; cbn; rewrite <- ?app_assoc; reflexivity.
Qed.

(** X23. The history is append-only. After a turn that ends with a success
    response, the conversation the response names is stored with the
    messages it had before the turn (none for a new conversation),
    followed by the user's message as the sanitiser returned it and by the
    reply the model gave to exactly that history. *)
Theorem successful_turn_appends_two_messages
    (event : Request) (env : Env) (w w' : World) (d : ResponseData) (b : Body.t) :
  run event env w = (SuccessResponse d, w') ->
  body event = Some b ->
  exists c' text reply,
    let h :=
      (prior_messages w (Body.conversation_id b)
       ++ [Message.mk role_user text (utcnow env)])%list in
    conversations w' !! response_conversation d = Some c'
    /\ sanitize_input dangerous sql_injection (PyStr.strip (Body.message b)) 2000
       = inr text
    /\ converse env h = Some reply
    /\ Conversation.messages c'
       = (h ++ [Message.mk role_assistant reply (utcnow env)])%list.
Proof.
  intros H Hbody. unfold run, handler, handle in H. fold begin in H.
  destruct (bind _ _ w) as [o w1] eqn:E.
  apply bind_inv in E.
  destruct E as [((((u & c) & reply) & extracted) & w0 & Hb & Hc)
                | [(r & Hb & ->) | (e & Hb & ->)]].
  - fold conclude in Hc.
    assert (Ho : o = Value (SuccessResponse d) \/ o = Returned (SuccessResponse d)).
    { destruct o as [r|r|e].
      - injection H as -> _. left. reflexivity.
      - injection H as -> _. right. reflexivity.
      - injection H as H _. destruct e; discriminate H. }
    assert (w1 = w') as -> by (destruct o; injection H as _ <-; reflexivity).
    destruct (conclude_turn_saves _ _ _ _ _ _ _ _ _ _ _ Hc Ho)
      as (c' & earlier & _ & Hm & Hc').
    destruct (begin_turn_reply _ _ _ _ _ _ _ _ _ _ _ Hb)
      as (b' & text & Hbody' & Hs & Hr & Hh & _ & _).
    rewrite Hbody in Hbody'. injection Hbody' as <-.
    exists c', text, reply. cbv zeta. rewrite Hm.
    repeat split; assumption.
  - injection H as -> <-.
    apply begin_turn_returns_errors in Hb.
    destruct Hb as (? & ? & ? & Hb). discriminate Hb.
  - injection H as H _. destruct e; discriminate H.
Qed.

(** X24. The sanitised message can be unusable as a message: empty (a
    message of NUL characters only), or longer than 10000 characters (the
    bound of 2000 is checked before escaping). The turn then ends with the
    500 InternalError response; the model is not called, and the new
    conversation written before the message was read stays in the store
    without messages. *)
Theorem unusable_message_is_internal_error
    (event : Request) (env : Env) (w : World) (u text : string) (b : Body.t) :
  authorizer event = Authenticated u ->
  body event = Some b ->
  Body.conversation_id b = None ->
  PyStr.strip (Body.message b) <> "" ->
  sanitize_input dangerous sql_injection (PyStr.strip (Body.message b)) 2000
  = inr text ->
  Message.valid_content text = false ->
  faults w = [] ->
  rate_limited env w u = false ->
  exists w' r,
    let created :=
      Conversation.create (new_conversation_id env) u INITIATED (utcnow env) in
    run event env w
    = (ErrorResponse 500 (Literal "An unexpected error occurred") "InternalError",
       w')
    /\ trace w' = (trace w ++ [RateLimitPut r; ConversationPut created])%list
    /\ conversations w' = <[new_conversation_id env := created]> (conversations w)
    /\ invoices w' = invoices w
    /\ subscriptions w' = subscriptions w.
Proof.
  intros Hu Hb Hid Hmsg Hs Hbad Hf Hrate.
  destruct event as [auth ob], b as [oid msg], w as [cs iv rl ss fs tr].
  simpl_world Hu. simpl_world Hb. simpl_world Hid. simpl_world Hmsg.
  simpl_world Hs. simpl_world Hf. subst auth ob oid fs.
  apply String.eqb_neq in Hmsg.
  destruct (run _ env _) as [r w'] eqn:H. exists w'.
  destruct (check_rate_limit_passes env u cs iv rl ss tr Hrate) as (r0 & Hpass).
  exists r0.
  unfold Conversation.add_message in *.
  unfold run in H. unfold_turn H. unfold Conversation.add_message in H.
  simpl_world H.
  repeat (first [rewrite Hpass in H | rewrite Hmsg in H | rewrite Hs in H
                | rewrite Hbad in H | head_match H]; simpl_world H).
  all: try absurd_test.
  all: injection H as <- <-; cbn.
  all: repeat split.
  all: rewrite <- ?app_assoc; reflexivity.
Qed.

End TurnFacts.

(** ** The invoice handlers (functions/invoices/create.py, get.py) *)

Ltac unfold_invoice_handlers H :=
  repeat progress unfold
    CreateInvoice.handler, CreateInvoice.handle, CreateInvoice.invoice_source,
    GetInvoice.handler, GetInvoice.handle, GetInvoice.validate_uuid,
    get_invoice, DynamoDBHelper.get_invoice,
    reply_of, authenticated_user,
    DynamoDBHelper.get_conversation, DynamoDBHelper.item_to_conversation,
    DynamoDBHelper.check_and_reset_monthly_count,
    DynamoDBHelper.get_user_subscription,
    DynamoDBHelper.reset_monthly_invoice_count,
    DynamoDBHelper.write_subscription, DynamoDBHelper.create_invoice,
    DynamoDBHelper.increment_monthly_invoice_count,
    bind, ret, return_, throw, log, store_call in H.

Ltac simpl_request H :=
  cbn [CreateInvoice.authorizer CreateInvoice.body CreateInvoice.conversation_id
       CreateInvoice.invoice_data GetInvoice.authorizer GetInvoice.invoice_id
       Invoice.set_invoice_id Invoice.data Invoice.status Invoice.pdf_s3_key
       Invoice.created_at Invoice.updated_at] in H;
  simpl_world H.

Ltac run_invoice_handler H :=
  unfold_invoice_handlers H; simpl_request H;
  repeat (first [use_fact H | head_match H]; simpl_request H).

Section CreateInvoiceFacts.

Variable decimal_of_string : string -> option Decimal.
Variable fromisoformat : string -> option Z.

Let create := CreateInvoice.handler decimal_of_string fromisoformat.
Let validate := validate_and_parse_invoice_data decimal_of_string fromisoformat.

(** X25. The create handler checks the quota before it looks at the body. A
    user who is not pro and whose count of this month is at the cap is
    answered 403 with that count, whatever the body holds (a conversation
    of another user, invalid data, or no object at all, provided the text
    decodes), and nothing is read or written beyond the subscription. *)
Theorem create_checks_quota_first
    (event : CreateInvoice.Request) (env : Env) (w : World) (u : string)
    (sub : Subscription.t) (n : Z) :
  CreateInvoice.authorizer event = Authenticated u ->
  CreateInvoice.body event <> CreateInvoice.Undecodable ->
  faults w = [] ->
  subscriptions w !! u = Some sub ->
  is_pro sub = false ->
  Subscription.invoices_this_month sub = Some n ->
  CreateInvoice.FREE_TIER_INVOICE_LIMIT <= n ->
  counted_this_month (utcnow env) sub = true ->
  create event env w
  = (UsageLimitExceeded n CreateInvoice.FREE_TIER_INVOICE_LIMIT, w).
Proof.
  intros Hu Hbody Hf Hsub Hpro Hn Hcap Hmonth.
  destruct event as [auth body], w as [cs iv rl ss fs tr], sub as [st cnt rs].
  simpl_request Hu. simpl_request Hbody. simpl_request Hf. simpl_request Hsub.
  simpl_request Hn. subst auth fs cnt.
  unfold is_pro in Hpro. simpl_request Hpro.
  unfold counted_this_month in Hmonth. simpl_request Hmonth.
  apply Z.leb_le in Hcap.
  destruct (create _ env _) as [r w'] eqn:H. unfold create in H.
  destruct rs as [d|].
  - apply andb_true_iff in Hmonth. destruct Hmonth as [Hm Hy].
    destruct body; [contradiction| |]; run_invoice_handler H; try absurd_test.
    all: injection H as <- <-; reflexivity.
  - destruct body; [contradiction| |]; run_invoice_handler H; try absurd_test.
    all: injection H as <- <-; reflexivity.
Qed.

(** X26. Creating from a conversation looks at the owner and at the
    extracted data only, not at the state of the conversation nor at the
    invoices the store already holds for it. When the data validate, for a
    user who is pro or below the cap and with the store reachable, a new
    draft invoice is stored under the fresh identifier and counted; the
    conversation is left as it is. So the conversation whose turn already
    created an invoice gives a second one. *)
Theorem create_from_conversation_ignores_state
    (event : CreateInvoice.Request) (env : Env) (w : World) (u id : string)
    (b : CreateInvoice.Body) (c : Conversation.t) (data : json)
    (inv : InvoiceData.t) (sub : Subscription.t) :
  CreateInvoice.authorizer event = Authenticated u ->
  CreateInvoice.body event = CreateInvoice.Object b ->
  CreateInvoice.conversation_id b = Some id ->
  id <> "" ->
  conversations w !! id = Some c ->
  Conversation.user_id c = u ->
  Conversation.extracted_data c = Some data ->
  truthy data = true ->
  validate (today env) data = Valid inv ->
  faults w = [] ->
  subscriptions w !! u = Some sub ->
  counted_this_month (utcnow env) sub = true ->
  is_pro sub = true
  \/ default 0 (Subscription.invoices_this_month sub)
     < CreateInvoice.FREE_TIER_INVOICE_LIMIT ->
  let invoice :=
    Invoice.mk (new_invoice_id env) u (Some id) inv DRAFT None
      (utcnow env) (utcnow env) in
  let counted :=
    Subscription.mk (Subscription.subscription_status sub)
      (Some (default 0 (Subscription.invoices_this_month sub) + 1))
      (Subscription.invoice_count_reset_at sub) in
  create event env w
  = (Created invoice,
     mk_world (conversations w) (<[new_invoice_id env := invoice]> (invoices w))
       (rate_limits w) (<[u := counted]> (subscriptions w)) []
       (trace w ++ [InvoicePut invoice; SubscriptionWrite u counted])%list).
Proof.
  intros Hu Hbody Hid Hne Hc Hown Hdata Htruthy Hvalid Hf Hsub Hmonth Hquota
    invoice counted.
  subst invoice counted.
  destruct event as [auth body], w as [cs iv rl ss fs tr], sub as [st cnt rs],
    b as [oid odata], c as [cid owner state msgs ext created updated].
  simpl_request Hu. simpl_request Hbody. simpl_request Hf. simpl_request Hsub.
  simpl_request Hid. simpl_request Hc. simpl_request Hown. simpl_request Hdata.
  subst auth fs body oid owner ext.
  apply String.eqb_neq in Hne.
  assert (Hself : String.eqb u u = true) by apply String.eqb_refl.
  unfold is_pro in Hquota. simpl_request Hquota.
  unfold counted_this_month in Hmonth. simpl_request Hmonth.
  unfold validate in Hvalid.
  rewrite <- truthy_deserialize in Htruthy.
  rewrite <- validate_deserialize in Hvalid.
  assert (Hgate :
    negb (match st with Some s => String.eqb s "pro" | None => false end)
    && (CreateInvoice.FREE_TIER_INVOICE_LIMIT <=? default 0 cnt) = false).
  { destruct Hquota as [->|Hlt]; [reflexivity|].
    apply andb_false_iff. right. apply Z.leb_gt. exact Hlt. }
  clear Hquota.
  destruct (create _ env _) as [r w'] eqn:H. unfold create in H.
  destruct rs as [d|].
  - apply andb_true_iff in Hmonth. destruct Hmonth as [Hm Hy].
    run_invoice_handler H; try absurd_test.
    all: injection H as <- <-; cbn; rewrite <- ?app_assoc; reflexivity.
  - run_invoice_handler H; try absurd_test.
    all: injection H as <- <-; cbn; rewrite <- ?app_assoc; reflexivity.
Qed.

(** X27. The create handler, whatever the request and whether the store
    fails or not: it never writes a conversation or a rate record (the
    endpoint is not rate limited, and a conversation it creates from is
    not marked), and the invoices change only by the invoice of a 201
    answer, a draft of the calling user stored under its identifier; an
    answer other than 201 and 500 leaves the invoices as they were. *)
Theorem create_writes_invoice_only
    (event : CreateInvoice.Request) (env : Env) (w w' : World) (r : Reply) :
  create event env w = (r, w') ->
  conversations w' = conversations w
  /\ rate_limits w' = rate_limits w
  /\ match r with
     | Created invoice =>
         invoices w' = <[Invoice.invoice_id invoice := invoice]> (invoices w)
         /\ CreateInvoice.authorizer event
            = Authenticated (Invoice.user_id invoice)
         /\ Invoice.status invoice = DRAFT
     | Refused statusCode _ _ => statusCode <> 500 -> invoices w' = invoices w
     | _ => invoices w' = invoices w
     end.
Proof.
  intros H. destruct event as [auth body], w as [cs iv rl ss fs tr].
  unfold create in H. run_invoice_handler H.
  all: injection H as <- <-; cbn.
  all: repeat split; try reflexivity; try (intros Hx; contradiction Hx; reflexivity).
Qed.

End CreateInvoiceFacts.

Lemma optional_str_reads_back n v s :
  optional_str n v = Done s -> optional_str n (option_map JStr s) = Done s.
Proof.
  unfold optional_str. destruct v as [[| | | | |x| |]|]; try discriminate.
  - intros H. injection H as <-. reflexivity.
  - destruct (_ <=? _)%nat eqn:E; [|discriminate].
    intros H. injection H as <-. cbn. rewrite E. reflexivity.
  - intros H. injection H as <-. reflexivity.
Qed.

Lemma InvoiceData_create_reads_back n e a i d items r disc notes inv :
  InvoiceData.create n e a i d items r disc notes = Done inv ->
  InvoiceData.create (JStr (InvoiceData.customer_name inv))
    (option_map JStr (InvoiceData.customer_email inv))
    (option_map JStr (InvoiceData.customer_address inv))
    (InvoiceData.invoice_date inv) (InvoiceData.due_date inv)
    (InvoiceData.line_items inv)
    (Finite (InvoiceData.tax_rate inv)) (Finite (InvoiceData.discount inv))
    (option_map JStr (InvoiceData.notes inv))
  = Done inv
  /\ InvoiceData.invoice_number inv = None.
Proof.
  unfold InvoiceData.create. intros H.
  destruct n as [| | | | |name| |], r as [rate|], disc as [dc|]; try discriminate H.
  destruct ((1 <=? String.length name)%nat && (String.length name <=? 200)%nat)
    eqn:En; [|discriminate H].
  destruct (optional_str 254 e) as [email|] eqn:Ee; [|discriminate H].
  destruct (optional_str 500 a) as [address|] eqn:Ea; [|discriminate H].
  cbn [try_bind] in H. unfold InvoiceData.validate_due_date in H.
  destruct (d <? i) eqn:Ed; [discriminate H|]. cbn [try_bind] in H.
  destruct (_ && _) eqn:Ec in H; [|discriminate H].
  destruct (optional_str 1000 notes) as [notes'|] eqn:Eo; [|discriminate H].
  cbn [try_bind] in H. injection H as <-.
  cbn [InvoiceData.customer_name InvoiceData.customer_email
       InvoiceData.customer_address InvoiceData.invoice_date
       InvoiceData.due_date InvoiceData.line_items InvoiceData.tax_rate
       InvoiceData.discount InvoiceData.notes InvoiceData.invoice_number].
  rewrite En, (optional_str_reads_back _ _ _ Ee), (optional_str_reads_back _ _ _ Ea).
  cbn [try_bind]. unfold InvoiceData.validate_due_date. rewrite Ed. cbn [try_bind].
  rewrite Ec, (optional_str_reads_back _ _ _ Eo). split; reflexivity.
Qed.

Lemma strip_empty_iff_length s :
  (1 <=? String.length s)%nat = negb (String.eqb s "").
Proof. destruct s; reflexivity. Qed.

Lemma LineItem_create_reads_back description quantity unit_price li :
  LineItem.create description quantity unit_price None = Done li ->
  DynamoDBHelper.item_to_line_item li
  = if String.eqb (LineItem.description li) "" then Raised ValueError else Done li.
Proof.
  intros H. pose proof (LineItem_create_default_taxable _ _ _ _ H) as Ht.
  unfold LineItem.create in H.
  destruct description as [| | | | |s| |], quantity as [q|], unit_price as [p|];
    try discriminate H.
  destruct (_ && _) eqn:E; [|discriminate H].
  injection H as <-. clear Ht.
  unfold DynamoDBHelper.item_to_line_item, LineItem.create.
  cbn [LineItem.description LineItem.quantity LineItem.unit_price].
  repeat (apply andb_true_iff in E; destruct E as [E ?]).
  rewrite strip_empty_iff_length.
  destruct (String.eqb (PyStr.strip s) "") eqn:Es; [reflexivity|]. cbn [negb andb].
  assert (((String.length (PyStr.strip s) <=? 500)%nat) = true) as ->.
  { apply Nat.leb_le. pose proof (strip_length s).
    match goal with Hx : (String.length s <=? 500)%nat = true |- _ =>
      apply Nat.leb_le in Hx; lia end. }
  match goal with Hx : Qgtb q 0 = true |- _ => rewrite Hx end.
  match goal with Hx : Qle_bool 0 p = true |- _ => rewrite Hx end.
  cbn [andb]. rewrite PyStrFacts.strip_idempotent. reflexivity.
Qed.

Lemma try_map_reads_back (f : json -> Try LineItem.t) raw items :
  (forall x li, f x = Done li ->
     DynamoDBHelper.item_to_line_item li
     = if String.eqb (LineItem.description li) "" then Raised ValueError
       else Done li) ->
  try_map f raw = Done items ->
  try_map DynamoDBHelper.item_to_line_item items
  = if described items then Done items else Raised ValueError.
Proof.
  intros Hf. revert items. induction raw as [|x r IH]; simpl; intros items H.
  - injection H as <-. reflexivity.
  - try_done. injection H as <-. cbn [try_map described forallb].
    match goal with Hx : f x = Done ?li |- _ => rewrite (Hf _ _ Hx) end.
    destruct (String.eqb _ "") eqn:Es; [reflexivity|]. cbn [try_bind negb andb].
    match goal with Hx : try_map f r = Done ?l |- _ => rewrite (IH _ Hx) end.
    fold (described a0).
    destruct (described _); reflexivity.
Qed.

Section ReadBackFacts.

Variable decimal_of_string : string -> option Decimal.
Variable fromisoformat : string -> option Z.

Let validate := validate_and_parse_invoice_data decimal_of_string fromisoformat.

(** X28. Reading an invoice back builds the models again, so the stored
    item is validated once more. An invoice made of validated data, for a
    user identifier of 1 to 256 characters, reads back as it was written
    when no line item has an empty description; when one has (a blank
    description passes the validator and is stored stripped), reading
    raises and the invoice cannot be read back. *)
Theorem validated_invoice_reads_back
    (today : Z) (payload : json) (inv : InvoiceData.t)
    (id u : string) (cid : option string) (status : InvoiceStatus)
    (pdf : option string) (created updated : datetime) :
  validate today payload = Valid inv ->
  (1 <= String.length u <= 256)%nat ->
  let item := Invoice.mk id u cid inv status pdf created updated in
  DynamoDBHelper.item_to_invoice item
  = if described (InvoiceData.line_items inv) then Done item
    else Raised ValueError.
Proof.
  intros H [Hu1 Hu2] item. subst item.
  unfold validate, validate_and_parse_invoice_data in H.
  destruct (parse_invoice_data _ _ _ _) as [d|[k| |]] eqn:E; try discriminate H.
  injection H as ->. unfold parse_invoice_data in E. try_done.
  pose proof (InvoiceData_create_line_items _ _ _ _ _ _ _ _ _ _ E) as Hitems.
  apply InvoiceData_create_reads_back in E. destruct E as [E Hnum].
  unfold DynamoDBHelper.item_to_invoice. cbn [Invoice.data Invoice.user_id].
  match goal with
  | Hx : try_map (parse_line_item decimal_of_string) _ = Done _ |- _ =>
      eapply try_map_reads_back in Hx;
        [|intros x li Hli; unfold parse_line_item in Hli; try_done;
          eapply LineItem_create_reads_back; eassumption]
  end.
  rewrite Hitems in *.
  match goal with
  | Hx : try_map DynamoDBHelper.item_to_line_item _ = _ |- _ => rewrite Hx
  end.
  destruct (described _); [|reflexivity]. cbn [try_bind].
  rewrite Hnum. cbn [option_map optional_str try_bind].
  rewrite E. cbn [try_bind].
  apply Nat.leb_le in Hu1, Hu2. rewrite Hu1, Hu2. cbn [andb].
  destruct inv. cbn in *. subst. reflexivity.
Qed.

End ReadBackFacts.

Lemma undescribed_items_raise items :
  described items = false ->
  exists e, try_map DynamoDBHelper.item_to_line_item items = Raised e.
Proof.
  induction items as [|li r IH]; [discriminate|].
  cbn [described forallb try_map]. intros H.
  destruct (DynamoDBHelper.item_to_line_item li) as [x|e] eqn:E;
    [|exists e; reflexivity].
  cbn [try_bind].
  apply andb_false_iff in H. destruct H as [H|H].
  - apply negb_false_iff, String.eqb_eq in H.
    unfold DynamoDBHelper.item_to_line_item in E. rewrite H in E.
    discriminate E.
  - destruct (IH H) as (e & ->). exists e. reflexivity.
Qed.

Lemma item_to_invoice_owner item i :
  DynamoDBHelper.item_to_invoice item = Done i ->
  Invoice.user_id i = Invoice.user_id item
  /\ Invoice.invoice_id i = Invoice.invoice_id item.
Proof.
  unfold DynamoDBHelper.item_to_invoice. intros H. cbv zeta in H. try_done.
  destruct (_ && _); [|discriminate H].
  injection H as <-. split; reflexivity.
Qed.

Section GetInvoiceFacts.

Variable uuid4 : string -> bool.

Let get := GetInvoice.handler uuid4.

(** X29. The get handler is read-only, and it shows an invoice to its owner
    only: when it answers with an invoice, the item stored under that
    identifier belongs to the calling user. It never answers as the create
    handler does. *)
Theorem invoice_is_shown_to_owner_only
    (event : GetInvoice.Request) (w w' : World) (r : Reply) :
  get event w = (r, w') ->
  conversations w' = conversations w /\ invoices w' = invoices w
  /\ rate_limits w' = rate_limits w /\ subscriptions w' = subscriptions w
  /\ trace w' = trace w
  /\ match r with
     | Details invoice =>
         GetInvoice.authorizer event = Authenticated (Invoice.user_id invoice)
         /\ exists item,
              invoices w !! Invoice.invoice_id invoice = Some item
              /\ Invoice.user_id item = Invoice.user_id invoice
     | Refused _ _ _ => True
     | _ => False
     end.
Proof.
  intros H. destruct event as [auth oid], w as [cs iv rl ss fs tr].
  unfold get in H. run_invoice_handler H.
  all: injection H as <- <-; cbn.
  all: repeat split.
  all: match goal with
       | Hx : DynamoDBHelper.item_to_invoice _ = Done _ |- _ =>
           apply item_to_invoice_owner in Hx; cbn in Hx; destruct Hx as [Hown Hid]
       end.
  all: match goal with
       | Hx : negb (String.eqb _ _) = false |- _ =>
           apply negb_false_iff, String.eqb_eq in Hx
       end.
  all: first
    [ congruence
    | rewrite Hid; eexists; split; [eassumption | symmetry; exact Hown] ].
Qed.

(** X30. An invoice stored with a line item whose description is empty
    cannot be read: the get handler answers its owner with the 500
    InternalError response, and the helper's [get_invoice] returns nothing,
    as for an invoice that does not exist. *)
Theorem undescribed_invoice_cannot_be_read
    (event : GetInvoice.Request) (w : World) (u id : string) (item : Invoice.t) :
  GetInvoice.authorizer event = Authenticated u ->
  GetInvoice.invoice_id event = Some id ->
  id <> "" ->
  uuid4 id = true ->
  faults w = [] ->
  invoices w !! id = Some item ->
  described (InvoiceData.line_items (Invoice.data item)) = false ->
  get event w
  = (Refused 500 "An unexpected error occurred" "InternalError", w)
  /\ get_invoice u id w = (None, w).
Proof.
  intros Hu Hid Hne Huuid Hf Hitem Hblank.
  destruct event as [auth oid], w as [cs iv rl ss fs tr].
  simpl_request Hu. simpl_request Hid. simpl_request Hf. simpl_request Hitem.
  subst auth oid fs. apply String.eqb_neq in Hne.
  assert (Hraise : exists e,
            DynamoDBHelper.item_to_invoice (Invoice.set_invoice_id id item)
            = Raised e).
  { destruct (undescribed_items_raise _ Hblank) as (e & He). exists e.
    unfold DynamoDBHelper.item_to_invoice. cbn [Invoice.set_invoice_id Invoice.data].
    rewrite He. reflexivity. }
  destruct Hraise as (e & Hraise).
  split.
  - destruct (get _ _) as [r w'] eqn:H. unfold get in H.
    unfold_invoice_handlers H. simpl_request H.
    rewrite Hne, Huuid in H. simpl_request H. rewrite Hitem in H.
    cbn [Invoice.set_invoice_id] in Hraise. rewrite Hraise in H.
    injection H as <- <-. reflexivity.
  - unfold get_invoice, DynamoDBHelper.get_invoice, bind, store_call.
    cbn [faults invoices]. rewrite Hitem, Hraise. reflexivity.
Qed.

End GetInvoiceFacts.

(** * The further properties on concrete runs *)

(** X5 at work, on the scenario of the specification. *)
Lemma validated_invoice_is_well_formed_witness :
  exists inv,
    Demo.validate Demo.scenario = Valid inv
    /\ Demo.today - 90 <= InvoiceData.invoice_date inv
    /\ InvoiceData.invoice_date inv <= InvoiceData.due_date inv
    /\ InvoiceData.line_items inv <> [].
Proof.
  destruct (Demo.validate Demo.scenario) as [inv|] eqn:E;
    [|vm_compute in E; discriminate E].
  exists inv. split; [reflexivity|].
  destruct (validated_invoice_is_well_formed
              Demo.decimal_of_string PyDate.iso_date Demo.today Demo.scenario inv E)
    as (H1 & H2 & H3 & _).
  repeat split; assumption.
Defined.

(** X6 at work: dated 2023-01-01 and due 2023-02-01, validated on
    2024-01-15. *)
Lemma stale_invoice_date_moves_due_date_witness :
  exists inv,
    Demo.validate Demo.stale = Valid inv
    /\ InvoiceData.invoice_date inv = Demo.today
    /\ InvoiceData.due_date inv = Demo.today + 30.
Proof.
  destruct (Demo.validate Demo.stale) as [inv|] eqn:E;
    [|vm_compute in E; discriminate E].
  exists inv. split; [reflexivity|].
  apply (stale_invoice_date_moves_due_date
           Demo.decimal_of_string PyDate.iso_date Demo.today Demo.stale
           "2023-01-01" "2023-02-01" 738521 738552 inv).
  - reflexivity.
  - reflexivity.
  - reflexivity.
  - reflexivity.
  - exact E.
  - vm_compute. reflexivity.
  - vm_compute. reflexivity.
Defined.

(** X7 at work: dated today and due on 2030-01-01. *)
Lemma dates_in_range_are_kept_witness :
  exists inv,
    Demo.validate Demo.far_due = Valid inv
    /\ InvoiceData.invoice_date inv = 738900
    /\ InvoiceData.due_date inv = 741078.
Proof.
  destruct (Demo.validate Demo.far_due) as [inv|] eqn:E;
    [|vm_compute in E; discriminate E].
  exists inv. split; [reflexivity|].
  apply (dates_in_range_are_kept
           Demo.decimal_of_string PyDate.iso_date Demo.today Demo.far_due
           "2024-01-15" "2030-01-01" 738900 741078 inv).
  - reflexivity.
  - reflexivity.
  - reflexivity.
  - reflexivity.
  - exact E.
  - vm_compute. discriminate.
  - vm_compute. discriminate.
Defined.

(** X8 at work: a description of three spaces. *)
Lemma blank_description_is_stored_empty_witness :
  LineItem.create (JStr "   ") (Finite 2) (Finite 100) None
  = Done (LineItem.mk "" 2 100 true).
Proof.
  apply (blank_description_is_stored_empty "   " 2 100 None).
  - reflexivity.
  - cbn. lia.
  - reflexivity.
  - vm_compute. discriminate.
Defined.

(** X9 at work: markup and an apostrophe. *)
Lemma sanitized_text_is_inert_witness :
  exists out,
    sanitize_input Demo.no_pattern Demo.no_pattern "<b>Tom's</b> " 2000 = inr out
    /\ free_of unsafe out = true
    /\ PyStr.strip out = out
    /\ PyStr.len out <= 6 * 2000.
Proof.
  eexists. split; [reflexivity|].
  apply (sanitized_text_is_inert Demo.no_pattern Demo.no_pattern
           "<b>Tom's</b> " _ 2000).
  reflexivity.
Defined.

(** X10 at work. *)
Lemma plain_text_passes_unchanged_witness :
  sanitize_input Demo.no_pattern Demo.no_pattern "Invoice Acme for two widgets" 2000
  = inr "Invoice Acme for two widgets".
Proof.
  apply (plain_text_passes_unchanged Demo.no_pattern Demo.no_pattern
           "Invoice Acme for two widgets" 2000).
  - reflexivity.
  - reflexivity.
  - vm_compute. discriminate.
  - reflexivity.
  - reflexivity.
Defined.

(** X11 at work: a page of fifty. *)
Lemma requested_limit_is_bounded_witness :
  requested_limit Demo.int_of_string (Some "50") = Some (inr 50)
  /\ 1 <= 50 <= 100.
Proof.
  split; [reflexivity|].
  apply (requested_limit_is_bounded Demo.int_of_string (Some "50") 50).
  reflexivity.
Defined.

(** X13 at work: alice at the cap, 800 seconds into the window. *)
Lemma request_at_cap_is_refused_witness :
  Demo.run Demo.alice_starts (Demo.env Demo.chatty) Demo.with_busy
  = (ErrorResponse 429 (TryAgainAfter (1705312000 + 3600)) "RateLimitExceeded",
     Demo.with_busy).
Proof.
  apply (request_at_cap_is_refused
           Demo.json_loads Demo.decimal_of_string PyDate.iso_date
           Demo.no_pattern Demo.no_pattern
           Demo.alice_starts (Demo.env Demo.chatty) Demo.with_busy "alice"
           Demo.busy).
  - reflexivity.
  - reflexivity.
  - reflexivity.
  - vm_compute. reflexivity.
  - vm_compute. reflexivity.
  - vm_compute. discriminate.
Defined.

(** X14 at work: the first request of alice. *)
Lemma expired_window_restarts_witness :
  check_rate_limit (Demo.env Demo.chatty) "alice" Demo.empty
  = (Value tt,
     mk_world ∅ ∅
       (<["alice" := RateLimit.mk "alice" 1 Demo.now (1705312800 + 3600)]> ∅) ∅ []
       [RateLimitPut (RateLimit.mk "alice" 1 Demo.now (1705312800 + 3600))]).
Proof.
  apply (expired_window_restarts (Demo.env Demo.chatty) "alice" ∅ ∅ ∅ ∅ []).
  exact I.
Defined.

(** X15 at work: a window of ten minutes, alice at the cap 800 seconds into
    it. *)
Lemma short_window_is_not_enforced_witness :
  check_rate_limit (Demo.short_window Demo.chatty) "alice" Demo.with_busy
  = (Value tt,
     mk_world ∅ ∅
       (<["alice" := RateLimit.mk "alice" 101 (mk_datetime 2024 1 1705312000)
                       1705315600]> {[ "alice" := Demo.busy ]})
       ∅ []
       [RateLimitPut
          (RateLimit.mk "alice" 101 (mk_datetime 2024 1 1705312000) 1705315600)]).
Proof.
  apply (short_window_is_not_enforced (Demo.short_window Demo.chatty) "alice"
           Demo.busy ∅ ∅ {[ "alice" := Demo.busy ]} ∅ []).
  - reflexivity.
  - vm_compute. discriminate.
  - vm_compute. reflexivity.
Defined.

(** X17 at work: five invoices counted in December, checked in January. *)
Lemma month_rollover_resets_count_witness :
  DynamoDBHelper.check_and_reset_monthly_count "alice" Demo.now
    (mk_world ∅ ∅ ∅ {[ "alice" := Demo.last_month ]} [] [])
  = (Value (Subscription.mk (Some "free") (Some 0)
              (Some (mk_datetime 2023 12 1701500000))),
     mk_world ∅ ∅ ∅
       (<["alice" := Subscription.mk (Some "free") (Some 0) (Some Demo.now)]>
          {[ "alice" := Demo.last_month ]})
       []
       [SubscriptionWrite "alice"
          (Subscription.mk (Some "free") (Some 0) (Some Demo.now))]).
Proof.
  apply (month_rollover_resets_count "alice" Demo.now
           (mk_datetime 2023 12 1701500000) Demo.last_month
           ∅ ∅ ∅ {[ "alice" := Demo.last_month ]} []).
  - reflexivity.
  - reflexivity.
  - left. vm_compute. discriminate.
Defined.

(** X18 at work: five invoices counted this month. *)
Lemma monthly_check_reads_only_in_same_month_witness :
  DynamoDBHelper.check_and_reset_monthly_count "alice" Demo.now Demo.with_quota_used
  = (Value Demo.at_cap, Demo.with_quota_used).
Proof.
  apply (monthly_check_reads_only_in_same_month "alice" Demo.now Demo.at_cap
           ∅ ∅ ∅ {[ "alice" := Demo.at_cap ]} []).
  - reflexivity.
  - reflexivity.
Defined.

(** X19 at work: the third invoice of alice this month. *)
Lemma increment_after_check_counts_one_more_witness :
  exists before stored w2,
    DynamoDBHelper.increment_monthly_invoice_count "alice" Demo.with_quota_left
    = (Value 3, w2)
    /\ subscriptions Demo.with_quota_left !! "alice" = Some before
    /\ subscriptions w2 = <["alice" := stored]> (subscriptions Demo.with_quota_left)
    /\ stored
       = Subscription.mk (Subscription.subscription_status before) (Some 3)
           (Subscription.invoice_count_reset_at before)
    /\ Subscription.subscription_status before = Some "free"
    /\ conversations w2 = ∅ /\ invoices w2 = ∅ /\ rate_limits w2 = ∅.
Proof.
  apply (increment_after_check_counts_one_more "alice" Demo.now Demo.below_cap
           Demo.with_quota_left Demo.with_quota_left).
  - reflexivity.
  - reflexivity.
Defined.


(** X21 at work, on the same turn. *)
Lemma invoice_written_only_when_ready_witness :
  exists w' inv,
    Demo.run Demo.alice_confirms (Demo.env Demo.creating_exact) Demo.with_quota_left
    = (SuccessResponse
         (InvoiceReady "conv-0001" Demo.exact_text "inv-0001" inv (Some 2)), w')
    /\ exists u,
         authorizer Demo.alice_confirms = Authenticated u
         /\ invoices w'
            = <["inv-0001" :=
                  Invoice.mk "inv-0001" u (Some "conv-0001") inv DRAFT None
                    Demo.now Demo.now]> ∅
         /\ "inv-0001" = "inv-0001"
         /\ 0 <= 2.
Proof.
  destruct (Demo.run Demo.alice_confirms (Demo.env Demo.creating_exact)
              Demo.with_quota_left) as [r w'] eqn:E.
  destruct r as [? ? ?|[| id msg iid inv [k|] | | |]];
    try (vm_compute in E; discriminate E).
  assert (id = "conv-0001" /\ msg = Demo.exact_text /\ iid = "inv-0001" /\ k = 2)
    as (-> & -> & -> & ->).
  { vm_compute in E. injection E as <- <- <- _ <- _. repeat split. }
  exists w', inv. split; [reflexivity|].
  apply (invoice_written_only_when_ready
           Demo.json_loads Demo.decimal_of_string PyDate.iso_date
           Demo.no_pattern Demo.no_pattern
           Demo.alice_confirms (Demo.env Demo.creating_exact) Demo.with_quota_left w'
           (InvoiceReady "conv-0001" Demo.exact_text "inv-0001" inv (Some 2))).
  exact E.
Defined.

(** X22 at work: the store fails when the invoice is counted. *)
Lemma failed_count_leaves_invoice_uncounted_witness :
  fst (Demo.run Demo.alice_confirms (Demo.env Demo.creating) Demo.count_fails)
  = ErrorResponse 500 (Literal "Database error occurred") "DatabaseError"
  /\ (exists i,
        invoices (snd (Demo.run Demo.alice_confirms (Demo.env Demo.creating)
                         Demo.count_fails)) !! "inv-0001" = Some i)
  /\ subscriptions (snd (Demo.run Demo.alice_confirms (Demo.env Demo.creating)
                           Demo.count_fails))
     = {[ "alice" := Demo.below_cap ]}.
Proof.
  destruct (Demo.begin Demo.alice_confirms (Demo.env Demo.creating)
              Demo.count_fails) as [[[[[u c] reply] [[| | | | | | |kvs]|]]|?|?] w1] eqn:Hb;
    try (vm_compute in Hb; discriminate Hb).
  destruct (Demo.validate (JObj kvs)) as [inv|] eqn:Hv;
    [|vm_compute in Hb; injection Hb as _ _ _ <- _; vm_compute in Hv; discriminate Hv].
  pose proof (failed_count_leaves_invoice_uncounted
                Demo.json_loads Demo.decimal_of_string PyDate.iso_date
                Demo.no_pattern Demo.no_pattern
                Demo.alice_confirms (Demo.env Demo.creating) Demo.count_fails
                w1 u reply c kvs Demo.below_cap inv []) as Hrun.
  fold Demo.run in Hrun. cbv zeta in Hrun. rewrite Hrun.
  - cbn [fst snd invoices subscriptions]. split; [reflexivity|].
    split; [eexists; apply lookup_insert_eq|].
    vm_compute in Hb. injection Hb as _ _ _ _ <-. reflexivity.
  - exact Hb.
  - vm_compute in Hb. injection Hb as _ _ _ <- _. reflexivity.
  - exact Hv.
  - vm_compute in Hb. injection Hb as _ _ _ _ <-. reflexivity.
  - vm_compute in Hb. injection Hb as <- _ _ _ <-. reflexivity.
  - reflexivity.
  - right. vm_compute. reflexivity.
Defined.

(** X31 at work: the model writes the tax rate as the JSON number 0.10. The
    answer is 500, the invoice is stored and counted, and the conversation
    in the store is the empty one written when the turn began. *)
Lemma unwritable_payload_loses_turn_witness :
  serializable Demo.scenario = false
  /\ fst (Demo.run Demo.alice_confirms (Demo.env Demo.creating) Demo.with_quota_left)
     = ErrorResponse 500 (Literal "An unexpected error occurred") "InternalError"
  /\ (exists i,
        invoices (snd (Demo.run Demo.alice_confirms (Demo.env Demo.creating)
                         Demo.with_quota_left)) !! "inv-0001" = Some i)
  /\ subscriptions (snd (Demo.run Demo.alice_confirms (Demo.env Demo.creating)
                           Demo.with_quota_left)) !! "alice"
     = Some (Subscription.mk (Some "free") (Some 3)
               (Some (mk_datetime 2024 1 1704190000)))
  /\ Conversation.messages
       <$> conversations (snd (Demo.run Demo.alice_confirms (Demo.env Demo.creating)
                                 Demo.with_quota_left)) !! "conv-0001"
     = Some [].
Proof.
  split; [reflexivity|].
  destruct (Demo.begin Demo.alice_confirms (Demo.env Demo.creating)
              Demo.with_quota_left) as [[[[[u c] reply] [[| | | | | | |kvs]|]]|?|?] w1] eqn:Hb;
    try (vm_compute in Hb; discriminate Hb).
  destruct (Demo.validate (JObj kvs)) as [inv|] eqn:Hv;
    [|vm_compute in Hb; injection Hb as _ _ _ <- _; vm_compute in Hv; discriminate Hv].
  pose proof (unwritable_payload_loses_turn
                Demo.json_loads Demo.decimal_of_string PyDate.iso_date
                Demo.no_pattern Demo.no_pattern
                Demo.alice_confirms (Demo.env Demo.creating) Demo.with_quota_left
                w1 u reply c kvs Demo.below_cap inv) as Hrun.
  fold Demo.run in Hrun. cbv zeta in Hrun. rewrite Hrun.
  - cbn [fst snd invoices subscriptions conversations]. split; [reflexivity|].
    split; [eexists; apply lookup_insert_eq|].
    assert (Hu : u = "alice")
      by (vm_compute in Hb; injection Hb as <- _ _ _ _; reflexivity).
    subst u. split; [rewrite lookup_insert_eq; reflexivity|].
    vm_compute in Hb. injection Hb as _ _ _ <-. reflexivity.
  - exact Hb.
  - vm_compute in Hb. injection Hb as _ _ _ <- _. reflexivity.
  - exact Hv.
  - vm_compute in Hb. injection Hb as _ _ _ <- _. reflexivity.
  - reflexivity.
  - vm_compute in Hb. injection Hb as <- _ _ _ _. reflexivity.
  - reflexivity.
  - right. vm_compute. reflexivity.
Defined.

(** X23 at work: alice adds a message to her finished conversation. *)
Lemma successful_turn_appends_two_messages_witness :
  exists c' text reply,
    conversations (snd (Demo.run Demo.alice_asks (Demo.env Demo.chatty)
                          Demo.with_finished)) !! "conv-7" = Some c'
    /\ sanitize_input Demo.no_pattern Demo.no_pattern
         (PyStr.strip "One more thing") 2000 = inr text
    /\ Demo.chatty
         (Conversation.messages Demo.finished
          ++ [Message.mk role_user text Demo.now])%list = Some reply
    /\ Conversation.messages c'
       = ((Conversation.messages Demo.finished
           ++ [Message.mk role_user text Demo.now])
          ++ [Message.mk role_assistant reply Demo.now])%list.
Proof.
  apply (successful_turn_appends_two_messages
           Demo.json_loads Demo.decimal_of_string PyDate.iso_date
           Demo.no_pattern Demo.no_pattern
           Demo.alice_asks (Demo.env Demo.chatty) Demo.with_finished
           (snd (Demo.run Demo.alice_asks (Demo.env Demo.chatty) Demo.with_finished))
           (KeepGathering "conv-7" "Sure, what else do you need?")
           (Body.mk (Some "conv-7") "One more thing")).
  - vm_compute. reflexivity.
  - reflexivity.
Defined.

(** X24 at work: a message of one NUL character. *)
Lemma unusable_message_is_internal_error_witness :
  exists w' r,
    Demo.run Demo.alice_sends_nul (Demo.env Demo.chatty) Demo.empty
    = (ErrorResponse 500 (Literal "An unexpected error occurred") "InternalError",
       w')
    /\ trace w'
       = [RateLimitPut r;
          ConversationPut (Conversation.create "conv-0001" "alice" INITIATED Demo.now)]
    /\ conversations w'
       = <["conv-0001" := Conversation.create "conv-0001" "alice" INITIATED Demo.now]> ∅
    /\ invoices w' = ∅
    /\ subscriptions w' = ∅.
Proof.
  apply (unusable_message_is_internal_error
           Demo.json_loads Demo.decimal_of_string PyDate.iso_date
           Demo.no_pattern Demo.no_pattern
           Demo.alice_sends_nul (Demo.env Demo.chatty) Demo.empty "alice" ""
           (Body.mk None (String zero ""))).
  - reflexivity.
  - reflexivity.
  - reflexivity.
  - vm_compute. discriminate.
  - reflexivity.
  - reflexivity.
  - reflexivity.
  - reflexivity.
Defined.

(** X25 at work: alice at the cap posts a body that is not an object. *)
Lemma create_checks_quota_first_witness :
  Demo.create Demo.create_from_nothing (Demo.env Demo.chatty) Demo.with_quota_used
  = (UsageLimitExceeded 5 5, Demo.with_quota_used).
Proof.
  apply (create_checks_quota_first Demo.decimal_of_string PyDate.iso_date
           Demo.create_from_nothing (Demo.env Demo.chatty) Demo.with_quota_used
           "alice" Demo.at_cap 5).
  - reflexivity.
  - discriminate.
  - reflexivity.
  - reflexivity.
  - reflexivity.
  - reflexivity.
  - vm_compute. discriminate.
  - reflexivity.
Defined.

(** X26 at work: alice creates an invoice from her finished
    conversation. *)
Lemma create_from_conversation_ignores_state_witness :
  exists inv,
    Conversation.state Demo.finished = COMPLETED
    /\ Demo.validate Demo.exact = Valid inv
    /\ fst (Demo.create Demo.create_from_finished (Demo.env Demo.chatty)
              Demo.finished_with_quota_left)
       = Created (Invoice.mk "inv-0001" "alice" (Some "conv-7") inv DRAFT None
                    Demo.now Demo.now).
Proof.
  destruct (Demo.validate Demo.exact) as [inv|] eqn:Hv;
    [|vm_compute in Hv; discriminate Hv].
  exists inv. split; [reflexivity|]. split; [reflexivity|].
  unfold Demo.create.
  rewrite (create_from_conversation_ignores_state
             Demo.decimal_of_string PyDate.iso_date
             Demo.create_from_finished (Demo.env Demo.chatty)
             Demo.finished_with_quota_left "alice" "conv-7"
             (CreateInvoice.mk_body (Some "conv-7") None) Demo.finished
             Demo.exact inv Demo.below_cap).
  - reflexivity.
  - reflexivity.
  - reflexivity.
  - reflexivity.
  - discriminate.
  - reflexivity.
  - reflexivity.
  - reflexivity.
  - reflexivity.
  - exact Hv.
  - reflexivity.
  - reflexivity.
  - reflexivity.
  - right. vm_compute. reflexivity.
Defined.

(** X27 at work, on the same request. *)
Lemma create_writes_invoice_only_witness :
  conversations (snd (Demo.create Demo.create_from_finished (Demo.env Demo.chatty)
                        Demo.finished_with_quota_left))
  = {[ "conv-7" := Demo.finished ]}
  /\ rate_limits (snd (Demo.create Demo.create_from_finished (Demo.env Demo.chatty)
                         Demo.finished_with_quota_left)) = ∅.
Proof.
  destruct (create_writes_invoice_only
              Demo.decimal_of_string PyDate.iso_date
              Demo.create_from_finished (Demo.env Demo.chatty)
              Demo.finished_with_quota_left
              (snd (Demo.create Demo.create_from_finished (Demo.env Demo.chatty)
                      Demo.finished_with_quota_left))
              (fst (Demo.create Demo.create_from_finished (Demo.env Demo.chatty)
                      Demo.finished_with_quota_left)))
    as (Hc & Hr & _).
  - apply surjective_pairing.
  - split; assumption.
Defined.

(** X28 at work: the invoice of the scenario reads back. *)
Lemma validated_invoice_reads_back_witness :
  exists inv,
    Demo.validate Demo.scenario = Valid inv
    /\ DynamoDBHelper.item_to_invoice
         (Invoice.mk Demo.invoice_key "alice" None inv DRAFT None Demo.now Demo.now)
       = Done (Invoice.mk Demo.invoice_key "alice" None inv DRAFT None
                 Demo.now Demo.now).
Proof.
  destruct (Demo.validate Demo.scenario) as [inv|] eqn:Hv;
    [|vm_compute in Hv; discriminate Hv].
  exists inv. split; [reflexivity|].
  rewrite (validated_invoice_reads_back
             Demo.decimal_of_string PyDate.iso_date Demo.today Demo.scenario inv
             Demo.invoice_key "alice" None DRAFT None Demo.now Demo.now Hv).
  - vm_compute in Hv. injection Hv as <-. reflexivity.
  - cbn. lia.
Defined.

(** X29 at work: alice reads her invoice. *)
Lemma invoice_is_shown_to_owner_only_witness :
  exists invoice,
    GetInvoice.handler Demo.uuid4 Demo.alice_reads Demo.with_invoice
    = (Details invoice, Demo.with_invoice)
    /\ GetInvoice.authorizer Demo.alice_reads
       = Authenticated (Invoice.user_id invoice)
    /\ exists item,
         invoices Demo.with_invoice !! Invoice.invoice_id invoice = Some item
         /\ Invoice.user_id item = Invoice.user_id invoice.
Proof.
  exists Demo.stored_invoice. split; [vm_compute; reflexivity|].
  apply (invoice_is_shown_to_owner_only Demo.uuid4 Demo.alice_reads
           Demo.with_invoice Demo.with_invoice (Details Demo.stored_invoice)).
  vm_compute. reflexivity.
Defined.

(** X30 at work: alice reads the invoice without a description. *)
Lemma undescribed_invoice_cannot_be_read_witness :
  GetInvoice.handler Demo.uuid4 Demo.alice_reads Demo.with_undescribed
  = (Refused 500 "An unexpected error occurred" "InternalError",
     Demo.with_undescribed)
  /\ get_invoice "alice" Demo.invoice_key Demo.with_undescribed
     = (None, Demo.with_undescribed).
Proof.
  apply (undescribed_invoice_cannot_be_read Demo.uuid4 Demo.alice_reads
           Demo.with_undescribed "alice" Demo.invoice_key Demo.undescribed).
  - reflexivity.
  - reflexivity.
  - discriminate.
  - reflexivity.
  - reflexivity.
  - reflexivity.
  - reflexivity.
Defined.
